(** * Progress service: points, badges, streaks and analytics

    A shallow embedding of the gamification and analytics core of the
    progress service:

    - [app/gamification/points_engine.py]  ([PointsEngine])
    - [app/gamification/badge_engine.py]   ([BadgeEngine])
    - [app/routers/gamification.py]        (the points and streak endpoints)
    - [app/analytics/analytics_engine.py]  ([AnalyticsEngine])
    - [app/notifications/notification_engine.py]  (the rules of [NotificationEngine])
    - [app/models/gamification.py], [app/models/progress.py]  (the rows)

    Integers are [Z]; the arguments of the two float helpers of the
    analytics engine are read as the exact numbers they stand for ([Q]), and
    the other float operations are an interface of which nothing is assumed;
    calendar dates follow [datetime.date]; tables with a unique key are
    finite maps ([gmap]) keyed by it; the database session is an explicit
    state with a committed store, a transaction view and a plan of injected
    persistence failures. *)

From Stdlib Require Import ZArith QArith Qround Qminmax Lia Lqa.
From stdpp Require Import gmap strings list.

Local Open Scope Z_scope.

(** ** Exceptions and results *)

Inductive exn : Type :=
| DBError (code : nat)       (* a failure raised by the storage layer *)
| ValueError                 (* math domain error, invalid date field *)
| OverflowError              (* date value out of range *)
| TypeError                  (* comparison of a non-number *)
| AttributeError             (* an attribute the class does not have *)
| HTTPException (status : Z).

Inductive result (A : Type) : Type :=
| Ok (a : A)
| Raise (e : exn).
Arguments Ok {A} a.
Arguments Raise {A} e.

(** ** [datetime.date] *)

Module PyDate.

Record date : Type := mkdate { year : Z; month : Z; day : Z }.

Definition MINYEAR : Z := 1.
Definition MAXYEAR : Z := 9999.

Definition is_leap (y : Z) : bool :=
  (y mod 4 =? 0) && (negb (y mod 100 =? 0) || (y mod 400 =? 0)).

Definition days_in_month (y m : Z) : Z :=
  if (m =? 2) && is_leap y then 29
  else match m with
       | 1 => 31 | 2 => 28 | 3 => 31 | 4 => 30 | 5 => 31 | 6 => 30
       | 7 => 31 | 8 => 31 | 9 => 30 | 10 => 31 | 11 => 30 | 12 => 31
       | _ => -1
       end.

Definition days_before_year (y : Z) : Z :=
  let p := y - 1 in p * 365 + p / 4 - p / 100 + p / 400.

Definition days_before_month (y m : Z) : Z :=
  match m with
  | 1 => 0 | 2 => 31 | 3 => 59 | 4 => 90 | 5 => 120 | 6 => 151
  | 7 => 181 | 8 => 212 | 9 => 243 | 10 => 273 | 11 => 304 | 12 => 334
  | _ => -1
  end + (if (2 <? m) && is_leap y then 1 else 0).

(** The check of the [date] constructor. *)
Definition valid (d : date) : bool :=
  (MINYEAR <=? year d) && (year d <=? MAXYEAR) &&
  (1 <=? month d) && (month d <=? 12) &&
  (1 <=? day d) && (day d <=? days_in_month (year d) (month d)).

Definition toordinal (d : date) : Z :=
  days_before_year (year d) + days_before_month (year d) (month d) + day d.

(** [date.max.toordinal()], the ordinal of 9999-12-31. *)
Definition MAXORDINAL : Z := 3652059.

(** Monday is 0, Sunday is 6. *)
Definition weekday (d : date) : Z := (toordinal d + 6) mod 7.

(** [d.replace(day=n)]: the constructor runs again on the new fields. *)
Definition replace_day (d : date) (n : Z) : result date :=
  let d' := mkdate (year d) (month d) n in
  if valid d' then Ok d' else Raise ValueError.

(** Dates compare as their (year, month, day) triples. *)
Definition lt (a b : date) : bool :=
  (year a <? year b)
  || ((year a =? year b)
      && ((month a <? month b)
          || ((month a =? month b) && (day a <? day b)))).

Definition eqb (a b : date) : bool :=
  (year a =? year b) && (month a =? month b) && (day a =? day b).

(** The day after and the day before, in the proleptic Gregorian
    calendar. *)
Definition next_day (d : date) : date :=
  if day d <? days_in_month (year d) (month d)
  then mkdate (year d) (month d) (day d + 1)
  else if month d <? 12
       then mkdate (year d) (month d + 1) 1
       else mkdate (year d + 1) 1 1.

Definition prev_day (d : date) : date :=
  if 1 <? day d
  then mkdate (year d) (month d) (day d - 1)
  else if 1 <? month d
       then mkdate (year d) (month d - 1) (days_in_month (year d) (month d - 1))
       else mkdate (year d - 1) 12 31.

(** [d + timedelta(days=k)]: the result's ordinal is [toordinal d + k];
    outside [1 .. MAXORDINAL] the addition raises [OverflowError].  The
    date with that ordinal is reached by stepping day by day. *)
Definition add_days (d : date) (k : Z) : result date :=
  let o := toordinal d + k in
  if (0 <? o) && (o <=? MAXORDINAL)
  then Ok (if 0 <=? k
           then Nat.iter (Z.to_nat k) next_day d
           else Nat.iter (Z.to_nat (- k)) prev_day d)
  else Raise OverflowError.

(** [d - timedelta(days=k)] *)
Definition sub_days (d : date) (k : Z) : result date := add_days d (- k).

End PyDate.

(** ** Rows of the tables ([app/models])

    Primary keys generated by [uuid4] are left out; a table that declares a
    unique key is a finite map from that key to its row. *)

Module Points.
Record t : Type := mk {
  student_id : string;
  total_points : Z;
  current_level : Z;
  points_to_next_level : Z;
  lifetime_points : Z
}.
(** [Points(student_id=...)] once the column defaults are filled in. *)
Definition default (sid : string) : t := mk sid 0 1 100 0.
End Points.

Module PointHistory.
Record t : Type := mk {
  student_id : string;
  points_awarded : Z;
  reason : string;
  concept_id : option string;
  awarded_at : Z
}.
End PointHistory.

Module Badge.
Record t : Type := mk {
  id : string;
  name : string;
  description : string;
  icon_url : option string;
  points_value : Z;
  is_active : bool
}.
End Badge.

Module UserBadge.
Record t : Type := mk {
  student_id : string;
  badge_id : string;
  earned_at : Z
}.
End UserBadge.

Module Streak.
Record t : Type := mk {
  student_id : string;
  current_streak : Z;
  longest_streak : Z;
  last_activity_date : option PyDate.date;
  streak_started_date : option PyDate.date;
  total_active_days : Z
}.
End Streak.

(** The columns of [ConceptProgress] ([app/models/progress.py]), without the
    generated keys and the two score columns, which no query embedded here
    reads.  Timestamps are seconds. *)
Module ConceptProgress.
Record t : Type := mk {
  student_id : string;
  concept_id : string;
  status : string;
  attempts : Z;
  time_spent : Z;
  started_at : option Z;
  completed_at : option Z;
  mastered_at : option Z;
  last_accessed : option Z
}.
End ConceptProgress.

Module ProgressStatus.
Definition NOT_STARTED : string := "not_started".
Definition IN_PROGRESS : string := "in_progress".
Definition COMPLETED : string := "completed".
Definition MASTERED : string := "mastered".
End ProgressStatus.

(** ** The database and the session *)

Record Db : Type := mkDb {
  points : gmap string Points.t;                      (* unique student_id *)
  point_history : list PointHistory.t;
  badges : list Badge.t;
  user_badges : gmap (string * string) UserBadge.t;   (* unique (student_id, badge_id) *)
  streaks : gmap string Streak.t;                     (* unique student_id *)
  concept_progress : list ConceptProgress.t
}.

Definition empty_db : Db := mkDb ∅ [] [] ∅ ∅ [].

Definition set_points (f : gmap string Points.t -> gmap string Points.t) (db : Db) : Db :=
  mkDb (f (points db)) (point_history db) (badges db) (user_badges db)
       (streaks db) (concept_progress db).

Definition set_point_history (f : list PointHistory.t -> list PointHistory.t) (db : Db) : Db :=
  mkDb (points db) (f (point_history db)) (badges db) (user_badges db)
       (streaks db) (concept_progress db).

Definition set_user_badges
    (f : gmap (string * string) UserBadge.t -> gmap (string * string) UserBadge.t)
    (db : Db) : Db :=
  mkDb (points db) (point_history db) (badges db) (f (user_badges db))
       (streaks db) (concept_progress db).

Definition set_streaks (f : gmap string Streak.t -> gmap string Streak.t) (db : Db) : Db :=
  mkDb (points db) (point_history db) (badges db) (user_badges db)
       (f (streaks db)) (concept_progress db).

(** A session holds the durable store ([committed]), the view of the open
    transaction ([txn]: the durable store plus every pending change), the
    outcome of the storage calls still to come ([faults]: [Some e] makes the
    next call raise [e]), and the clock readings [datetime.utcnow()] and
    [date.today()]. *)
Record Session : Type := mkSession {
  committed : Db;
  txn : Db;
  faults : list (option exn);
  utcnow : Z;
  today : PyDate.date
}.

Definition with_txn (f : Db -> Db) (s : Session) : Session :=
  mkSession (committed s) (f (txn s)) (faults s) (utcnow s) (today s).

Definition with_committed (db : Db) (s : Session) : Session :=
  mkSession db (txn s) (faults s) (utcnow s) (today s).

Definition with_faults (fs : list (option exn)) (s : Session) : Session :=
  mkSession (committed s) (txn s) fs (utcnow s) (today s).

(** Code that reads and writes the session and may raise. *)
Definition M (A : Type) : Type := Session -> result A * Session.

Definition ret {A} (a : A) : M A := fun s => (Ok a, s).

Definition raise {A} (e : exn) : M A := fun s => (Raise e, s).

Definition lift {A} (r : result A) : M A := fun s => (r, s).

Definition bind {A B} (m : M A) (k : A -> M B) : M B :=
  fun s => match m s with
           | (Ok a, s') => k a s'
           | (Raise e, s') => (Raise e, s')
           end.

(** [try: body except Exception as e: handler] *)
Definition try_except {A} (body : M A) (handler : exn -> M A) : M A :=
  fun s => match body s with
           | (Ok a, s') => (Ok a, s')
           | (Raise e, s') => handler e s'
           end.

Notation "'let!' x ':=' m 'in' k" := (bind m (fun x => k))
  (at level 10, x name, m at level 100, k at level 200).
Notation "'run!' m 'in' k" := (bind m (fun _ => k))
  (at level 10, m at level 100, k at level 200).

Definition get_utcnow : M Z := fun s => (Ok (utcnow s), s).
Definition get_today : M PyDate.date := fun s => (Ok (today s), s).

(** One call into the storage layer: it consumes the next planned outcome. *)
Definition db_step : M unit :=
  fun s => match faults s with
           | Some e :: fs => (Raise e, with_faults fs s)
           | None :: fs => (Ok tt, with_faults fs s)
           | [] => (Ok tt, s)
           end.

(** [await db.execute(select(...))]: the query sees the transaction view. *)
Definition db_execute {A} (q : Db -> A) : M A :=
  run! db_step in fun s => (Ok (q (txn s)), s).

(** [db.add(obj)] and attribute assignment on a loaded row: recorded by the
    unit of work, no storage call. *)
Definition db_update (f : Db -> Db) : M unit :=
  fun s => (Ok tt, with_txn f s).

Definition db_flush : M unit := db_step.

Definition db_refresh : M unit := db_step.

(** [await db.commit()]: on success the transaction view becomes durable. *)
Definition db_commit : M unit :=
  run! db_step in fun s => (Ok tt, with_committed (txn s) s).

(** [await db.rollback()]: every pending change is dropped.  The rollback
    itself is taken to succeed. *)
Definition db_rollback : M unit :=
  fun s => (Ok tt, with_txn (fun _ => committed s) s).

(** ** Points engine ([app/gamification/points_engine.py]) *)

Module PointsEngine.

(** [int(math.sqrt(total_points / 100)) + 1].  The quotient and the root
    are floats in the source.  For a total that fits the 32-bit [Integer]
    column a quotient that is a perfect square is computed exactly, as is its
    root, and any other root is at least 1e-6 away from the next integer,
    far more than the two roundings can move it; so the truncated root is the
    integer square root of the integer quotient. *)
Definition level_for (total : Z) : Z := Z.sqrt (total / 100) + 1.

(** [_check_level_up]: returns the flag and the mutated row;
    [math.sqrt] raises [ValueError] on a negative argument. *)
Definition _check_level_up (p : Points.t) : result (bool * Points.t) :=
  if Points.total_points p <? 0 then Raise ValueError
  else
    let new_level := level_for (Points.total_points p) in
    if Points.current_level p <? new_level
    then Ok (true,
             Points.mk (Points.student_id p) (Points.total_points p)
               new_level
               (new_level ^ 2 * 100 - Points.total_points p)
               (Points.lifetime_points p))
    else Ok (false,
             Points.mk (Points.student_id p) (Points.total_points p)
               (Points.current_level p)
               (Points.current_level p ^ 2 * 100 - Points.total_points p)
               (Points.lifetime_points p)).

(** [p.total_points += pts; p.lifetime_points += pts] *)
Definition credited (p : Points.t) (pts : Z) : Points.t :=
  Points.mk (Points.student_id p) (Points.total_points p + pts)
    (Points.current_level p) (Points.points_to_next_level p)
    (Points.lifetime_points p + pts).

Definition _get_or_create_points (student_id : string) : M Points.t :=
  let! found := db_execute (fun db => points db !! student_id) in
  match found with
  | Some p => ret p
  | None =>
      let p := Points.default student_id in
      run! db_update (set_points (insert student_id p)) in
      run! db_flush in
      ret p
  end.

Record award : Type := mk_award {
  points_awarded : Z;
  total_points : Z;
  current_level : Z;
  level_up : bool
}.

Definition award_points (student_id : string) (pts : Z) (reason : string)
    (concept_id : option string) : M award :=
  try_except
    (let! student_points := _get_or_create_points student_id in
     let student_points := credited student_points pts in
     let! checked := lift (_check_level_up student_points) in
     let '(level_up, student_points) := checked in
     run! db_update (set_points (insert student_id student_points)) in
     let! now := get_utcnow in
     let history := PointHistory.mk student_id pts reason concept_id now in
     run! db_update (set_point_history (fun h => h ++ [history])) in
     run! db_commit in
     ret (mk_award pts (Points.total_points student_points)
            (Points.current_level student_points) level_up))
    (fun e =>
       run! db_rollback in
       raise e).

End PointsEngine.

(** ** Badge engine ([app/gamification/badge_engine.py]) *)

(** Values of the [event_data] dictionary. *)
Inductive pyval : Type :=
| PyNone
| PyInt (n : Z)
| PyStr (s : string).

Definition truthy (v : pyval) : bool :=
  match v with
  | PyNone => false
  | PyInt n => negb (n =? 0)
  | PyStr s => negb (String.eqb s "")
  end.

(** [v >= n] for an integer [n]. *)
Definition py_ge (v : pyval) (n : Z) : result bool :=
  match v with
  | PyInt m => Ok (n <=? m)
  | _ => Raise TypeError
  end.

(** [d.get(key, dflt)] *)
Definition dict_get (d : gmap string pyval) (key : string) (dflt : pyval) : pyval :=
  default dflt (d !! key).

Module BadgeEngine.

(** The rows counted by the "Quick Learner" query. *)
Definition mastered_since (student_id : string) (since : Z)
    (c : ConceptProgress.t) : bool :=
  String.eqb (ConceptProgress.student_id c) student_id
  && String.eqb (ConceptProgress.status c) ProgressStatus.MASTERED
  && match ConceptProgress.mastered_at c with
     | Some t => since <=? t
     | None => false
     end.

Definition _check_badge_criteria (student_id : string) (badge : Badge.t)
    (event_type : string) (event_data : gmap string pyval) : M bool :=
  if String.eqb (Badge.name badge) "Quick Learner" then
    if String.eqb event_type "concept_mastered" then
      let! now := get_utcnow in
      let! rows := db_execute (fun db =>
                     filter (fun c => mastered_since student_id (now - 86400) c = true)
                            (concept_progress db)) in
      let mastered_today := Z.of_nat (length rows) in
      ret (5 <=? mastered_today)
    else ret false
  else if String.eqb (Badge.name badge) "Consistency King" then
    if String.eqb event_type "daily_streak" then
      lift (py_ge (dict_get event_data "streak_days" (PyInt 0)) 7)
    else ret false
  else if String.eqb (Badge.name badge) "Subject Master" then
    if String.eqb event_type "concept_mastered" then
      let subject := dict_get event_data "subject" PyNone in
      if truthy subject then
        lift (py_ge (dict_get event_data "subject_completion" (PyInt 0)) 100)
      else ret false
    else ret false
  else ret false.

Definition _award_badge (student_id : string) (badge : Badge.t)
    : M (option UserBadge.t) :=
  let! existing :=
    db_execute (fun db => user_badges db !! (student_id, Badge.id badge)) in
  match existing with
  | Some _ => ret None
  | None =>
      let! now := get_utcnow in
      let user_badge := UserBadge.mk student_id (Badge.id badge) now in
      run! db_update
             (set_user_badges (insert (student_id, Badge.id badge) user_badge)) in
      try_except
        (run! db_commit in ret (Some user_badge))
        (fun e => run! db_rollback in ret None)
  end.

(** An entry of the returned list. *)
Record earned : Type := mk_earned {
  badge_id : string;
  name : string;
  description : string;
  icon_url : option string;
  points_value : Z
}.

Definition earned_of (badge : Badge.t) : earned :=
  mk_earned (Badge.id badge) (Badge.name badge) (Badge.description badge)
    (Badge.icon_url badge) (Badge.points_value badge).

(** The [for badge in badges] loop; [earned_badges] is the list built so
    far. *)
Fixpoint award_loop (student_id event_type : string)
    (event_data : gmap string pyval) (badges : list Badge.t)
    (earned_badges : list earned) : M (list earned) :=
  match badges with
  | [] => ret earned_badges
  | badge :: rest =>
      let! met := _check_badge_criteria student_id badge event_type event_data in
      if met then
        let! user_badge := _award_badge student_id badge in
        match user_badge with
        | Some _ =>
            award_loop student_id event_type event_data rest
              (earned_badges ++ [earned_of badge])
        | None =>
            award_loop student_id event_type event_data rest earned_badges
        end
      else award_loop student_id event_type event_data rest earned_badges
  end.

Definition check_and_award_badges (student_id event_type : string)
    (event_data : gmap string pyval) : M (list earned) :=
  let! active := db_execute (fun db =>
                   filter (fun b => Badge.is_active b = true) (badges db)) in
  award_loop student_id event_type event_data active [].

End BadgeEngine.

(** ** Streak endpoints ([app/routers/gamification.py]) *)

(** The decoded token of the caller. *)
Record User : Type := mkUser { sub : string; roles : list string }.

Module Gamification.

Definition set_streak (student_id : string) (st : Streak.t) : Db -> Db :=
  set_streaks (insert student_id st).

Definition get_student_streak (student_id : string) (current_user : User)
    : M Streak.t :=
  if negb (String.eqb (sub current_user) student_id)
     && negb (existsb (String.eqb "instructor") (roles current_user))
  then raise (HTTPException 403)
  else
    let! found := db_execute (fun db => streaks db !! student_id) in
    let! streak :=
      match found with
      | Some st => ret st
      | None =>
          (* the column defaults: 0, 0, date.today, NULL, 0 *)
          let! today := get_today in
          let st := Streak.mk student_id 0 0 (Some today) None 0 in
          run! db_update (set_streak student_id st) in
          run! db_commit in
          run! db_refresh in
          ret st
      end in
    match Streak.last_activity_date streak with
    | Some last =>
        let! today := get_today in
        let! limit := lift (PyDate.sub_days today 1) in
        if PyDate.lt last limit then
          let st := Streak.mk (Streak.student_id streak) 0
                      (Streak.longest_streak streak)
                      (Streak.last_activity_date streak)
                      None
                      (Streak.total_active_days streak) in
          run! db_update (set_streak student_id st) in
          run! db_commit in
          ret st
        else ret streak
    | None => ret streak
    end.

(** The statements after the [if]/[else] of [update_streak]: commit,
    refresh, check for streak badges, return the row. *)
Definition commit_and_check_badges (student_id : string) (streak : Streak.t)
    : M Streak.t :=
  run! db_commit in
  run! db_refresh in
  run! BadgeEngine.check_and_award_badges student_id "daily_streak"
         {[ "streak_days" := PyInt (Streak.current_streak streak) ]} in
  ret streak.

Definition update_streak (student_id : string) (current_user : User)
    : M Streak.t :=
  if negb (String.eqb (sub current_user) student_id)
  then raise (HTTPException 403)
  else
    let! found := db_execute (fun db => streaks db !! student_id) in
    let! today := get_today in
    match found with
    | None =>
        (* last_activity_date takes its default, date.today *)
        let st := Streak.mk student_id 1 1 (Some today) (Some today) 1 in
        run! db_update (set_streak student_id st) in
        commit_and_check_badges student_id st
    | Some streak =>
        if match Streak.last_activity_date streak with
           | Some last => PyDate.eqb last today
           | None => false
           end
        then ret streak
        else
          let! yesterday := lift (PyDate.sub_days today 1) in
          let continues :=
            match Streak.last_activity_date streak with
            | Some last => PyDate.eqb last yesterday
            | None => false
            end in
          let st :=
            if continues then
              let current := Streak.current_streak streak + 1 in
              Streak.mk (Streak.student_id streak) current
                (if Streak.longest_streak streak <? current
                 then current else Streak.longest_streak streak)
                (Some today)
                (Streak.streak_started_date streak)
                (Streak.total_active_days streak + 1)
            else
              Streak.mk (Streak.student_id streak) 1
                (Streak.longest_streak streak)
                (Some today)
                (Some today)
                (Streak.total_active_days streak + 1) in
          run! db_update (set_streak student_id st) in
          commit_and_check_badges student_id st
    end.

End Gamification.

(** ** Analytics engine ([app/analytics/analytics_engine.py]) *)

Definition result_bind {A B} (r : result A) (k : A -> result B) : result B :=
  match r with
  | Ok a => k a
  | Raise e => Raise e
  end.

Notation "'let?' x ':=' r 'in' k" := (result_bind r (fun x => k))
  (at level 10, x name, r at level 100, k at level 200).

(** [max(0, x)] as Python evaluates it: the first argument is kept unless
    the second is strictly beyond it. *)
Definition py_max0 (x : Q) : Q := if Qle_bool x 0 then 0%Q else x.

(** [x or 0] on a nullable number. *)
Definition or_zero (x : option Q) : Q :=
  match x with
  | Some q => if Qeq_bool q 0 then 0%Q else q
  | None => 0%Q
  end.

(** Python's [float].  The operations that the analytics engine applies to
    floats are an interface: nothing is assumed about them, so what is proved
    of the code that uses them holds for IEEE doubles as for every other
    reading. *)
Class PyFloat : Type := {
  float : Type;
  float_of_Q : Q -> float;              (* a literal, and [float(x)] *)
  int_truediv : Z -> Z -> float;        (* [m / n] on two ints *)
  int_div_float : Z -> float -> float;  (* [m / x] on an int and a float *)
  float_leb : float -> float -> bool;   (* [x <= y] *)
  float_ltb : float -> float -> bool;   (* [x < y] *)
  int_of_float : float -> result Z;     (* [int(x)] *)
  timedelta_days : float -> result Z;   (* the days of [timedelta(days=x)] *)
  float_value : float -> Q              (* the number a float stands for *)
}.

(** [now - timedelta(days=k)] on a [datetime] counted in seconds from
    1970-01-01: a [timedelta] holds at most 999999999 days, and the result
    must lie between 0001-01-01 00:00:00 and the end of 9999-12-31; both
    checks raise [OverflowError]. *)
Definition datetime_sub_days (now k : Z) : result Z :=
  if Z.abs k <=? 999999999 then
    let t := now - k * 86400 in
    if ((1 - 719163) * 86400 <=? t) && (t <? (PyDate.MAXORDINAL + 1 - 719163) * 86400)
    then Ok t
    else Raise OverflowError
  else Raise OverflowError.

(** A statement that names an attribute which the mapped class does not
    have, as in [ConceptProgress.last_attempted_at]: the lookup on the class
    raises [AttributeError] while the statement is built, before it reaches
    [db.execute]. *)
Definition no_attribute {A} (class_ name : string) : M A := raise AttributeError.

Inductive recommendation : Type :=
| NeedMoreData
    (* "Need more learning data to make predictions" *)
| OnTrack (pace : Q)
    (* "At your current pace of {pace:.1f} concepts/day, you're on track to
       complete soon!" *)
| MaintainPace (pace : Q)
    (* "Maintain your pace of {pace:.1f} concepts/day to complete within 3
       months." *)
| IncreasePace (target_velocity : Q).
    (* "Increase your pace to {target_velocity:.1f} concepts/day to complete
       within 2 months." *)

Module AnalyticsEngine.

Definition _get_date_range (period : string) (target_date : PyDate.date)
    : result (PyDate.date * PyDate.date) :=
  if String.eqb period "daily" then Ok (target_date, target_date)
  else if String.eqb period "weekly" then
    let? start := PyDate.sub_days target_date (PyDate.weekday target_date) in
    let? end_ := PyDate.add_days start 6 in
    Ok (start, end_)
  else
    let? start := PyDate.replace_day target_date 1 in
    let? day28 := PyDate.replace_day start 28 in
    let? next_month := PyDate.add_days day28 4 in
    let? end_ := PyDate.sub_days next_month (PyDate.day next_month) in
    Ok (start, end_).

Definition _calculate_efficiency_score (avg_attempts avg_hours : Q) : Q :=
  let attempt_score := py_max0 (100 - (avg_attempts - 1) * 20)%Q in
  let time_score := py_max0 (100 - avg_hours * 2)%Q in
  ((attempt_score + time_score) / 2)%Q.

Definition _get_completion_recommendation (estimated_days velocity : Q)
    : recommendation :=
  if negb (Qle_bool 30 estimated_days) then OnTrack velocity
  else if negb (Qle_bool 90 estimated_days) then MaintainPace velocity
  else
    let target_velocity := (estimated_days / 60)%Q in
    IncreasePace target_velocity.

Record prediction : Type := mk_prediction {
  estimated_days : option Z;
  estimated_completion_date : option PyDate.date;
  confidence : string;
  daily_target : option Z;
  recommendation_ : recommendation
}.

Section Floats.
Context `{PyFloat}.

(** The select names [ConceptProgress.last_attempted_at]; the class has
    [started_at], [completed_at], [mastered_at] and [last_accessed]. *)
Definition calculate_learning_velocity (student_id : string) (days : Z) : M float :=
  let! now := get_utcnow in
  let! start_date := lift (datetime_sub_days now days) in
  let! data := no_attribute "ConceptProgress" "last_attempted_at" in
  let '(concepts, active_days) := (data : Z * Z) in
  if 0 <? active_days
  then ret (int_truediv concepts active_days)
  else ret (float_of_Q 0).

Record efficiency : Type := mk_efficiency {
  average_attempts_to_mastery : float;
  average_hours_to_mastery : float;
  efficiency_score : Q
}.

(** The select names [ConceptProgress.created_at]. *)
Definition calculate_mastery_efficiency (student_id : string) : M efficiency :=
  let! data := no_attribute "ConceptProgress" "created_at" in
  let '(avg_attempts, avg_hours_to_mastery) := (data : option Q * option Q) in
  ret (mk_efficiency
         (float_of_Q (or_zero avg_attempts))
         (float_of_Q (or_zero avg_hours_to_mastery))
         (_calculate_efficiency_score (or_zero avg_attempts)
                                      (or_zero avg_hours_to_mastery))).

(** The select names [ConceptProgress.last_attempted_at] and
    [ConceptProgress.created_at]. *)
Definition _calculate_learning_consistency (student_id : string) : M float :=
  let! data := no_attribute "ConceptProgress" "last_attempted_at" in
  let '(active_days, total) := (data : Z * option Z) in
  match total with
  | Some total_days =>
      if 0 <? total_days
      then
        (* min(1.0, active_days / total_days) *)
        let ratio := int_truediv active_days total_days in
        ret (if float_ltb ratio (float_of_Q 1) then ratio else float_of_Q 1)
      else ret (float_of_Q 0)
  | None => ret (float_of_Q 0)
  end.

Definition predict_completion_time (student_id : string)
    (remaining_concepts : Z) : M prediction :=
  let! velocity := calculate_learning_velocity student_id 30 in
  if float_leb velocity (float_of_Q 0) then
    ret (mk_prediction None None "low" None NeedMoreData)
  else
    let estimated_days := int_div_float remaining_concepts velocity in
    let! consistency := _calculate_learning_consistency student_id in
    let confidence :=
      if float_ltb (float_of_Q (4 # 5)) consistency then "high"
      else if float_ltb (float_of_Q (1 # 2)) consistency then "medium"
      else "low" in
    let! days := lift (int_of_float estimated_days) in
    let! today := get_today in
    let! whole_days := lift (timedelta_days estimated_days) in
    let! completion := lift (PyDate.add_days today whole_days) in
    let! target := lift (int_of_float velocity) in
    ret (mk_prediction
           (Some days)
           (Some completion)
           confidence
           (Some target)
           (_get_completion_recommendation (float_value estimated_days)
                                           (float_value velocity))).

End Floats.

End AnalyticsEngine.

(** * Vocabulary of the statements *)

(** ** Dates *)

(** A month and a day of that month, in any year. *)
Definition wf_md (d : PyDate.date) : Prop :=
  1 <= PyDate.month d <= 12
  /\ 1 <= PyDate.day d <= PyDate.days_in_month (PyDate.year d) (PyDate.month d).

(** The date four days after the 28th of month [m]: a day of the
    following month. *)
Definition after_day28 (y m : Z) : PyDate.date :=
  PyDate.mkdate (if m =? 12 then y + 1 else y) (if m =? 12 then 1 else m + 1)
                (32 - PyDate.days_in_month y m).

(** ** Sessions *)

(** No storage call of the session fails. *)
Definition fault_free (s : Session) : Prop :=
  Forall (fun f => f = None) (faults s).

(** The first failure among the next [n] storage calls. *)
Fixpoint next_fault (n : nat) (fs : list (option exn)) : option exn :=
  match n, fs with
  | S _, Some e :: _ => Some e
  | S n, None :: fs => next_fault n fs
  | _, _ => None
  end.

(** Both stores and the clock are the same; only the plan of failures may
    have advanced. *)
Definition same_store (s s' : Session) : Prop :=
  committed s' = committed s /\ txn s' = txn s
  /\ utcnow s' = utcnow s /\ today s' = today s.

(** A session on a store with nothing pending, no failure planned, on
    2026-01-01 at 00:00 UTC. *)
Definition quiet_session (db : Db) : Session :=
  mkSession db db [] 1767225600 (PyDate.mkdate 2026 1 1).

(** ** Points *)

(** [level] is [floor(sqrt(total / 100)) + 1], the square root taken over
    the reals: [level - 1 <= sqrt(total / 100) < level]. *)
Definition is_level (total level : Z) : Prop :=
  1 <= level /\ 100 * (level - 1) ^ 2 <= total < 100 * level ^ 2.

(** The row [award_points] starts from: the stored one, or the defaults. *)
Definition prior_points (sid : string) (s : Session) : Points.t :=
  default (Points.default sid) (points (txn s) !! sid).

(** The storage calls of one [award_points]: select, flush when the row is
    created, commit. *)
Definition storage_calls (sid : string) (s : Session) : nat :=
  match points (txn s) !! sid with
  | Some _ => 2%nat
  | None => 3%nat
  end.

(** ** Badges *)

(** The pair is in the [user_badges] table, durably and in the session's
    view. *)
Definition awarded (key : string * string) (s : Session) : Prop :=
  is_Some (user_badges (txn s) !! key)
  /\ is_Some (user_badges (committed s) !! key).

(** What [_check_badge_criteria] computes from the stored rows and the
    clock. *)
Definition criteria_value (db : Db) (now : Z) (student_id : string)
    (badge : Badge.t) (event_type : string) (event_data : gmap string pyval)
    : result bool :=
  if String.eqb (Badge.name badge) "Quick Learner" then
    if String.eqb event_type "concept_mastered" then
      Ok (5 <=? Z.of_nat (length (filter
            (fun c => BadgeEngine.mastered_since student_id (now - 86400) c = true)
            (concept_progress db))))
    else Ok false
  else if String.eqb (Badge.name badge) "Consistency King" then
    if String.eqb event_type "daily_streak" then
      py_ge (dict_get event_data "streak_days" (PyInt 0)) 7
    else Ok false
  else if String.eqb (Badge.name badge) "Subject Master" then
    if String.eqb event_type "concept_mastered" then
      if truthy (dict_get event_data "subject" PyNone) then
        py_ge (dict_get event_data "subject_completion" (PyInt 0)) 100
      else Ok false
    else Ok false
  else Ok false.

(** Event data whose numeric entries are numbers. *)
Definition event_data_ok (ed : gmap string pyval) : Prop :=
  forall key v, key = "streak_days" \/ key = "subject_completion" ->
                ed !! key = Some v -> exists n, v = PyInt n.

(** The rows and the clock that the criteria read are the same. *)
Definition same_rows (s s' : Session) : Prop :=
  concept_progress (txn s') = concept_progress (txn s)
  /\ utcnow s' = utcnow s.

(** ** Streaks *)

(** The [streaks] table is [S], durably and in the session's view. *)
Definition streaks_are (S : gmap string Streak.t) (s : Session) : Prop :=
  streaks (txn s) = S /\ streaks (committed s) = S.

(** The caller may read the streak of [sid]. *)
Definition authorized (user : User) (sid : string) : Prop :=
  sub user = sid \/ "instructor" ∈ roles user.

(** A streak created by the first activity. *)
Definition first_streak (sid : string) (today : PyDate.date) : Streak.t :=
  Streak.mk sid 1 1 (Some today) (Some today) 1.

(** A streak continued from yesterday. *)
Definition continued (st : Streak.t) (today : PyDate.date) : Streak.t :=
  Streak.mk (Streak.student_id st) (Streak.current_streak st + 1)
    (Z.max (Streak.longest_streak st) (Streak.current_streak st + 1))
    (Some today) (Streak.streak_started_date st)
    (Streak.total_active_days st + 1).

(** A streak started again after a gap. *)
Definition restarted (st : Streak.t) (today : PyDate.date) : Streak.t :=
  Streak.mk (Streak.student_id st) 1 (Streak.longest_streak st)
    (Some today) (Some today) (Streak.total_active_days st + 1).

(** A streak found broken by a read. *)
Definition broken (st : Streak.t) : Streak.t :=
  Streak.mk (Streak.student_id st) 0 (Streak.longest_streak st)
    (Streak.last_activity_date st) None (Streak.total_active_days st).

(** ** Sample data *)

(** A catalog with the streak badge, and the event of a seven-day streak. *)
Definition consistency_king : Badge.t :=
  Badge.mk "badge-7" "Consistency King" "7-day learning streak" None 50 true.

Definition week_streak : gmap string pyval := {[ "streak_days" := PyInt 7 ]}.

(** A student last active on 2025-12-31, the day before the clock of
    [quiet_session], with a streak of three days. *)
Definition three_day_streak : Streak.t :=
  Streak.mk "student" 3 3 (Some (PyDate.mkdate 2025 12 31))
    (Some (PyDate.mkdate 2025 12 29)) 3.

(** A student last active on 2025-12-20. *)
Definition stale_streak : Streak.t :=
  Streak.mk "student" 5 9 (Some (PyDate.mkdate 2025 12 20))
    (Some (PyDate.mkdate 2025 12 16)) 30.

(** A reading of the float interface for the examples: the rationals, with
    exact operations. *)
Definition exact_floats : PyFloat := {|
  float := Q;
  float_of_Q q := q;
  int_truediv m n := (inject_Z m / inject_Z n)%Q;
  int_div_float m x := (inject_Z m / x)%Q;
  float_leb := Qle_bool;
  float_ltb x y := negb (Qle_bool y x);
  int_of_float x := Ok (if Qle_bool 0 x then Qfloor x else Qceiling x);
  timedelta_days x := Ok (Qfloor x);
  float_value x := x
|}.


(** * More of the service *)

(** ** Settings ([app/core/config.py]) *)

Module settings.
Definition POINTS_CONCEPT_STARTED : Z := 5.
Definition POINTS_CONCEPT_COMPLETED : Z := 10.
Definition POINTS_CONCEPT_MASTERED : Z := 25.
Definition POINTS_PERFECT_SCORE_BONUS : Z := 10.
Definition POINTS_DAILY_STREAK : Z := 5.
Definition POINTS_WEEKLY_GOAL : Z := 50.
End settings.

(** [v < n] for an integer [n]. *)
Definition py_lt (v : pyval) (n : Z) : result bool :=
  match v with
  | PyInt m => Ok (m <? n)
  | _ => Raise TypeError
  end.

(** ** Points of an event ([PointsEngine.calculate_event_points]) *)

Module EventPoints.

Definition points_map : gmap string Z :=
  {[ "concept_started" := settings.POINTS_CONCEPT_STARTED;
     "concept_completed" := settings.POINTS_CONCEPT_COMPLETED;
     "concept_mastered" := settings.POINTS_CONCEPT_MASTERED;
     "daily_streak" := settings.POINTS_DAILY_STREAK;
     "weekly_goal" := settings.POINTS_WEEKLY_GOAL ]}.

(** [metadata] is [None] when the argument is left out; [None] and the
    empty dictionary are both false. *)
Definition calculate_event_points (event_type : string)
    (metadata : option (gmap string pyval)) : result Z :=
  let base_points := default 0 (points_map !! event_type) in
  match metadata with
  | Some md =>
      if String.eqb event_type "concept_mastered" && negb (bool_decide (md = ∅)) then
        let base_points :=
          if truthy (dict_get md "perfect_score" PyNone)
          then base_points + settings.POINTS_PERFECT_SCORE_BONUS
          else base_points in
        (* Speed bonus *)
        let completion_time := dict_get md "completion_time" PyNone in
        let? fast := if truthy completion_time
                     then py_lt completion_time 300
                     else Ok false in
        Ok (if fast then base_points + 5 else base_points)
      else Ok base_points
  | None => Ok base_points
  end.

End EventPoints.

(** ** Points endpoints ([app/routers/gamification.py]) *)

Module PointsRoutes.

Definition get_student_points (student_id : string) (current_user : User)
    : M Points.t :=
  if negb (String.eqb (sub current_user) student_id)
     && negb (existsb (String.eqb "instructor") (roles current_user))
  then raise (HTTPException 403)
  else
    let! found := db_execute (fun db => points db !! student_id) in
    match found with
    | Some p => ret p
    | None =>
        (* Create default points record *)
        let p := Points.default student_id in
        run! db_update (set_points (insert student_id p)) in
        run! db_commit in
        run! db_refresh in
        ret p
    end.

(** The response of the award endpoint: the engine's result with the
    [earned_badges] entry added. *)
Record award_response : Type := mk_award_response {
  result_ : PointsEngine.award;
  earned_badges : list BadgeEngine.earned
}.

Definition award_points (student_id : string) (pts : Z) (reason : string)
    (concept_id : option string) (current_user : User) : M award_response :=
  if negb (existsb (String.eqb "instructor") (roles current_user))
     && negb (existsb (String.eqb "system") (roles current_user))
  then raise (HTTPException 403)
  else
    let! result := PointsEngine.award_points student_id pts reason concept_id in
    (* Check for badge eligibility *)
    let! earned_badges :=
      BadgeEngine.check_and_award_badges student_id "points_awarded"
        {[ "points" := PyInt pts;
           "total_points" := PyInt (PointsEngine.total_points result) ]} in
    ret (mk_award_response result earned_badges).

End PointsRoutes.

(** ** Period aggregates ([AnalyticsEngine], the queries of
    [calculate_student_analytics] over the tables embedded here) *)

(** A date compared with a timestamp column stands for its midnight;
    timestamps count seconds from 1970-01-01, whose ordinal is 719163. *)
Definition midnight (d : PyDate.date) : Z := (PyDate.toordinal d - 719163) * 86400.

(** SQL [t BETWEEN lo AND hi]: both ends included. *)
Definition between (t lo hi : Z) : bool := (lo <=? t) && (t <=? hi).

(** SQL [sum]: [NULL] over no rows. *)
Definition sql_sum (xs : list Z) : option Z :=
  match xs with
  | [] => None
  | _ => Some (foldr Z.add 0 xs)
  end.

Module PeriodAggregates.

(** The history rows of [_get_points_earned]. *)
Definition history_in (student_id : string) (lo hi : Z) (h : PointHistory.t) : bool :=
  String.eqb (PointHistory.student_id h) student_id
  && between (PointHistory.awarded_at h) lo hi.

Definition _get_points_earned (student_id : string)
    (start_date end_date : PyDate.date) : M Z :=
  let! upper := lift (PyDate.add_days end_date 1) in
  let! total := db_execute (fun db =>
    sql_sum (PointHistory.points_awarded
             <$> filter (fun h => history_in student_id (midnight start_date)
                                    (midnight upper) h = true)
                        (point_history db))) in
  ret (default 0 total).

(** The award rows of [_get_badges_earned]. *)
Definition badge_in (student_id : string) (lo hi : Z) (ub : UserBadge.t) : bool :=
  String.eqb (UserBadge.student_id ub) student_id
  && between (UserBadge.earned_at ub) lo hi.

Definition _get_badges_earned (student_id : string)
    (start_date end_date : PyDate.date) : M Z :=
  let! upper := lift (PyDate.add_days end_date 1) in
  let! count := db_execute (fun db =>
    Z.of_nat (length (filter (fun kv => badge_in student_id (midnight start_date)
                                          (midnight upper) kv.2 = true)
                             (map_to_list (user_badges db))))) in
  ret count.

End PeriodAggregates.

(** ** Notification rules ([app/notifications/notification_engine.py]) *)

Module NotificationEngine.

(** The preferences dictionary. *)
Record preferences : Type := mk_preferences {
  email_enabled : bool;
  push_enabled : bool;
  notification_types : gmap string bool;
  quiet_hours_enabled : bool;
  quiet_hours_start : Z;
  quiet_hours_end : Z
}.

(** [_get_notification_preferences]: the same for every student. *)
Definition _get_notification_preferences (student_id : string) : preferences :=
  mk_preferences true true
    {[ "progress_updates" := true; "badges_earned" := true;
       "milestones" := true; "reminders" := true; "weekly_summary" := true ]}
    true 22 8.

Definition category_map : gmap string string :=
  {[ "concept_completed" := "progress_updates";
     "concept_mastered" := "progress_updates";
     "badge_earned" := "badges_earned";
     "level_up" := "milestones";
     "streak_milestone" := "milestones";
     "daily_reminder" := "reminders";
     "weekly_summary" := "weekly_summary" ]}.

Definition _get_notification_category (event_type : string) : string :=
  default "progress_updates" (category_map !! event_type).

(** [datetime.utcnow().hour] *)
Definition hour_of (now : Z) : Z := (now mod 86400) / 3600.

Definition _should_send_notification (event_type : string)
    (prefs : preferences) : M bool :=
  let notification_category := _get_notification_category event_type in
  if negb (default true (notification_types prefs !! notification_category))
  then ret false
  else if quiet_hours_enabled prefs then
    let! now := get_utcnow in
    let current_hour := hour_of now in
    let start := quiet_hours_start prefs in
    let end_ := quiet_hours_end prefs in
    if end_ <? start then (* Crosses midnight *)
      if (start <=? current_hour) || (current_hour <? end_)
      then ret false else ret true
    else
      if (start <=? current_hour) && (current_hour <? end_)
      then ret false else ret true
  else ret true.

Definition _should_send_streak_warning (student_id : string) : M bool :=
  let! found := db_execute (fun db => streaks db !! student_id) in
  match found with
  | None => ret false
  | Some streak =>
      if Streak.current_streak streak <? 3 then ret false
      else
        let! today := get_today in
        let! yesterday := lift (PyDate.sub_days today 1) in
        ret match Streak.last_activity_date streak with
            | Some last => PyDate.eqb last yesterday
            | None => false
            end
  end.

End NotificationEngine.

(** ** Vocabulary of the further properties *)

(** The caller may award points. *)
Definition may_award (user : User) : Prop :=
  "instructor" ∈ roles user \/ "system" ∈ roles user.

(** The sum of the history entries of a student. *)
Definition history_total (sid : string) (db : Db) : Z :=
  foldr Z.add 0
    (PointHistory.points_awarded
     <$> filter (fun h => String.eqb (PointHistory.student_id h) sid = true)
                (point_history db)).

(** The points row of a student agrees with the history: the lifetime
    points are the sum of the entries, and nothing was ever deducted from the
    total. *)
Definition ledger_ok (sid : string) (db : Db) : Prop :=
  let p := default (Points.default sid) (points db !! sid) in
  Points.lifetime_points p = history_total sid db
  /\ Points.total_points p = Points.lifetime_points p.

(** One of the three rules of [_check_badge_criteria] names the badge and
    the event. *)
Definition rule_for (badge : Badge.t) (event_type : string) : Prop :=
  (Badge.name badge = "Quick Learner" /\ event_type = "concept_mastered")
  \/ (Badge.name badge = "Consistency King" /\ event_type = "daily_streak")
  \/ (Badge.name badge = "Subject Master" /\ event_type = "concept_mastered").

(** The streak counts are in order: the longest streak is at least one day
    and at least the current streak, and no longer than the days of
    activity. *)
Definition streak_ok (st : Streak.t) : Prop :=
  1 <= Streak.longest_streak st
  /\ Streak.current_streak st <= Streak.longest_streak st
  /\ Streak.longest_streak st <= Streak.total_active_days st.

(** The row [update_streak] leaves for a student. *)
Definition updated_streak (sid : string) (s : Session) (yesterday : PyDate.date)
    : Streak.t :=
  match streaks (txn s) !! sid with
  | None => first_streak sid (today s)
  | Some st =>
      match Streak.last_activity_date st with
      | Some last =>
          if PyDate.eqb last (today s) then st
          else if PyDate.eqb last yesterday then continued st (today s)
          else restarted st (today s)
      | None => restarted st (today s)
      end
  end.

(** The points awarded to a student at the instant [t]. *)
Definition points_at (sid : string) (t : Z) (db : Db) : Z :=
  foldr Z.add 0
    (PointHistory.points_awarded
     <$> filter (fun h => String.eqb (PointHistory.student_id h) sid
                          && (PointHistory.awarded_at h =? t) = true)
                (point_history db)).

(** The points that [_get_points_earned] adds up between two instants. *)
Definition points_between (sid : string) (lo hi : Z) (db : Db) : Z :=
  foldr Z.add 0
    (PointHistory.points_awarded
     <$> filter (fun h => PeriodAggregates.history_in sid lo hi h = true)
                (point_history db)).

(** The clock readings agree: [utcnow] falls on the day [today]. *)
Definition clock_agrees (s : Session) : Prop :=
  midnight (today s) <= utcnow s < midnight (today s) + 86400.

(** ** More sample data *)

Definition student_user : User := mkUser "student" [].
Definition other_user : User := mkUser "other" [].
Definition instructor_user : User := mkUser "teacher" ["instructor"].

(** A row whose level is ahead of its total. *)
Definition veteran_points : Points.t := Points.mk "student" 50 3 850 50.

(** A student last active on 2025-12-31 with a streak of six days. *)
Definition six_day_streak : Streak.t :=
  Streak.mk "student" 6 6 (Some (PyDate.mkdate 2025 12 31))
    (Some (PyDate.mkdate 2025 12 26)) 6.

(** A session whose fourth storage call fails: the three calls of an award
    to a new student go through, the next one does not. *)
Definition fourth_call_fails : Session :=
  mkSession empty_db empty_db [None; None; None; Some (DBError 1)]
    1767225600 (PyDate.mkdate 2026 1 1).

(** A session on a catalog with the streak badge whose second storage call
    fails. *)
Definition second_call_fails : Session :=
  mkSession (mkDb ∅ [] [consistency_king] ∅ ∅ [])
            (mkDb ∅ [] [consistency_king] ∅ ∅ [])
            [None; Some (DBError 1)] 1767225600 (PyDate.mkdate 2026 1 1).

(** Two awards to one student, the second at midnight of 2026-01-02. *)
Definition midnight_history : list PointHistory.t :=
  [ PointHistory.mk "student" 10 "concept_completed" None 1767225600;
    PointHistory.mk "student" 25 "concept_mastered" None 1767312000 ].


(** * Facts about dates *)

Module PyDateFacts.
Import PyDate.

Example toordinal_max : toordinal (mkdate 9999 12 31) = MAXORDINAL.
Proof. reflexivity. Qed.

Example toordinal_min : toordinal (mkdate 1 1 1) = 1.
Proof. reflexivity. Qed.

Example weekday_tuesday : weekday (mkdate 2026 11 3) = 1.
Proof. reflexivity. Qed.

Example leap_years :
  is_leap 2024 = true /\ is_leap 2023 = false
  /\ is_leap 1900 = false /\ is_leap 2000 = true.
Proof. repeat split. Qed.

Example month_end_step :
  add_days (mkdate 2024 2 28) 4 = Ok (mkdate 2024 3 3)
  /\ add_days (mkdate 2023 2 28) 4 = Ok (mkdate 2023 3 4)
  /\ add_days (mkdate 2023 12 28) 4 = Ok (mkdate 2024 1 1)
  /\ sub_days (mkdate 2024 3 3) 3 = Ok (mkdate 2024 2 29).
Proof. repeat split. Qed.

(** Leap years: divisible by 4, and not by 100 unless by 400. *)
Lemma is_leap_spec y :
  is_leap y = true <-> (y mod 4 = 0 /\ (y mod 100 <> 0 \/ y mod 400 = 0)).
Proof. unfold is_leap. rewrite andb_true_iff, orb_true_iff, negb_true_iff, !Z.eqb_eq, Z.eqb_neq. tauto. Qed.

(** A year is 365 days long, 366 when it is a leap year. *)
Lemma days_before_year_succ y :
  days_before_year (y + 1) = days_before_year y + (if is_leap y then 366 else 365).
Proof.
  unfold days_before_year. 
  destruct (is_leap y) eqn:E.
  - apply is_leap_spec in E. cbv zeta. replace (y + 1 - 1) with y by lia.
    Z.div_mod_to_equations. lia.
  - assert (~ (y mod 4 = 0 /\ (y mod 100 <> 0 \/ y mod 400 = 0))) as E'.
    { rewrite <- is_leap_spec. congruence. }
    cbv zeta. replace (y + 1 - 1) with y by lia.
    Z.div_mod_to_equations. lia.
Qed.

Lemma month_cases m : 1 <= m <= 12 ->
  m = 1 \/ m = 2 \/ m = 3 \/ m = 4 \/ m = 5 \/ m = 6 \/ m = 7 \/ m = 8 \/ m = 9 \/ m = 10 \/ m = 11 \/ m = 12.
Proof. lia. Qed.

Ltac month_split H :=
  apply month_cases in H;
  repeat (destruct H as [H | H]); subst.

(** The days before a month grow by the length of the month before it. *)
Lemma days_before_month_succ y m : 1 <= m < 12 ->
  days_before_month y (m + 1) = days_before_month y m + days_in_month y m.
Proof.
  intros H. assert (1 <= m <= 12) as H' by lia. 
  unfold days_before_month, days_in_month.
  month_split H'; try lia; destruct (is_leap y); reflexivity.
Qed.

Lemma days_in_month_range y m : 1 <= m <= 12 -> 28 <= days_in_month y m <= 31.
Proof.
  intros H. unfold days_in_month. month_split H; destruct (is_leap y); cbn; lia.
Qed.

Lemma days_in_year y : days_before_month y 12 + 31 = if is_leap y then 366 else 365.
Proof. unfold days_before_month. destruct (is_leap y); reflexivity. Qed.

(** [next_day] and [prev_day] move the ordinal by one and keep the date well
    formed. *)
Lemma toordinal_next_day d : wf_md d -> toordinal (next_day d) = toordinal d + 1.
Proof.
  destruct d as [y m dd]. unfold wf_md, next_day, toordinal; cbn [year month day].
  intros [Hm Hd].
  destruct (Z.ltb_spec dd (days_in_month y m)); cbn [year month day]; [lia|].
  destruct (Z.ltb_spec m 12); cbn [year month day].
  - rewrite days_before_month_succ by lia. lia.
  - assert (m = 12) by lia; subst. rewrite days_before_year_succ.
    pose proof (days_in_year y). assert (dd = 31) by (cbn in *; lia). subst.
    unfold days_before_month at 1. cbn. lia.
Qed.

Lemma wf_md_next_day d : wf_md d -> wf_md (next_day d).
Proof.
  destruct d as [y m dd]. unfold wf_md, next_day; cbn [year month day].
  intros [Hm Hd].
  destruct (Z.ltb_spec dd (days_in_month y m)); cbn [year month day]; [lia|].
  destruct (Z.ltb_spec m 12); cbn [year month day].
  - pose proof (days_in_month_range y (m+1)). lia.
  - cbn. lia.
Qed.

Lemma toordinal_prev_day d : wf_md d -> toordinal (prev_day d) = toordinal d - 1.
Proof.
  destruct d as [y m dd]. unfold wf_md, prev_day, toordinal; cbn [year month day].
  intros [Hm Hd].
  destruct (Z.ltb_spec 1 dd); cbn [year month day]; [lia|].
  destruct (Z.ltb_spec 1 m); cbn [year month day].
  - pose proof (days_before_month_succ y (m - 1)) as E.
    replace (m - 1 + 1) with m in E by lia. rewrite E by lia. lia.
  - assert (m = 1) by lia; subst. 
    pose proof (days_before_year_succ (y - 1)) as E.
    replace (y - 1 + 1) with y in E by lia. rewrite E.
    pose proof (days_in_year (y - 1)). unfold days_before_month at 2. cbn. lia.
Qed.

Lemma wf_md_prev_day d : wf_md d -> wf_md (prev_day d).
Proof.
  destruct d as [y m dd]. unfold wf_md, prev_day; cbn [year month day].
  intros [Hm Hd].
  destruct (Z.ltb_spec 1 dd); cbn [year month day]; [lia|].
  destruct (Z.ltb_spec 1 m); cbn [year month day].
  - pose proof (days_in_month_range y (m-1)). lia.
  - cbn. lia.
Qed.

(** Stepping [n] days forwards or backwards moves the ordinal by [n]. *)
Lemma iter_next_day n d : wf_md d ->
  wf_md (Nat.iter n next_day d) /\ toordinal (Nat.iter n next_day d) = toordinal d + Z.of_nat n.
Proof.
  intros H. induction n as [|n [IH1 IH2]].
  - split; [done | cbn [Nat.iter nat_rect]; lia].
  - rewrite Nat.iter_succ.
    split; [by apply wf_md_next_day |]. rewrite toordinal_next_day by done. lia.
Qed.

Lemma iter_prev_day n d : wf_md d ->
  wf_md (Nat.iter n prev_day d) /\ toordinal (Nat.iter n prev_day d) = toordinal d - Z.of_nat n.
Proof.
  intros H. induction n as [|n [IH1 IH2]].
  - split; [done | cbn [Nat.iter nat_rect]; lia].
  - rewrite Nat.iter_succ.
    split; [by apply wf_md_prev_day |]. rewrite toordinal_prev_day by done. lia.
Qed.

(** Later years start later, by at least 365 days a year. *)
Lemma days_before_year_mono a b : a <= b -> days_before_year a + 365 * (b - a) <= days_before_year b.
Proof.
  intros H. unfold days_before_year. cbv zeta. Z.div_mod_to_equations. lia.
Qed.

(** A valid date: a year between 1 and 9999, and a day of one of its months. *)
Lemma valid_spec d :
  valid d = true <-> (1 <= year d <= 9999 /\ wf_md d).
Proof.
  unfold valid, wf_md, MINYEAR, MAXYEAR. rewrite !andb_true_iff, !Z.leb_le. tauto.
Qed.

Lemma days_before_month_bound y m : 1 <= m <= 12 ->
  0 <= days_before_month y m /\
  days_before_month y m + days_in_month y m <= if is_leap y then 366 else 365.
Proof.
  intros H. unfold days_before_month, days_in_month.
  month_split H; destruct (is_leap y); cbn; lia.
Qed.

(** The ordinal of a date lies within its year. *)
Lemma toordinal_bounds d : wf_md d ->
  days_before_year (year d) < toordinal d <= days_before_year (year d + 1).
Proof.
  destruct d as [y m dd]. unfold wf_md, toordinal; cbn [year month day].
  intros [Hm Hd]. rewrite days_before_year_succ.
  pose proof (days_before_month_bound y m Hm). lia.
Qed.

(** The ordinals 1 .. [MAXORDINAL] are those of the years 1 .. 9999. *)
Lemma year_of_ordinal_range d : wf_md d ->
  0 < toordinal d <= MAXORDINAL -> 1 <= year d <= 9999.
Proof.
  intros Hwf Hr. pose proof (toordinal_bounds d Hwf) as Hb.
  unfold MAXORDINAL in Hr.
  split.
  - destruct (Z_le_gt_dec 1 (year d)); [done|].
    pose proof (days_before_year_mono (year d + 1) 1 ltac:(lia)).
    change (days_before_year 1) with 0 in *. lia.
  - destruct (Z_le_gt_dec (year d) 9999); [done|].
    pose proof (days_before_year_mono 10000 (year d) ltac:(lia)).
    change (days_before_year 10000) with 3652059 in *. lia.
Qed.

Lemma valid_ordinal_range d : valid d = true -> 0 < toordinal d <= MAXORDINAL.
Proof.
  rewrite valid_spec. intros [Hy Hwf].
  pose proof (toordinal_bounds d Hwf) as Hb. unfold MAXORDINAL.
  pose proof (days_before_year_mono 1 (year d) ltac:(lia)).
  pose proof (days_before_year_mono (year d + 1) 10000 ltac:(lia)).
  change (days_before_year 1) with 0 in *.
  change (days_before_year 10000) with 3652059 in *. lia.
Qed.

(** When [add_days] returns, the result is a valid date [k] days away. *)
Lemma add_days_Ok d k d' : wf_md d -> add_days d k = Ok d' ->
  valid d' = true /\ toordinal d' = toordinal d + k.
Proof.
  intros Hwf. unfold add_days.
  destruct (andb _ _) eqn:Hr; [|discriminate].
  apply andb_true_iff in Hr as [H0 H1]. apply Z.ltb_lt in H0. apply Z.leb_le in H1.
  intros [= <-].
  assert (wf_md (if 0 <=? k then Nat.iter (Z.to_nat k) next_day d
                 else Nat.iter (Z.to_nat (- k)) prev_day d) /\
          toordinal (if 0 <=? k then Nat.iter (Z.to_nat k) next_day d
                     else Nat.iter (Z.to_nat (- k)) prev_day d) = toordinal d + k) as [Hw Ho].
  { destruct (Z.leb_spec 0 k).
    - destruct (iter_next_day (Z.to_nat k) d Hwf). split; [done | lia].
    - destruct (iter_prev_day (Z.to_nat (- k)) d Hwf). split; [done | lia]. }
  split; [|done]. apply valid_spec. split; [|done].
  apply year_of_ordinal_range; [done | lia].
Qed.

(** [add_days] returns exactly when the target ordinal is in range. *)
Lemma add_days_in_range d k : 0 < toordinal d + k <= MAXORDINAL ->
  add_days d k = Ok (if 0 <=? k then Nat.iter (Z.to_nat k) next_day d
                     else Nat.iter (Z.to_nat (- k)) prev_day d).
Proof.
  intros [H0 H1]. unfold add_days.
  apply Z.ltb_lt in H0. apply Z.leb_le in H1. by rewrite H0, H1.
Qed.

Lemma add_days_total d k : 0 < toordinal d + k <= MAXORDINAL ->
  exists d', add_days d k = Ok d'.
Proof. intros H. rewrite add_days_in_range by done. eauto. Qed.

Lemma days_before_month_mono y a b : 1 <= a <= 12 -> 1 <= b <= 12 -> a < b ->
  days_before_month y a + days_in_month y a <= days_before_month y b.
Proof.
  intros Ha Hb Hab. unfold days_before_month, days_in_month.
  month_split Ha; month_split Hb; try lia; destruct (is_leap y); cbn; lia.
Qed.

(** The order of dates is the order of their ordinals. *)
Lemma lt_toordinal a b : wf_md a -> wf_md b ->
  lt a b = true -> toordinal a < toordinal b.
Proof.
  intros Ha Hb. unfold lt.
  rewrite orb_true_iff, andb_true_iff, orb_true_iff, andb_true_iff, !Z.ltb_lt, !Z.eqb_eq.
  intros [Hy | [Hy [Hm | [Hm Hd]]]].
  - pose proof (toordinal_bounds a Ha). pose proof (toordinal_bounds b Hb).
    pose proof (days_before_year_mono (year a + 1) (year b) ltac:(lia)). lia.
  - destruct a as [y m d], b as [y' m' d']; unfold wf_md, toordinal in *; cbn [year month day] in *.
    subst y'. pose proof (days_before_month_mono y m m'). lia.
  - destruct a as [y m d], b as [y' m' d']; unfold toordinal in *; cbn [year month day] in *.
    subst. lia.
Qed.

Lemma lt_trichotomy a b : lt a b = true \/ a = b \/ lt b a = true.
Proof.
  destruct a as [y m d], b as [y' m' d']. unfold lt; cbn [year month day].
  rewrite !orb_true_iff, !andb_true_iff, !orb_true_iff, !andb_true_iff, !Z.ltb_lt, !Z.eqb_eq.
  destruct (Z.lt_trichotomy y y') as [?|[?|?]]; [lia| |lia].
  destruct (Z.lt_trichotomy m m') as [?|[?|?]]; [lia| |lia].
  destruct (Z.lt_trichotomy d d') as [?|[?|?]]; [lia| |lia].
  right; left. congruence.
Qed.

Lemma lt_iff_toordinal a b : wf_md a -> wf_md b ->
  lt a b = true <-> toordinal a < toordinal b.
Proof.
  intros Ha Hb. split; [by apply lt_toordinal|].
  intros Hlt. destruct (lt_trichotomy a b) as [?|[->|H]]; [done|lia|].
  apply lt_toordinal in H; [lia|done..].
Qed.

(** A well-formed date is determined by its ordinal. *)
Lemma toordinal_inj a b : wf_md a -> wf_md b -> toordinal a = toordinal b -> a = b.
Proof.
  intros Ha Hb E. destruct (lt_trichotomy a b) as [H|[->|H]]; [|done|];
    apply lt_toordinal in H; (lia || done).
Qed.

(** [eqb] decides equality of dates. *)
Lemma eqb_eq a b : eqb a b = true <-> a = b.
Proof.
  destruct a, b. unfold eqb; cbn [year month day].
  rewrite !andb_true_iff, !Z.eqb_eq. split; [intros [[-> ->] ->]; done | intros [= -> -> ->]; done].
Qed.

Lemma eqb_refl d : eqb d d = true.
Proof. by apply eqb_eq. Qed.

Lemma eqb_neq_ordinal a b : toordinal a <> toordinal b -> eqb a b = false.
Proof.
  intros H. destruct (eqb a b) eqn:E; [|done]. apply eqb_eq in E. congruence.
Qed.

Lemma lt_irrefl d : lt d d = false.
Proof.
  unfold lt. rewrite !Z.ltb_irrefl, !Z.eqb_refl. reflexivity.
Qed.

Lemma replace_day_valid d n :
  valid (mkdate (year d) (month d) n) = true ->
  replace_day d n = Ok (mkdate (year d) (month d) n).
Proof. intros H. unfold replace_day. cbv zeta. by rewrite H. Qed.

(** [add_days] returns the well-formed date with the target ordinal. *)
Lemma add_days_eq d k d' :
  wf_md d -> wf_md d' ->
  toordinal d' = toordinal d + k ->
  0 < toordinal d' <= MAXORDINAL ->
  add_days d k = Ok d'.
Proof.
  intros Hd Hd' Ho Hr.
  destruct (add_days_total d k) as [d'' E]; [lia|].
  destruct (add_days_Ok _ _ _ Hd E) as [Hv Ho'].
  apply valid_spec in Hv as [_ Hwf].
  rewrite E. f_equal. apply toordinal_inj; [done..|lia].
Qed.

(** [after_day28] is the date four days after the 28th. *)
Lemma after_day28_spec y m : 1 <= m <= 12 ->
  wf_md (after_day28 y m) /\
  toordinal (after_day28 y m) = toordinal (mkdate y m 28) + 4.
Proof.
  intros Hm. pose proof (days_in_month_range y m Hm) as Hdim.
  unfold after_day28, wf_md, toordinal. cbn [year month day].
  destruct (Z.eqb_spec m 12) as [->|Hne].
  - split; [cbn; cbn in Hdim; lia|].
    rewrite days_before_year_succ. pose proof (days_in_year y).
    change (days_in_month y 12) with 31. change (days_before_month (y + 1) 1) with 0.
    lia.
  - pose proof (days_in_month_range y (m + 1) ltac:(lia)).
    split; [lia|]. rewrite days_before_month_succ by lia. lia.
Qed.

(** Yesterday is a valid date, one day before today. *)
Lemma sub_days_1 d y : valid d = true -> sub_days d 1 = Ok y ->
  valid y = true /\ toordinal y = toordinal d - 1.
Proof.
  intros Hv H. apply valid_spec in Hv as [_ Hwf].
  destruct (add_days_Ok _ _ _ Hwf H). split; [done | lia].
Qed.

Lemma lt_yesterday d y : valid d = true -> sub_days d 1 = Ok y -> lt d y = false.
Proof.
  intros Hv Hy. destruct (sub_days_1 _ _ Hv Hy) as [Hvy Ho].
  apply valid_spec in Hv as [_ Hwf]. apply valid_spec in Hvy as [_ Hwfy].
  destruct (lt d y) eqn:E; [|done]. apply lt_toordinal in E; [lia|done..].
Qed.

End PyDateFacts.

(** * Running session code *)

(** Unfold the session operations down to the case analyses they make. *)
Ltac unfold_m :=
  cbv beta iota zeta delta
    [bind try_except ret raise lift db_execute db_flush db_commit
     db_refresh db_rollback db_update db_step get_utcnow get_today
     with_txn with_committed with_faults
     fst snd committed txn faults utcnow today] in *.

(** Case on the innermost scrutinee that blocks evaluation. *)
Ltac break_inner t :=
  lazymatch t with
  | context [match ?x with _ => _ end] => break_inner x
  | _ => destruct t eqn:?
  end.

Ltac break_step :=
  match goal with
  | H : context [match ?x with _ => _ end] |- _ => break_inner x
  | |- context [match ?x with _ => _ end] => break_inner x
  end; unfold_m.

(** Use that no storage call fails. *)
Ltac no_fault :=
  repeat match goal with
  | H : fault_free _ |- _ => unfold fault_free in H; cbn [faults] in H
  | H : Forall _ (_ :: _) |- _ => inversion H; subst; clear H
  end; try discriminate.

Section SessionFacts.

(** A storage call changes neither store nor the clock. *)
Lemma db_step_store s r s' : db_step s = (r, s') -> same_store s s'.
Proof.
  destruct s as [c t fs now td]. unfold db_step, same_store. cbn.
  intros H. repeat break_step; simplify_eq/=; auto.
Qed.

(** In a session without failures every storage call succeeds. *)
Lemma db_step_fault_free s : fault_free s ->
  exists s', db_step s = (Ok tt, s') /\ fault_free s' /\ same_store s s'.
Proof.
  destruct s as [c t fs now td]. unfold db_step, same_store. cbn. intros Hff.
  repeat break_step; simplify_eq/=; no_fault; eexists; split_and!; eauto.
Qed.

Lemma db_execute_fault_free {A} (q : Db -> A) s : fault_free s ->
  exists s', db_execute q s = (Ok (q (txn s)), s') /\ fault_free s' /\ same_store s s'.
Proof.
  intros Hff. unfold db_execute, bind.
  destruct (db_step_fault_free s Hff) as (s1 & -> & Hff1 & Hst).
  exists s1. split_and!; [|done..]. by destruct Hst as (_ & -> & _).
Qed.

Lemma db_commit_fault_free s : fault_free s ->
  exists s', db_commit s = (Ok tt, s') /\ fault_free s'
    /\ committed s' = txn s /\ txn s' = txn s
    /\ utcnow s' = utcnow s /\ today s' = today s.
Proof.
  destruct s as [c t fs now td]. unfold db_commit. unfold_m. intros Hff.
  repeat break_step; simplify_eq/=; no_fault; eexists; split_and!; eauto.
Qed.

Lemma fault_free_quiet db : fault_free (quiet_session db).
Proof. constructor. Qed.

End SessionFacts.

(** * Points engine *)

Section PointsEngineFacts.
Import PointsEngine.

(** [level_for] is [floor(sqrt(total / 100)) + 1], and that level is unique. *)
Lemma level_for_is_level total : 0 <= total -> is_level total (PointsEngine.level_for total).
Proof.
  intros H. unfold is_level, PointsEngine.level_for.
  assert (0 <= total / 100) as Hq by (apply Z.div_pos; lia).
  pose proof (Z.sqrt_spec (total / 100) Hq) as Hs. cbv zeta in Hs.
  pose proof (Z.sqrt_nonneg (total / 100)).
  set (r := Z.sqrt (total / 100)) in *.
  replace (r + 1 - 1) with r by lia.
  replace (Z.succ r) with (r + 1) in Hs by lia.
  rewrite !Z.pow_2_r. split; [lia|].
  pose proof (Z.div_mod total 100 ltac:(lia)). pose proof (Z.mod_pos_bound total 100 ltac:(lia)).
  nia.
Qed.

Lemma is_level_unique total a b : is_level total a -> is_level total b -> a = b.
Proof.
  unfold is_level. rewrite !Z.pow_2_r. intros [Ha1 Ha2] [Hb1 Hb2]. nia.
Qed.

(** [_check_level_up] returns on a non-negative total. *)
Lemma check_level_up_total p : 0 <= Points.total_points p ->
  exists b p', _check_level_up p = Ok (b, p').
Proof.
  intros H. unfold _check_level_up.
  destruct (Z.ltb_spec (Points.total_points p) 0); [lia|].
  destruct (_ <? _); eauto.
Qed.

(** [_check_level_up] after a non-negative credit restores the level
    invariant and recomputes the points to the next level. *)
Lemma check_level_up_invariant p pts b p' :
  is_level (Points.total_points p) (Points.current_level p) ->
  0 <= pts ->
  _check_level_up (credited p pts) = Ok (b, p') ->
  Points.total_points p' = Points.total_points p + pts
  /\ is_level (Points.total_points p') (Points.current_level p')
  /\ Points.points_to_next_level p'
     = Points.current_level p' ^ 2 * 100 - Points.total_points p'
  /\ (b = true <-> Points.current_level p < Points.current_level p').
Proof.
  intros Hinv Hpts. unfold _check_level_up, credited. cbn [Points.total_points Points.current_level].
  assert (0 <= Points.total_points p) as Hnn.
  { destruct Hinv as [? [? ?]]. rewrite Z.pow_2_r in *. nia. }
  destruct (Z.ltb_spec (Points.total_points p + pts) 0); [lia|].
  pose proof (level_for_is_level (Points.total_points p + pts) ltac:(lia)) as Hnew.
  set (n := level_for _) in *.
  assert (Points.current_level p <= n) as Hmono.
  { destruct Hinv as [? [? ?]], Hnew as [? [? ?]]. rewrite !Z.pow_2_r in *. nia. }
  destruct (Z.ltb_spec (Points.current_level p) n); intros [= <- <-];
    cbn [Points.total_points Points.current_level Points.points_to_next_level].
  - split_and!; try done; intuition lia.
  - assert (Points.current_level p = n) as -> by lia.
    split_and!; try done; intuition (lia || discriminate).
Qed.

(** A raising [award_points] leaves the durable store as it was and rolls
    the session back to it. *)
Lemma award_points_raise s sid pts reason cid e s' :
  award_points sid pts reason cid s = (Raise e, s') ->
  committed s' = committed s /\ txn s' = committed s
  /\ (In (Some e) (faults s) \/ e = ValueError).
Proof.
  destruct s as [c t fs now td].
  unfold award_points, _get_or_create_points, _check_level_up.
  unfold_m. intros H.
  repeat break_step; try discriminate; injection H as <- <-;
    repeat split; auto; cbn; auto.
Qed.

(** A failing storage call makes [award_points] raise its exception. *)
Lemma award_points_fault s sid pts reason cid e :
  next_fault (storage_calls sid s) (faults s) = Some e ->
  0 <= Points.total_points (prior_points sid s) + pts ->
  exists s', award_points sid pts reason cid s = (Raise e, s').
Proof.
  destruct s as [c t fs now td].
  unfold award_points, _get_or_create_points, _check_level_up, storage_calls, prior_points.
  unfold_m. intros H Hpos.
  repeat break_step; simplify_eq/=; eauto;
    match goal with H : (_ <? 0) = true |- _ => apply Z.ltb_lt in H; lia end.
Qed.

(** A returning [award_points] has stored the checked row and the history
    entry together. *)
Lemma award_points_ok s sid pts reason cid r s' :
  award_points sid pts reason cid s = (Ok r, s') ->
  exists p',
    _check_level_up (credited (prior_points sid s) pts) = Ok (level_up r, p')
    /\ r = mk_award pts (Points.total_points p') (Points.current_level p') (level_up r)
    /\ points (committed s') !! sid = Some p'
    /\ point_history (committed s')
       = point_history (txn s) ++ [PointHistory.mk sid pts reason cid (utcnow s)]
    /\ txn s' = committed s'.
Proof.
  destruct s as [c t fs now td].
  unfold award_points, _get_or_create_points, prior_points, credited.
  unfold_m. intros H.
  repeat break_step; simplify_eq/=;
    (eexists; split; [eassumption|]);
    cbn [points set_points set_point_history point_history];
    rewrite lookup_insert_eq; auto.
Qed.

(** Without failures, and with a non-negative new total, [award_points]
    returns. *)
Lemma award_points_fault_free s sid pts reason cid :
  fault_free s ->
  0 <= Points.total_points (prior_points sid s) + pts ->
  exists r s', award_points sid pts reason cid s = (Ok r, s').
Proof.
  destruct s as [c t fs now td].
  unfold award_points, _get_or_create_points, prior_points.
  intros Hff Hpos.
  destruct (check_level_up_total
              (credited (default (Points.default sid) (points t !! sid)) pts) Hpos)
    as (b & p' & E).
  unfold credited in *. cbn [txn] in Hpos.
  unfold_m.
  repeat break_step; simplify_eq/=; no_fault; eauto; congruence.
Qed.

End PointsEngineFacts.

(** * Badge engine *)

Section BadgeEngineFacts.
Import BadgeEngine.

(** One iteration of the loop of [check_and_award_badges]. *)
Lemma award_loop_cons sid et ed b bs acc s :
  award_loop sid et ed (b :: bs) acc s =
    match _check_badge_criteria sid b et ed s with
    | (Ok true, s1) =>
        match _award_badge sid b s1 with
        | (Ok (Some _), s2) => award_loop sid et ed bs (acc ++ [earned_of b]) s2
        | (Ok None, s2) => award_loop sid et ed bs acc s2
        | (Raise e, s2) => (Raise e, s2)
        end
    | (Ok false, s1) => award_loop sid et ed bs acc s1
    | (Raise e, s1) => (Raise e, s1)
    end.
Proof.
  cbn [award_loop]. unfold bind.
  destruct (_check_badge_criteria sid b et ed s) as [[[|]|e] s1]; [|done..].
  destruct (_award_badge sid b s1) as [[[ub|]|e] s2]; done.
Qed.

(** [check_and_award_badges] is one select followed by the loop over the
    active badges. *)
Lemma check_and_award_run sid et ed s :
  check_and_award_badges sid et ed s =
    match db_step s with
    | (Ok _, s1) =>
        award_loop sid et ed (filter (fun b => Badge.is_active b = true) (badges (txn s1))) [] s1
    | (Raise e, s1) => (Raise e, s1)
    end.
Proof.
  unfold check_and_award_badges, db_execute, bind.
  destruct (db_step s) as [[[]|e] s1]; done.
Qed.

(** Checking the criteria writes nothing. *)
Lemma check_badge_criteria_store sid b et ed s r s' :
  _check_badge_criteria sid b et ed s = (r, s') -> same_store s s'.
Proof.
  destruct s as [c t fs now td]. unfold _check_badge_criteria, same_store.
  unfold_m. intros H.
  repeat break_step; simplify_eq/=; auto.
Qed.

(** Without failures the criteria check returns [criteria_value]. *)
Lemma check_badge_criteria_fault_free sid b et ed s :
  fault_free s ->
  exists s', _check_badge_criteria sid b et ed s
             = (criteria_value (txn s) (utcnow s) sid b et ed, s')
             /\ same_store s s' /\ fault_free s'.
Proof.
  destruct s as [c t fs now td]. unfold _check_badge_criteria, criteria_value, same_store.
  unfold_m. intros H.
  repeat break_step; simplify_eq/=; no_fault; eexists; split_and!; try reflexivity; done.
Qed.

(** An existing award: nothing is written and no award is returned. *)
Lemma award_badge_existing sid b s r s' :
  is_Some (user_badges (txn s) !! (sid, Badge.id b)) ->
  _award_badge sid b s = (r, s') ->
  same_store s s' /\ (r = Ok None \/ exists e, r = Raise e).
Proof.
  destruct s as [c t fs now td]. unfold _award_badge, same_store.
  unfold_m. intros [ub Hub] H.
  repeat break_step; simplify_eq/=; split_and!; eauto.
Qed.

(** An award that is stored stays stored, whatever [_award_badge] does next. *)
Lemma award_badge_keeps key sid b s r s' :
  awarded key s -> _award_badge sid b s = (r, s') -> awarded key s'.
Proof.
  destruct s as [c t fs now td]. unfold _award_badge, awarded.
  unfold_m. intros [Ht Hc] H.
  repeat break_step; simplify_eq/=; split; auto;
    cbn [user_badges set_user_badges];
    (destruct (decide ((sid, Badge.id b) = key)) as [<-|];
       [rewrite lookup_insert_eq | rewrite lookup_insert_ne by done]; eauto).
Qed.

(** A returned award was absent before and is durable afterwards. *)
Lemma award_badge_some sid b s ub s' :
  _award_badge sid b s = (Ok (Some ub), s') ->
  awarded (sid, Badge.id b) s'
  /\ user_badges (txn s) !! (sid, Badge.id b) = None
  /\ user_badges (committed s') = <[(sid, Badge.id b) := ub]> (user_badges (txn s)).
Proof.
  destruct s as [c t fs now td]. unfold _award_badge, awarded.
  unfold_m. intros H.
  repeat break_step; simplify_eq/=; cbn [user_badges set_user_badges];
    rewrite lookup_insert_eq; eauto.
Qed.

Lemma same_store_awarded key s s' : same_store s s' -> awarded key s -> awarded key s'.
Proof. unfold same_store, awarded. intros (-> & -> & _). done. Qed.

(** The loop keeps every stored award. *)
Lemma award_loop_keeps key sid et ed bs : forall acc s r s',
  awarded key s -> award_loop sid et ed bs acc s = (r, s') -> awarded key s'.
Proof.
  induction bs as [|b bs IH]; intros acc s r s' Hk.
  - cbn. intros [= <- <-]. done.
  - rewrite award_loop_cons.
    destruct (_check_badge_criteria sid b et ed s) as [[[|]|e] s1] eqn:E1;
      apply check_badge_criteria_store in E1;
      pose proof (same_store_awarded _ _ _ E1 Hk) as Hk1.
    + destruct (_award_badge sid b s1) as [[[ub|]|e] s2] eqn:E2;
        pose proof (award_badge_keeps _ _ _ _ _ _ Hk1 E2) as Hk2.
      * by apply IH.
      * by apply IH.
      * intros [= <- <-]. done.
    + by apply IH.
    + intros [= <- <-]. done.
Qed.

(** The loop reports no badge whose award is already stored. *)
Lemma award_loop_skips k sid et ed bs : forall acc s l s',
  awarded (sid, k) s ->
  award_loop sid et ed bs acc s = (Ok l, s') ->
  forall x, x ∈ l -> badge_id x = k -> x ∈ acc.
Proof.
  induction bs as [|b bs IH]; intros acc s l s' Hk.
  - cbn. intros [= <- <-]. done.
  - rewrite award_loop_cons.
    destruct (_check_badge_criteria sid b et ed s) as [[[|]|e] s1] eqn:E1;
      apply check_badge_criteria_store in E1;
      pose proof (same_store_awarded _ _ _ E1 Hk) as Hk1; [| by apply IH | done].
    destruct (_award_badge sid b s1) as [[[ub|]|e] s2] eqn:E2;
      pose proof (award_badge_keeps _ _ _ _ _ _ Hk1 E2) as Hk2; [| by apply IH | done].
    intros Hl x Hx Hid.
    pose proof (IH _ _ _ _ Hk2 Hl x Hx Hid) as Hin.
    apply elem_of_app in Hin as [Hin | Hin]; [done|].
    apply list_elem_of_singleton in Hin as ->. cbn in Hid. subst k.
    destruct Hk1 as [Ht _].
    destruct (award_badge_existing _ _ _ _ _ Ht E2) as [_ [?|[? ?]]]; discriminate.
Qed.

(** Every badge the loop reports has its award stored. *)
Lemma award_loop_reports sid et ed bs : forall acc s l s',
  award_loop sid et ed bs acc s = (Ok l, s') ->
  forall x, x ∈ l -> x ∈ acc \/ awarded (sid, badge_id x) s'.
Proof.
  induction bs as [|b bs IH]; intros acc s l s'.
  - cbn. intros [= <- <-]. auto.
  - rewrite award_loop_cons.
    destruct (_check_badge_criteria sid b et ed s) as [[[|]|e] s1] eqn:E1;
      [| by apply IH | done].
    destruct (_award_badge sid b s1) as [[[ub|]|e] s2] eqn:E2; [| by apply IH | done].
    intros Hl x Hx.
    destruct (IH _ _ _ _ Hl x Hx) as [Hin | Haw]; [|by right].
    apply elem_of_app in Hin as [Hin | Hin]; [by left|].
    apply list_elem_of_singleton in Hin as ->. right. cbn [badge_id earned_of].
    apply award_badge_some in E2 as [Haw _].
    eapply award_loop_keeps; eauto.
Qed.

(** Two calls in a row never report the same badge. *)
Lemma check_and_award_twice sid et ed s l1 s1 l2 s2 :
  check_and_award_badges sid et ed s = (Ok l1, s1) ->
  check_and_award_badges sid et ed s1 = (Ok l2, s2) ->
  forall x y, x ∈ l1 -> y ∈ l2 -> badge_id x <> badge_id y.
Proof.
  rewrite !check_and_award_run.
  destruct (db_step s) as [[[]|e] s0] eqn:E0; [|done].
  destruct (db_step s1) as [[[]|e] s1'] eqn:E1; [|done].
  intros H1 H2 x y Hx Hy Heq.
  destruct (award_loop_reports _ _ _ _ _ _ _ _ H1 x Hx) as [Hin | Haw];
    [by apply elem_of_nil in Hin|].
  apply db_step_store in E1.
  pose proof (same_store_awarded _ _ _ E1 Haw) as Haw'.
  pose proof (award_loop_skips _ _ _ _ _ _ _ _ _ Haw' H2 y Hy (eq_sym Heq)) as Hin.
  by apply elem_of_nil in Hin.
Qed.

Lemma py_ge_dict_get ed key n m :
  event_data_ok ed -> key = "streak_days" \/ key = "subject_completion" ->
  exists v, py_ge (dict_get ed key (PyInt n)) m = Ok v.
Proof.
  intros Hok Hkey. unfold dict_get.
  destruct (ed !! key) as [v|] eqn:E; cbn; [|eauto].
  destruct (Hok key v Hkey E) as [k ->]. cbn. eauto.
Qed.

(** On well-typed event data the criteria never raise. *)
Lemma criteria_value_ok db now sid b et ed :
  event_data_ok ed -> exists v, criteria_value db now sid b et ed = Ok v.
Proof.
  intros Hok. unfold criteria_value.
  repeat match goal with |- context [if ?c then _ else _] => destruct c end;
    eauto using py_ge_dict_get.
Qed.

(** The criteria read the store through [concept_progress] only. *)
Lemma criteria_value_ext db db' now sid b et ed :
  concept_progress db' = concept_progress db ->
  criteria_value db' now sid b et ed = criteria_value db now sid b et ed.
Proof. intros E. unfold criteria_value. by rewrite E. Qed.

Lemma same_store_rows s s' : same_store s s' -> same_rows s s'.
Proof. unfold same_store, same_rows. intros (_ & -> & -> & _). done. Qed.

(** Without failures [_award_badge] returns: nothing for an existing award,
    and the new award otherwise. *)
Lemma award_badge_fault_free sid b s :
  fault_free s ->
  exists r s', _award_badge sid b s = (Ok r, s')
    /\ fault_free s' /\ same_rows s s'
    /\ match r with
       | None => is_Some (user_badges (txn s) !! (sid, Badge.id b))
                 /\ user_badges (txn s') = user_badges (txn s)
       | Some ub => user_badges (txn s) !! (sid, Badge.id b) = None
                    /\ user_badges (txn s')
                       = <[(sid, Badge.id b) := ub]> (user_badges (txn s))
       end.
Proof.
  destruct s as [c t fs now td]. unfold _award_badge, same_rows.
  unfold_m. intros Hff.
  repeat break_step; simplify_eq/=; no_fault;
    do 2 eexists; (split; [reflexivity|]); cbn [faults]; split_and!; eauto.
Qed.

(** Without failures the loop returns and keeps what was reported so far. *)
Lemma award_loop_total sid et ed bs : forall acc s,
  fault_free s -> event_data_ok ed ->
  exists l s', award_loop sid et ed bs acc s = (Ok l, s')
    /\ (forall x, x ∈ acc -> x ∈ l) /\ fault_free s'.
Proof.
  induction bs as [|b bs IH]; intros acc s Hff Hok.
  - cbn. eauto.
  - rewrite award_loop_cons.
    destruct (check_badge_criteria_fault_free sid b et ed s Hff) as (s1 & -> & _ & Hff1).
    destruct (criteria_value_ok (txn s) (utcnow s) sid b et ed Hok) as [[|] ->]; [|by apply IH].
    destruct (award_badge_fault_free sid b s1 Hff1) as (r & s2 & -> & Hff2 & _).
    destruct r as [ub|]; [|by apply IH].
    destruct (IH (acc ++ [earned_of b]) s2 Hff2 Hok) as (l & s' & -> & Hsub & Hff').
    exists l, s'. split_and!; [done| |done].
    intros x Hx. apply Hsub, elem_of_app. by left.
Qed.

(** Without failures the loop reports a qualifying badge of the list that is
    not yet awarded. *)
Lemma award_loop_awards sid et ed b bs : forall acc s,
  fault_free s -> event_data_ok ed ->
  b ∈ bs ->
  criteria_value (txn s) (utcnow s) sid b et ed = Ok true ->
  user_badges (txn s) !! (sid, Badge.id b) = None
    \/ Badge.id b ∈ badge_id <$> acc ->
  exists l s', award_loop sid et ed bs acc s = (Ok l, s')
    /\ Badge.id b ∈ badge_id <$> l /\ fault_free s'.
Proof.
  induction bs as [|b0 bs IH]; intros acc s Hff Hok Hin Hcrit Hnew.
  - by apply elem_of_nil in Hin.
  - rewrite award_loop_cons.
    destruct (check_badge_criteria_fault_free sid b0 et ed s Hff)
      as (s1 & -> & Hst1 & Hff1).
    apply same_store_rows in Hst1 as Hrows1. pose proof Hst1 as (_ & Ht1 & _).
    (* where the loop stands after the head badge *)
    assert (forall acc' s2,
      fault_free s2 -> same_rows s s2 ->
      (Badge.id b ∈ badge_id <$> acc'
       \/ (b ∈ bs /\ user_badges (txn s2) !! (sid, Badge.id b) = None)) ->
      exists l s', award_loop sid et ed bs acc' s2 = (Ok l, s')
        /\ Badge.id b ∈ badge_id <$> l /\ fault_free s') as Hrest.
    { intros acc' s2 Hff2 [Hcp Hnow] [Hacc | [Hbs Hnone]].
      - destruct (award_loop_total sid et ed bs acc' s2 Hff2 Hok) as (l & s' & E & Hsub & Hff').
        exists l, s'. split_and!; [done| |done].
        apply list_elem_of_fmap in Hacc as (x & -> & Hx).
        apply list_elem_of_fmap. eauto.
      - apply IH; auto.
        rewrite Hnow, (criteria_value_ext (txn s)); done. }
    destruct (criteria_value (txn s) (utcnow s) sid b0 et ed) as [[|]|e] eqn:Ec0.
    + destruct (award_badge_fault_free sid b0 s1 Hff1)
        as (r & s2 & -> & Hff2 & Hrows2 & Hr).
      assert (same_rows s s2) as Hrows.
      { destruct Hrows1 as [? ?], Hrows2 as [? ?]. split; congruence. }
      destruct r as [ub|].
      * destruct Hr as [Hnone Hub].
        apply Hrest; [done..|].
        destruct (decide (Badge.id b0 = Badge.id b)) as [Eid|Hne].
        -- left. rewrite fmap_app. apply elem_of_app. right.
           cbn. rewrite Eid. apply list_elem_of_singleton. done.
        -- destruct Hnew as [Hnone' | Hacc].
           ++ apply elem_of_cons in Hin as [-> | Hin]; [done|].
              right. split; [done|]. rewrite Hub, lookup_insert_ne by congruence.
              by rewrite Ht1.
           ++ left. rewrite fmap_app. apply elem_of_app. by left.
      * destruct Hr as [Hsome Hub].
        apply Hrest; [done..|].
        destruct Hnew as [Hnone' | Hacc]; [|by left].
        apply elem_of_cons in Hin as [-> | Hin].
        -- rewrite Ht1, Hnone' in Hsome. by destruct Hsome.
        -- right. split; [done|]. by rewrite Hub, Ht1.
    + apply Hrest; [done..|].
      destruct Hnew as [Hnone' | Hacc]; [|by left].
      apply elem_of_cons in Hin as [-> | Hin]; [congruence|].
      right. split; [done|]. by rewrite Ht1.
    + destruct (criteria_value_ok (txn s) (utcnow s) sid b0 et ed Hok) as [? ?]. congruence.
Qed.

(** Without failures [check_and_award_badges] returns. *)
Lemma check_and_award_fault_free sid et ed s :
  fault_free s -> event_data_ok ed ->
  exists l s', check_and_award_badges sid et ed s = (Ok l, s') /\ fault_free s'.
Proof.
  intros Hff Hok. rewrite check_and_award_run.
  destruct (db_step_fault_free s Hff) as (s1 & -> & Hff1 & _).
  destruct (award_loop_total sid et ed
              (filter (fun b => Badge.is_active b = true) (badges (txn s1))) [] s1 Hff1 Hok)
    as (l & s' & E & _ & Hff').
  eauto.
Qed.

(** Without failures [check_and_award_badges] reports an active, qualifying
    badge that is not yet awarded. *)
Lemma check_and_award_awards sid et ed b s :
  fault_free s -> event_data_ok ed ->
  b ∈ badges (txn s) -> Badge.is_active b = true ->
  criteria_value (txn s) (utcnow s) sid b et ed = Ok true ->
  user_badges (txn s) !! (sid, Badge.id b) = None ->
  exists l s', check_and_award_badges sid et ed s = (Ok l, s')
    /\ Badge.id b ∈ badge_id <$> l /\ fault_free s'.
Proof.
  intros Hff Hok Hin Hact Hcrit Hnone. rewrite check_and_award_run.
  destruct (db_step_fault_free s Hff) as (s1 & -> & Hff1 & (_ & Ht1 & Hnow1 & _)).
  apply award_loop_awards; try done.
  - rewrite Ht1. apply list_elem_of_filter. done.
  - by rewrite Ht1, Hnow1.
  - left. by rewrite Ht1.
Qed.

(** The badge engine never touches the [streaks] table. *)
Lemma same_store_streaks S s s' : same_store s s' -> streaks_are S s -> streaks_are S s'.
Proof. unfold same_store, streaks_are. intros (-> & -> & _). done. Qed.

Lemma award_badge_streaks S sid b s r s' :
  streaks_are S s -> _award_badge sid b s = (r, s') -> streaks_are S s'.
Proof.
  destruct s as [c t fs now td]. unfold _award_badge, streaks_are.
  unfold_m. intros [Ht Hc] H.
  repeat break_step; simplify_eq/=; auto.
Qed.

Lemma award_loop_streaks S sid et ed bs : forall acc s r s',
  streaks_are S s -> award_loop sid et ed bs acc s = (r, s') -> streaks_are S s'.
Proof.
  induction bs as [|b bs IH]; intros acc s r s' Hk.
  - cbn. intros [= <- <-]. done.
  - rewrite award_loop_cons.
    destruct (_check_badge_criteria sid b et ed s) as [[[|]|e] s1] eqn:E1;
      apply check_badge_criteria_store in E1;
      pose proof (same_store_streaks _ _ _ E1 Hk) as Hk1.
    + destruct (_award_badge sid b s1) as [[[ub|]|e] s2] eqn:E2;
        pose proof (award_badge_streaks _ _ _ _ _ _ Hk1 E2) as Hk2.
      * by apply IH.
      * by apply IH.
      * intros [= <- <-]. done.
    + by apply IH.
    + intros [= <- <-]. done.
Qed.

Lemma check_and_award_streaks S sid et ed s r s' :
  streaks_are S s -> check_and_award_badges sid et ed s = (r, s') -> streaks_are S s'.
Proof.
  rewrite check_and_award_run. intros HS.
  destruct (db_step s) as [[[]|e] s1] eqn:E1; apply db_step_store in E1;
    pose proof (same_store_streaks _ _ _ E1 HS).
  - by apply award_loop_streaks.
  - intros [= <- <-]. done.
Qed.

(** The event sent by [update_streak] is well typed. *)
Lemma streak_event_ok n : event_data_ok {[ "streak_days" := PyInt n ]}.
Proof.
  intros key v _ H. apply lookup_singleton_Some in H as [_ <-]. eauto.
Qed.

End BadgeEngineFacts.

(** * Streak endpoints *)

Section StreakFacts.
Import PyDate PyDateFacts Gamification.

(** An authorized caller passes the check of [get_student_streak]. *)
Lemma authorized_check user sid : authorized user sid ->
  negb (String.eqb (sub user) sid)
  && negb (existsb (String.eqb "instructor") (roles user)) = false.
Proof.
  intros [<- | Hin].
  - by rewrite String.eqb_refl.
  - apply andb_false_iff. right. apply negb_false_iff, existsb_exists.
    exists "instructor". split; [by apply list_elem_of_In | apply String.eqb_refl].
Qed.

(** A read resets a streak last active before yesterday and commits the
    reset. *)
Lemma get_student_streak_reset s sid user st last yesterday :
  authorized user sid -> fault_free s ->
  streaks (txn s) !! sid = Some st ->
  Streak.last_activity_date st = Some last ->
  sub_days (today s) 1 = Ok yesterday ->
  lt last yesterday = true ->
  exists s', get_student_streak sid user s = (Ok (broken st), s')
    /\ streaks (committed s') !! sid = Some (broken st)
    /\ streaks (txn s') !! sid = Some (broken st).
Proof.
  intros Hauth Hff Hst Hlast Hy Hlt. unfold broken. rewrite Hlast.
  destruct s as [c t fs now td]. unfold get_student_streak.
  rewrite (authorized_check _ _ Hauth). unfold set_streak.
  unfold_m.
  repeat break_step; simplify_eq/=; no_fault; try congruence;
    eexists; (split; [reflexivity|]); cbn [streaks set_streaks];
    rewrite lookup_insert_eq; done.
Qed.

(** A read returns a streak last active today or yesterday as it is. *)
Lemma get_student_streak_fresh s sid user st last yesterday :
  authorized user sid -> fault_free s ->
  valid (today s) = true ->
  streaks (txn s) !! sid = Some st ->
  Streak.last_activity_date st = Some last ->
  sub_days (today s) 1 = Ok yesterday ->
  last = today s \/ last = yesterday ->
  exists s', get_student_streak sid user s = (Ok st, s') /\ same_store s s'.
Proof.
  intros Hauth Hff Hv Hst Hlast Hy Hcase.
  assert (lt last yesterday = false) as Hlt.
  { destruct Hcase as [-> | ->]; [by apply lt_yesterday | apply lt_irrefl]. }
  destruct s as [c t fs now td]. unfold get_student_streak, same_store.
  rewrite (authorized_check _ _ Hauth). unfold set_streak.
  unfold_m.
  repeat break_step; simplify_eq/=; no_fault; try congruence;
    eexists; (split; [reflexivity|]); done.
Qed.

(** Without failures the tail of [update_streak] returns the row and leaves
    the [streaks] table as committed. *)
Lemma commit_and_check_badges_fault_free sid st s :
  fault_free s ->
  exists s', commit_and_check_badges sid st s = (Ok st, s')
    /\ fault_free s'
    /\ streaks_are (streaks (txn s)) s'.
Proof.
  intros Hff. unfold commit_and_check_badges, db_refresh, bind.
  destruct (db_commit_fault_free s Hff) as (s1 & -> & Hff1 & Hc1 & Ht1 & _ & Htd1).
  destruct (db_step_fault_free s1 Hff1) as (s2 & -> & Hff2 & Hst2).
  destruct (check_and_award_fault_free sid "daily_streak"
              {[ "streak_days" := PyInt (Streak.current_streak st) ]} s2 Hff2
              (streak_event_ok _)) as (l & s' & E & Hff').
  rewrite E. exists s'. split_and!; [done..|].
  eapply check_and_award_streaks; [|exact E].
  eapply same_store_streaks; [exact Hst2|]. split; congruence.
Qed.

(** Writing a row and running the tail of [update_streak] stores the row. *)
Lemma stored_streak sid st s :
  fault_free s ->
  exists s', (run! db_update (set_streak sid st) in commit_and_check_badges sid st) s
             = (Ok st, s')
    /\ streaks (committed s') !! sid = Some st
    /\ streaks (txn s') !! sid = Some st.
Proof.
  intros Hff. unfold bind, db_update. 
  destruct (commit_and_check_badges_fault_free sid st (with_txn (set_streak sid st) s))
    as (s' & -> & _ & Ht & Hc); [done|].
  exists s'. rewrite Ht, Hc. cbn. rewrite lookup_insert_eq. done.
Qed.

(** [update_streak] with no stored row. *)
Lemma update_streak_first s sid user :
  sub user = sid -> fault_free s ->
  streaks (txn s) !! sid = None ->
  exists s', update_streak sid user s = (Ok (first_streak sid (today s)), s')
    /\ streaks (committed s') !! sid = Some (first_streak sid (today s)).
Proof.
  intros Hsub Hff Hnone. set (st := first_streak sid (today s)). unfold update_streak.
  rewrite Hsub, String.eqb_refl. cbn [negb]. unfold bind at 1.
  destruct (db_execute_fault_free (fun db => streaks db !! sid) s Hff)
    as (s1 & -> & Hff1 & (_ & Ht1 & _ & Htd1)).
  rewrite Hnone. unfold bind at 1, get_today. rewrite Htd1. 
  destruct (stored_streak sid st s1 Hff1) as (s' & E & Hc & _).
  exists s'. split; [exact E | exact Hc].
Qed.

(** [update_streak] on a row already active today. *)
Lemma update_streak_same_day s sid user st :
  sub user = sid -> fault_free s ->
  streaks (txn s) !! sid = Some st ->
  Streak.last_activity_date st = Some (today s) ->
  exists s', update_streak sid user s = (Ok st, s') /\ same_store s s'.
Proof.
  intros Hsub Hff Hst Hlast. unfold update_streak.
  rewrite Hsub, String.eqb_refl. cbn [negb]. unfold bind at 1.
  destruct (db_execute_fault_free (fun db => streaks db !! sid) s Hff)
    as (s1 & -> & Hff1 & Hsame). pose proof Hsame as (_ & _ & _ & Htd1).
  rewrite Hst. unfold bind at 1, get_today. rewrite Htd1, Hlast, eqb_refl.
  exists s1. done.
Qed.

(** [update_streak] on a row last active before today. *)
Lemma update_streak_stored s sid user st yesterday :
  sub user = sid -> fault_free s ->
  streaks (txn s) !! sid = Some st ->
  sub_days (today s) 1 = Ok yesterday ->
  match Streak.last_activity_date st with
  | Some last => eqb last (today s)
  | None => false
  end = false ->
  let st' := if match Streak.last_activity_date st with
                | Some last => eqb last yesterday
                | None => false
                end
             then continued st (today s) else restarted st (today s) in
  exists s', update_streak sid user s = (Ok st', s')
    /\ streaks (committed s') !! sid = Some st'.
Proof.
  intros Hsub Hff Hst Hy Hne st'. unfold update_streak.
  rewrite Hsub, String.eqb_refl. cbn [negb]. unfold bind at 1.
  destruct (db_execute_fault_free (fun db => streaks db !! sid) s Hff)
    as (s1 & -> & Hff1 & (_ & _ & _ & Htd1)).
  rewrite Hst. unfold bind at 1, get_today. rewrite Htd1, Hne.
  unfold bind at 1, lift. rewrite Hy. cbv zeta.
  destruct (stored_streak sid st' s1 Hff1) as (s' & E & Hc & _).
  exists s'. split; [|exact Hc]. rewrite <- E. subst st'.
  set (c := match Streak.last_activity_date st with
            | Some last => eqb last yesterday | None => false end).
  destruct c; [|done]. unfold continued.
  destruct (Z.ltb_spec (Streak.longest_streak st) (Streak.current_streak st + 1)).
  - rewrite Z.max_r by lia. done.
  - rewrite Z.max_l by lia. done.
Qed.


(** A read that finds no row stores one with streak 0, last active today. *)
Lemma get_student_streak_created s sid user yesterday :
  authorized user sid -> fault_free s ->
  valid (today s) = true ->
  sub_days (today s) 1 = Ok yesterday ->
  streaks (txn s) !! sid = None ->
  let created := Streak.mk sid 0 0 (Some (today s)) None 0 in
  exists s', get_student_streak sid user s = (Ok created, s')
    /\ fault_free s' /\ today s' = today s
    /\ streaks (committed s') !! sid = Some created
    /\ streaks (txn s') !! sid = Some created.
Proof.
  intros Hauth Hff Hv Hy Hnone created.
  pose proof (lt_yesterday _ _ Hv Hy) as Hlt.
  destruct s as [c t fs now td]. unfold get_student_streak.
  rewrite (authorized_check _ _ Hauth). unfold set_streak.
  unfold_m.
  repeat break_step; simplify_eq/=; no_fault; try congruence;
    eexists; (split; [reflexivity|]); cbn [streaks set_streaks faults today committed txn];
    rewrite lookup_insert_eq; split_and!; try done; unfold fault_free; cbn [faults]; auto.
Qed.


End StreakFacts.

(** * Analytics engine *)

Section AnalyticsEngineFacts.
Import PyDate PyDateFacts AnalyticsEngine.

(** The weekly range: seven days from the Monday of the anchor's week. *)
Lemma weekly_range d :
  valid d = true ->
  toordinal d - weekday d + 6 <= MAXORDINAL ->
  exists start end_,
    _get_date_range "weekly" d = Ok (start, end_)
    /\ valid start = true /\ valid end_ = true
    /\ weekday start = 0
    /\ toordinal start = toordinal d - weekday d
    /\ toordinal end_ = toordinal start + 6.
Proof.
  intros Hv Hmax. pose proof (valid_ordinal_range d Hv) as Hr.
  apply valid_spec in Hv as [Hy Hwf].
  assert (0 <= weekday d < 7 /\ 0 < toordinal d - weekday d) as [Hw Hpos].
  { unfold weekday. Z.div_mod_to_equations. lia. }
  destruct (add_days_total d (- weekday d)) as [start Hs]; [lia|].
  destruct (add_days_Ok _ _ _ Hwf Hs) as [Hvs Hos].
  pose proof Hvs as Hvs'. apply valid_spec in Hvs' as [_ Hwfs].
  destruct (add_days_total start 6) as [end_ He]; [lia|].
  destruct (add_days_Ok _ _ _ Hwfs He) as [Hve Hoe].
  exists start, end_. unfold _get_date_range. cbn [String.eqb Ascii.eqb Bool.eqb].
  unfold sub_days. rewrite Hs. cbn [result_bind]. rewrite He. cbn [result_bind].
  repeat split; try done; try lia.
  unfold weekday in *. rewrite Hos. Z.div_mod_to_equations. lia.
Qed.

(** The monthly range: from the first to the last day of the anchor's month. *)
Lemma monthly_range d :
  valid d = true ->
  ~ (year d = 9999 /\ month d = 12) ->
  _get_date_range "monthly" d =
    Ok (mkdate (year d) (month d) 1,
        mkdate (year d) (month d) (days_in_month (year d) (month d))).
Proof.
  intros Hv Hdec. destruct d as [y m dd].
  apply valid_spec in Hv as [Hy [Hm Hd]]. cbn [year month day] in *.
  pose proof (days_in_month_range y m Hm) as Hdim.
  assert (valid (mkdate y m 1) = true) as Hv1.
  { apply valid_spec. unfold wf_md. cbn [year month day]. lia. }
  assert (valid (mkdate y m 28) = true) as Hv28.
  { apply valid_spec. unfold wf_md. cbn [year month day]. lia. }
  assert (valid (mkdate y m (days_in_month y m)) = true) as Hvl.
  { apply valid_spec. unfold wf_md. cbn [year month day]. lia. }
  unfold _get_date_range. cbn [String.eqb Ascii.eqb Bool.eqb].
  rewrite replace_day_valid by done. cbn [result_bind year month day].
  rewrite replace_day_valid by done. cbn [result_bind year month day].
  pose proof (valid_ordinal_range _ Hv28) as Hr28.
  pose proof (valid_ordinal_range _ Hvl) as Hrl.
  destruct (after_day28_spec y m Hm) as [Hwf Hord].
  assert (toordinal (after_day28 y m) <= MAXORDINAL) as Hmax.
  { destruct (Z.eq_dec y 9999) as [->|].
    - assert (wf_md (mkdate 9999 12 1)) as Hw1 by (unfold wf_md; cbn; lia).
      assert (lt (after_day28 9999 m) (mkdate 9999 12 31) = true) as Hlt.
      { unfold lt, after_day28. cbn [year month day].
        destruct (Z.eqb_spec m 12); [lia|].
        rewrite Z.ltb_irrefl, Z.eqb_refl. cbn [orb andb].
        apply orb_true_iff. destruct (Z.eq_dec m 11) as [->|].
        + right. cbn. reflexivity.
        + left. apply Z.ltb_lt. lia. }
      apply lt_toordinal in Hlt; [|done|unfold wf_md; cbn; lia].
      change (toordinal (mkdate 9999 12 31)) with MAXORDINAL in Hlt. lia.
    - pose proof (toordinal_bounds _ Hwf) as Hb.
      assert (year (after_day28 y m) <= 9999) as Hy'.
      { unfold after_day28. cbn [year]. destruct (m =? 12); lia. }
      pose proof (days_before_year_mono (year (after_day28 y m) + 1) 10000 ltac:(lia)).
      change (days_before_year 10000) with MAXORDINAL in *. lia. }
  rewrite (add_days_eq _ 4 (after_day28 y m)); [| unfold wf_md; cbn [year month day]; lia | done | lia | lia].
  cbn [result_bind]. unfold sub_days.
  rewrite (add_days_eq _ _ (mkdate y m (days_in_month y m))); [done | done | | | lia].
  - unfold wf_md. cbn [year month day]. lia.
  - rewrite Hord. unfold after_day28, toordinal. cbn [year month day]. lia.
Qed.

Lemma Qle_bool_false x y : Qle_bool x y = false <-> (y < x)%Q.
Proof.
  rewrite <- not_true_iff_false, Qle_bool_iff. split; [apply Qnot_le_lt | apply Qlt_not_le].
Qed.

(** The velocity query cannot be built: the call raises before any storage
    call, with [OverflowError] when the start of the window cannot be
    computed and with [AttributeError] otherwise. *)
Lemma calculate_learning_velocity_run `{PyFloat} sid days s :
  calculate_learning_velocity sid days s
  = (match datetime_sub_days (utcnow s) days with
     | Ok _ => Raise AttributeError
     | Raise e => Raise e
     end, s).
Proof.
  unfold calculate_learning_velocity, no_attribute. unfold_m.
  destruct (datetime_sub_days _ days); reflexivity.
Qed.

Lemma datetime_sub_days_error now k e :
  datetime_sub_days now k = Raise e -> e = OverflowError.
Proof.
  unfold datetime_sub_days. cbv zeta.
  destruct (_ <=? 999999999); [destruct (_ && _)|]; congruence.
Qed.

Lemma predict_completion_time_run `{PyFloat} sid remaining s :
  predict_completion_time sid remaining s
  = (match datetime_sub_days (utcnow s) 30 with
     | Ok _ => Raise AttributeError
     | Raise e => Raise e
     end, s).
Proof.
  unfold predict_completion_time. unfold bind at 1.
  rewrite calculate_learning_velocity_run.
  destruct (datetime_sub_days _ 30); reflexivity.
Qed.

(** The efficiency and the consistency queries cannot be built either. *)
Lemma calculate_mastery_efficiency_raises `{PyFloat} sid s :
  calculate_mastery_efficiency sid s = (Raise AttributeError, s).
Proof. reflexivity. Qed.

Lemma calculate_learning_consistency_raises `{PyFloat} sid s :
  _calculate_learning_consistency sid s = (Raise AttributeError, s).
Proof. reflexivity. Qed.

(** [max(0, x)] is the maximum of 0 and [x]. *)
Lemma py_max0_spec x : (py_max0 x == Qmax 0 x)%Q.
Proof.
  unfold py_max0. destruct (Qle_bool x 0) eqn:E.
  - apply Qle_bool_iff in E. symmetry. apply Q.max_l. done.
  - apply Qle_bool_false in E. symmetry. apply Q.max_r. by apply Qlt_le_weak.
Qed.

(** The score stays within 0..100 for at least one attempt and a non-
    negative time. *)
Lemma efficiency_score_range a h :
  (1 <= a)%Q -> (0 <= h)%Q ->
  (0 <= _calculate_efficiency_score a h <= 100)%Q.
Proof.
  intros Ha Hh. unfold _calculate_efficiency_score, py_max0. cbv zeta.
  destruct (Qle_bool (100 - (a - 1) * 20) 0) eqn:E1;
  destruct (Qle_bool (100 - h * 2) 0) eqn:E2;
    rewrite ?Qle_bool_iff, ?Qle_bool_false in *;
    unfold Qdiv; change (/ 2)%Q with (1 # 2)%Q; split; lra.
Qed.


(** In the slow bucket the suggested pace is the estimated days over 60. *)
Lemma slow_recommendation est v :
  (90 <= est)%Q ->
  _get_completion_recommendation est v = IncreasePace (est / 60)%Q.
Proof.
  intros H. unfold _get_completion_recommendation.
  assert (Qle_bool 30 est = true) as -> by (apply Qle_bool_iff; lra).
  assert (Qle_bool 90 est = true) as -> by (apply Qle_bool_iff; lra).
  reflexivity.
Qed.

End AnalyticsEngineFacts.

(** * Scenarios *)

Section Scenarios.
Import PointsEngine Gamification AnalyticsEngine.

(** An award of 0 points leaves the total and still appends a history
    entry. *)
Example award_of_zero :
  let run := award_points "student" 0 "noop" None (quiet_session empty_db) in
  fst run = Ok (mk_award 0 0 1 false)
  /\ points (committed (snd run)) !! "student" = Some (Points.default "student")
  /\ point_history (committed (snd run))
     = [PointHistory.mk "student" 0 "noop" None 1767225600].
Proof. repeat split. Qed.

(** Reaching 100 points is a level-up to level 2; 300 more points are
    needed for level 3. *)
Example award_levels_up :
  let run := award_points "student" 100 "weekly_goal" None (quiet_session empty_db) in
  fst run = Ok (mk_award 100 100 2 true)
  /\ points (committed (snd run)) !! "student" = Some (Points.mk "student" 100 2 300 100).
Proof. repeat split. Qed.

(** A negative delta that makes the total negative raises and stores
    nothing. *)
Example award_below_zero :
  let run := award_points "student" (-5) "penalty" None (quiet_session empty_db) in
  fst run = Raise ValueError /\ committed (snd run) = empty_db.
Proof. repeat split. Qed.

(** Activity on the day after the last one continues the streak; activity
    three days after it starts a new one. *)
Example streak_next_day :
  let row := Streak.mk "student" 1 1 (Some (PyDate.mkdate 2025 12 31))
               (Some (PyDate.mkdate 2025 12 31)) 1 in
  let s := quiet_session (mkDb ∅ [] [] ∅ {[ "student" := row ]} []) in
  fst (update_streak "student" (mkUser "student" []) s)
  = Ok (Streak.mk "student" 2 2 (Some (PyDate.mkdate 2026 1 1))
          (Some (PyDate.mkdate 2025 12 31)) 2).
Proof. reflexivity. Qed.

Example streak_after_gap :
  let row := Streak.mk "student" 4 4 (Some (PyDate.mkdate 2025 12 29))
               (Some (PyDate.mkdate 2025 12 26)) 4 in
  let s := quiet_session (mkDb ∅ [] [] ∅ {[ "student" := row ]} []) in
  fst (update_streak "student" (mkUser "student" []) s)
  = Ok (Streak.mk "student" 1 4 (Some (PyDate.mkdate 2026 1 1))
          (Some (PyDate.mkdate 2026 1 1)) 5).
Proof. reflexivity. Qed.

(** Another student's streak cannot be updated, nor read without the
    instructor role. *)
Example streak_forbidden :
  fst (update_streak "student" (mkUser "other" ["instructor"]) (quiet_session empty_db))
  = Raise (HTTPException 403)
  /\ fst (get_student_streak "student" (mkUser "other" []) (quiet_session empty_db))
     = Raise (HTTPException 403).
Proof. repeat split. Qed.

(** The monthly range of each kind of month, and a weekly range across a
    year's end. *)
Example date_ranges :
  _get_date_range "monthly" (PyDate.mkdate 2024 2 10)
    = Ok (PyDate.mkdate 2024 2 1, PyDate.mkdate 2024 2 29)
  /\ _get_date_range "monthly" (PyDate.mkdate 2023 2 10)
     = Ok (PyDate.mkdate 2023 2 1, PyDate.mkdate 2023 2 28)
  /\ _get_date_range "monthly" (PyDate.mkdate 2025 4 30)
     = Ok (PyDate.mkdate 2025 4 1, PyDate.mkdate 2025 4 30)
  /\ _get_date_range "monthly" (PyDate.mkdate 2025 12 31)
     = Ok (PyDate.mkdate 2025 12 1, PyDate.mkdate 2025 12 31)
  /\ _get_date_range "weekly" (PyDate.mkdate 2026 1 1)
     = Ok (PyDate.mkdate 2025 12 29, PyDate.mkdate 2026 1 4).
Proof. repeat split. Qed.

(** On an empty table as on any other, the prediction raises. *)
Example prediction_without_data :
  fst (@calculate_learning_velocity exact_floats "student" 30 (quiet_session empty_db))
  = Raise AttributeError
  /\ fst (@predict_completion_time exact_floats "student" 40 (quiet_session empty_db))
     = Raise AttributeError.
Proof. repeat split. Qed.

End Scenarios.

(** * The claims *)

Import PointsEngine BadgeEngine Gamification AnalyticsEngine.

(** ** Points: level invariant (C1) and atomic award (C8) *)

(** C1.  An award of a non-negative delta, starting from a row whose level
    is [floor(sqrt(total_points / 100)) + 1], goes through when no storage
    call fails, and whenever it goes through the stored row has the summed
    total, the level [floor(sqrt(total_points / 100)) + 1] for the new total
    and [points_to_next_level = current_level^2 * 100 - total_points],
    whether or not the level changed.  The formula gives level 1 at 0 and at
    99 points, level 2 at 100 and level 4 at 900. *)
Theorem award_points_level_invariant (s : Session) (sid : string) (pts : Z)
    (reason : string) (cid : option string) :
  0 <= pts ->
  is_level (Points.total_points (prior_points sid s))
           (Points.current_level (prior_points sid s)) ->
  (fault_free s -> exists r s', award_points sid pts reason cid s = (Ok r, s'))
  /\ (forall r s', award_points sid pts reason cid s = (Ok r, s') ->
      exists p',
        points (committed s') !! sid = Some p'
        /\ Points.total_points p' = Points.total_points (prior_points sid s) + pts
        /\ Points.current_level p' = Z.sqrt (Points.total_points p' / 100) + 1
        /\ is_level (Points.total_points p') (Points.current_level p')
        /\ Points.points_to_next_level p'
           = Points.current_level p' ^ 2 * 100 - Points.total_points p'
        /\ current_level r = Points.current_level p'
        /\ (level_up r = true
            <-> Points.current_level (prior_points sid s) < Points.current_level p'))
  /\ (level_for 0 = 1 /\ level_for 99 = 1 /\ level_for 100 = 2 /\ level_for 900 = 4).
Proof.
  intros Hpts Hinv.
  assert (0 <= Points.total_points (prior_points sid s)) as Hnn.
  { destruct Hinv as [? [? ?]]. rewrite Z.pow_2_r in *. nia. }
  split_and!.
  - intros Hff. apply award_points_fault_free; [done | lia].
  - intros r s' Hrun.
    destruct (award_points_ok _ _ _ _ _ _ _ Hrun) as (p' & Hchk & Hr & Hp' & _).
    destruct (check_level_up_invariant _ _ _ _ Hinv Hpts Hchk) as (Htot & Hlvl & Hnext & Hup).
    exists p'. split_and!; try done.
    + apply (is_level_unique (Points.total_points p')); [done|].
      apply level_for_is_level. lia.
    + rewrite Hr. reflexivity.
  - reflexivity.
  - reflexivity.
  - reflexivity.
  - reflexivity.
Qed.

Lemma award_points_level_invariant_witness :
  0 <= 100
  /\ is_level 0 1
  /\ exists r s' p',
       award_points "student" 100 "concept_mastered" None (quiet_session empty_db)
         = (Ok r, s')
       /\ points (committed s') !! "student" = Some p'
       /\ Points.total_points p' = 100
       /\ Points.current_level p' = 2
       /\ Points.points_to_next_level p' = 300.
Proof.
  assert (0 <= 100) as H0 by lia.
  assert (is_level 0 1) as H1 by (unfold is_level; lia).
  split; [exact H0|]. split; [exact H1|].
  destruct (award_points_level_invariant (quiet_session empty_db) "student" 100
              "concept_mastered" None H0 H1) as (Hrun & Hok & _).
  destruct (Hrun (fault_free_quiet empty_db)) as (r & s' & E).
  destruct (Hok r s' E) as (p' & Hp' & Htot & Hlvl & _ & Hnext & _ & _).
  exists r, s', p'. split; [exact E|]. split; [exact Hp'|].
  assert (Points.total_points p' = 100) as Ht by exact Htot.
  assert (Points.current_level p' = 2) as Hl by (rewrite Hlvl, Ht; reflexivity).
  split; [exact Ht|]. split; [exact Hl|]. rewrite Hnext, Hl, Ht. reflexivity.
Defined.

(** C8.  Whenever [award_points] raises, the durable store is what it was
    before the call and the session's view is rolled back to it, so neither
    a changed points row nor a history entry is observable; the exception is
    the one the failing storage call raised (or the domain error of the
    level computation).  A failure of any storage call of the award does make
    it raise that exception.  When the award returns, the points row and its
    history entry are durable together. *)
Theorem award_points_atomic (s : Session) (sid : string) (pts : Z)
    (reason : string) (cid : option string) :
  (forall e s', award_points sid pts reason cid s = (Raise e, s') ->
     committed s' = committed s /\ txn s' = committed s
     /\ (In (Some e) (faults s) \/ e = ValueError))
  /\ (forall e, next_fault (storage_calls sid s) (faults s) = Some e ->
        0 <= Points.total_points (prior_points sid s) + pts ->
        exists s', award_points sid pts reason cid s = (Raise e, s')
                   /\ committed s' = committed s /\ txn s' = committed s)
  /\ (forall r s', award_points sid pts reason cid s = (Ok r, s') ->
        exists p',
          points (committed s') !! sid = Some p'
          /\ Points.total_points p' = Points.total_points (prior_points sid s) + pts
          /\ Points.lifetime_points p' = Points.lifetime_points (prior_points sid s) + pts
          /\ point_history (committed s')
             = point_history (txn s) ++ [PointHistory.mk sid pts reason cid (utcnow s)]
          /\ txn s' = committed s').
Proof.
  split_and!.
  - intros e s'. apply award_points_raise.
  - intros e Hfault Hpos.
    destruct (award_points_fault _ _ _ reason cid _ Hfault Hpos) as [s' E].
    exists s'. split; [exact E|].
    destruct (award_points_raise _ _ _ _ _ _ _ E) as (? & ? & _). done.
  - intros r s' Hrun.
    destruct (award_points_ok _ _ _ _ _ _ _ Hrun) as (p' & Hchk & _ & Hp' & Hhist & Htxn).
    exists p'. split_and!; try done.
    + unfold _check_level_up in Hchk.
      repeat match type of Hchk with context [if ?c then _ else _] => destruct c end;
        simplify_eq/=; reflexivity.
    + unfold _check_level_up in Hchk.
      repeat match type of Hchk with context [if ?c then _ else _] => destruct c end;
        simplify_eq/=; reflexivity.
Qed.

Lemma award_points_atomic_witness :
  let s := with_faults [None; None; Some (DBError 1)] (quiet_session empty_db) in
  next_fault (storage_calls "student" s) (faults s) = Some (DBError 1)
  /\ 0 <= Points.total_points (prior_points "student" s) + 25
  /\ exists s', award_points "student" 25 "concept_mastered" None s
                = (Raise (DBError 1), s')
                /\ committed s' = empty_db /\ txn s' = empty_db.
Proof.
  intros s.
  assert (next_fault (storage_calls "student" s) (faults s) = Some (DBError 1)) as H0
    by reflexivity.
  assert (0 <= Points.total_points (prior_points "student" s) + 25) as H1
    by (vm_compute; discriminate).
  split; [exact H0|]. split; [exact H1|].
  destruct (award_points_atomic s "student" 25 "concept_mastered" None) as (_ & Hfault & _).
  exact (Hfault (DBError 1) H0 H1).
Defined.

(** ** Badges: at most one award per student and badge (C2) *)

(** C2.  When a [UserBadge] row exists for (student, badge), [_award_badge]
    changes neither store and returns no award ([None], or the exception of a
    failed select); without storage failures it returns [None].  Of two calls
    of [check_and_award_badges] on the same event, the first reports a badge
    that is active, qualifies and is not yet awarded, and the second does not
    report it; and whatever storage calls fail, no badge is reported by
    both. *)
Theorem badge_awarded_at_most_once (s : Session) (sid : string) (b : Badge.t)
    (et : string) (ed : gmap string pyval) :
  (is_Some (user_badges (txn s) !! (sid, Badge.id b)) ->
     (forall r s', _award_badge sid b s = (r, s') ->
        same_store s s' /\ (r = Ok None \/ exists e, r = Raise e))
     /\ (fault_free s ->
         exists s', _award_badge sid b s = (Ok None, s') /\ same_store s s'))
  /\ (fault_free s -> event_data_ok ed ->
      b ∈ badges (txn s) -> Badge.is_active b = true ->
      criteria_value (txn s) (utcnow s) sid b et ed = Ok true ->
      user_badges (txn s) !! (sid, Badge.id b) = None ->
      exists l1 s1 l2 s2,
        check_and_award_badges sid et ed s = (Ok l1, s1)
        /\ Badge.id b ∈ badge_id <$> l1
        /\ check_and_award_badges sid et ed s1 = (Ok l2, s2)
        /\ Badge.id b ∉ badge_id <$> l2)
  /\ (forall l1 s1 l2 s2,
        check_and_award_badges sid et ed s = (Ok l1, s1) ->
        check_and_award_badges sid et ed s1 = (Ok l2, s2) ->
        forall x y, x ∈ l1 -> y ∈ l2 -> badge_id x <> badge_id y).
Proof.
  split_and!.
  - intros Hex. split.
    + intros r s'. by apply award_badge_existing.
    + intros Hff.
      destruct (award_badge_fault_free sid b s Hff) as (r & s' & E & _ & _ & Hr).
      destruct (award_badge_existing _ _ _ _ _ Hex E) as [Hsame [Hr' | [e Hr']]];
        [|discriminate].
      injection Hr' as ->. by exists s'.
  - intros Hff Hok Hin Hact Hcrit Hnone.
    destruct (check_and_award_awards sid et ed b s Hff Hok Hin Hact Hcrit Hnone)
      as (l1 & s1 & E1 & Hb & Hff1).
    destruct (check_and_award_fault_free sid et ed s1 Hff1 Hok) as (l2 & s2 & E2 & _).
    exists l1, s1, l2, s2. split_and!; try done.
    intros Hb2.
    apply list_elem_of_fmap in Hb as (x & Hx & Hxin).
    apply list_elem_of_fmap in Hb2 as (y & Hy & Hyin).
    apply (check_and_award_twice _ _ _ _ _ _ _ _ E1 E2 x y Hxin Hyin). congruence.
  - intros l1 s1 l2 s2. apply check_and_award_twice.
Qed.

Lemma badge_awarded_at_most_once_witness :
  let s := quiet_session (mkDb ∅ [] [consistency_king] ∅ ∅ []) in
  fault_free s
  /\ event_data_ok week_streak
  /\ consistency_king ∈ badges (txn s)
  /\ criteria_value (txn s) (utcnow s) "student" consistency_king "daily_streak" week_streak
     = Ok true
  /\ user_badges (txn s) !! ("student", "badge-7") = None
  /\ exists l1 s1 l2 s2,
       check_and_award_badges "student" "daily_streak" week_streak s = (Ok l1, s1)
       /\ "badge-7" ∈ badge_id <$> l1
       /\ check_and_award_badges "student" "daily_streak" week_streak s1 = (Ok l2, s2)
       /\ "badge-7" ∉ badge_id <$> l2.
Proof.
  intros s.
  assert (fault_free s) as H0 by apply fault_free_quiet.
  assert (event_data_ok week_streak) as H1 by apply streak_event_ok.
  assert (consistency_king ∈ badges (txn s)) as H2 by apply list_elem_of_here.
  assert (criteria_value (txn s) (utcnow s) "student" consistency_king "daily_streak"
            week_streak = Ok true) as H3 by reflexivity.
  assert (user_badges (txn s) !! ("student", Badge.id consistency_king) = None) as H4
    by reflexivity.
  split_and!; try done.
  destruct (badge_awarded_at_most_once s "student" consistency_king "daily_streak"
              week_streak) as (_ & Htwice & _).
  exact (Htwice H0 H1 H2 eq_refl H3 H4).
Defined.

(** ** Streaks: the update step (C3), the lazy reset on read (C9) and the
    row created by a read (C10) *)

(** C3.  For the caller's own streak, with no storage failure: with no
    stored row the created row has streak 1, longest 1, started today and one
    active day; a row last active today is returned as it is and nothing is
    written; a row last active yesterday gets streak + 1, longest the maximum
    of longest and the new streak, and one more active day; a row last active
    two or more days ago gets streak 1, started today, and one more active
    day. *)
Theorem update_streak_step (s : Session) (sid : string) (user : User) :
  sub user = sid -> fault_free s -> PyDate.valid (today s) = true ->
  (streaks (txn s) !! sid = None ->
     exists s', update_streak sid user s = (Ok (first_streak sid (today s)), s')
       /\ streaks (committed s') !! sid = Some (first_streak sid (today s)))
  /\ (forall st,
        streaks (txn s) !! sid = Some st ->
        Streak.last_activity_date st = Some (today s) ->
        exists s', update_streak sid user s = (Ok st, s') /\ same_store s s')
  /\ (forall st yesterday,
        streaks (txn s) !! sid = Some st ->
        PyDate.sub_days (today s) 1 = Ok yesterday ->
        Streak.last_activity_date st = Some yesterday ->
        exists s', update_streak sid user s = (Ok (continued st (today s)), s')
          /\ streaks (committed s') !! sid = Some (continued st (today s)))
  /\ (forall st last,
        streaks (txn s) !! sid = Some st ->
        Streak.last_activity_date st = Some last ->
        PyDate.valid last = true ->
        PyDate.toordinal last + 2 <= PyDate.toordinal (today s) ->
        exists s', update_streak sid user s = (Ok (restarted st (today s)), s')
          /\ streaks (committed s') !! sid = Some (restarted st (today s))).
Proof.
  intros Hsub Hff Hv. split_and!.
  - by apply update_streak_first.
  - intros st. by apply update_streak_same_day.
  - intros st yesterday Hst Hy Hlast.
    destruct (PyDateFacts.sub_days_1 _ _ Hv Hy) as [_ Hord].
    destruct (update_streak_stored s sid user st yesterday Hsub Hff Hst Hy) as (s' & E & Hc).
    { rewrite Hlast. apply PyDateFacts.eqb_neq_ordinal. lia. }
    rewrite Hlast, PyDateFacts.eqb_refl in E, Hc. eauto.
  - intros st last Hst Hlast Hvl Hgap.
    pose proof (PyDateFacts.valid_ordinal_range _ Hv) as Hr.
    pose proof (PyDateFacts.valid_ordinal_range _ Hvl) as Hrl.
    destruct (PyDateFacts.add_days_total (today s) (- 1)) as [yesterday Hy]; [lia|].
    destruct (PyDateFacts.sub_days_1 _ _ Hv Hy) as [_ Hord].
    destruct (update_streak_stored s sid user st yesterday Hsub Hff Hst Hy) as (s' & E & Hc).
    { rewrite Hlast. apply PyDateFacts.eqb_neq_ordinal. lia. }
    rewrite Hlast, PyDateFacts.eqb_neq_ordinal in E, Hc by lia. eauto.
Qed.

Lemma update_streak_step_witness :
  let s := quiet_session (mkDb ∅ [] [] ∅ {[ "student" := three_day_streak ]} []) in
  sub (mkUser "student" []) = "student"
  /\ fault_free s
  /\ PyDate.valid (today s) = true
  /\ exists s', update_streak "student" (mkUser "student" []) s
                = (Ok (Streak.mk "student" 4 4 (Some (PyDate.mkdate 2026 1 1))
                         (Some (PyDate.mkdate 2025 12 29)) 4), s').
Proof.
  intros s.
  assert (fault_free s) as H1 by apply fault_free_quiet.
  split; [reflexivity|]. split; [exact H1|]. split; [reflexivity|].
  destruct (update_streak_step s "student" (mkUser "student" []) eq_refl H1 eq_refl)
    as (_ & _ & Hcont & _).
  destruct (Hcont three_day_streak (PyDate.mkdate 2025 12 31) eq_refl eq_refl eq_refl)
    as (s' & E & _).
  exists s'. exact E.
Defined.

(** C9.  For an authorized caller, with no storage failure: a stored streak
    whose last activity is earlier than yesterday is returned and stored with
    its current streak set to 0, its longest streak, active days and date of
    last activity as they were; a streak last active today or yesterday is
    returned as it is and nothing is written. *)
Theorem get_student_streak_lazy_reset (s : Session) (sid : string) (user : User)
    (st : Streak.t) (last yesterday : PyDate.date) :
  authorized user sid -> fault_free s -> PyDate.valid (today s) = true ->
  streaks (txn s) !! sid = Some st ->
  Streak.last_activity_date st = Some last ->
  PyDate.sub_days (today s) 1 = Ok yesterday ->
  (PyDate.lt last yesterday = true ->
     exists s', get_student_streak sid user s = (Ok (broken st), s')
       /\ streaks (committed s') !! sid = Some (broken st)
       /\ Streak.current_streak (broken st) = 0
       /\ Streak.longest_streak (broken st) = Streak.longest_streak st
       /\ Streak.total_active_days (broken st) = Streak.total_active_days st
       /\ Streak.last_activity_date (broken st) = Streak.last_activity_date st)
  /\ (last = today s \/ last = yesterday ->
      exists s', get_student_streak sid user s = (Ok st, s') /\ same_store s s').
Proof.
  intros Hauth Hff Hv Hst Hlast Hy. split.
  - intros Hlt.
    destruct (get_student_streak_reset s sid user st last yesterday
                Hauth Hff Hst Hlast Hy Hlt) as (s' & E & Hc & _).
    exists s'. split_and!; done.
  - intros Hcase. by eapply get_student_streak_fresh.
Qed.

Lemma get_student_streak_lazy_reset_witness :
  let s := quiet_session (mkDb ∅ [] [] ∅ {[ "student" := stale_streak ]} []) in
  authorized (mkUser "student" []) "student"
  /\ fault_free s
  /\ PyDate.sub_days (today s) 1 = Ok (PyDate.mkdate 2025 12 31)
  /\ PyDate.lt (PyDate.mkdate 2025 12 20) (PyDate.mkdate 2025 12 31) = true
  /\ exists s', get_student_streak "student" (mkUser "student" []) s
                = (Ok (Streak.mk "student" 0 9 (Some (PyDate.mkdate 2025 12 20)) None 30), s')
       /\ streaks (committed s') !! "student"
          = Some (Streak.mk "student" 0 9 (Some (PyDate.mkdate 2025 12 20)) None 30).
Proof.
  intros s.
  assert (authorized (mkUser "student" []) "student") as H0 by (left; reflexivity).
  assert (fault_free s) as H1 by apply fault_free_quiet.
  split; [exact H0|]. split; [exact H1|]. split; [reflexivity|]. split; [reflexivity|].
  destruct (get_student_streak_lazy_reset s "student" (mkUser "student" []) stale_streak
              (PyDate.mkdate 2025 12 20) (PyDate.mkdate 2025 12 31)
              H0 H1 eq_refl eq_refl eq_refl eq_refl) as (Hreset & _).
  destruct (Hreset eq_refl) as (s' & E & Hc & _).
  exists s'. split; [exact E | exact Hc].
Defined.

(** C10.  When the read endpoint finds no row it stores one with streak 0
    and last activity today; an update later the same day finds the activity
    already recorded today and returns that row, still with streak 0 and no
    active day, writing nothing. *)
Theorem streak_created_by_read_stays_zero (s : Session) (sid : string)
    (user : User) (yesterday : PyDate.date) :
  sub user = sid -> fault_free s -> PyDate.valid (today s) = true ->
  PyDate.sub_days (today s) 1 = Ok yesterday ->
  streaks (txn s) !! sid = None ->
  exists created s1 s2,
    get_student_streak sid user s = (Ok created, s1)
    /\ streaks (committed s1) !! sid = Some created
    /\ Streak.current_streak created = 0
    /\ Streak.last_activity_date created = Some (today s)
    /\ today s1 = today s
    /\ update_streak sid user s1 = (Ok created, s2)
    /\ same_store s1 s2
    /\ streaks (committed s2) !! sid = Some created
    /\ Streak.total_active_days created = 0.
Proof.
  intros Hsub Hff Hv Hy Hnone.
  destruct (get_student_streak_created s sid user yesterday
              (or_introl Hsub) Hff Hv Hy Hnone) as (s1 & E1 & Hff1 & Htd & Hc1 & Ht1).
  destruct (update_streak_same_day s1 sid user _ Hsub Hff1 Ht1) as (s2 & E2 & Hsame).
  { cbn. by rewrite Htd. }
  eexists _, s1, s2. split_and!; try done.
  destruct Hsame as (-> & _). done.
Qed.

Lemma streak_created_by_read_stays_zero_witness :
  let s := quiet_session empty_db in
  fault_free s
  /\ PyDate.sub_days (today s) 1 = Ok (PyDate.mkdate 2025 12 31)
  /\ exists created s1 s2,
       get_student_streak "student" (mkUser "student" []) s = (Ok created, s1)
       /\ update_streak "student" (mkUser "student" []) s1 = (Ok created, s2)
       /\ Streak.current_streak created = 0
       /\ Streak.total_active_days created = 0.
Proof.
  intros s.
  assert (fault_free s) as H1 by apply fault_free_quiet.
  split; [exact H1|]. split; [reflexivity|].
  destruct (streak_created_by_read_stays_zero s "student" (mkUser "student" [])
              (PyDate.mkdate 2025 12 31) eq_refl H1 eq_refl eq_refl eq_refl)
    as (created & s1 & s2 & E1 & _ & Hcur & _ & _ & E2 & _ & _ & Htot).
  exists created, s1, s2. split_and!; done.
Defined.

(** ** Analytics: period resolver (C4), completion prediction (C5),
    efficiency score (C6), slow-pace recommendation (C7) *)

(** C4, as amended.  For every valid anchor date: the daily range is
    (anchor, anchor); when the Sunday that ends the anchor's week is no later
    than 9999-12-31, the weekly range is seven days long and starts on the
    Monday of the anchor's week (anchor minus its weekday index); when the
    anchor is not in December 9999, the monthly range runs from the first to
    the last calendar day of the anchor's month, for every month length. *)
Theorem date_range_resolver (d : PyDate.date) :
  PyDate.valid d = true ->
  _get_date_range "daily" d = Ok (d, d)
  /\ (PyDate.toordinal d - PyDate.weekday d + 6 <= PyDate.MAXORDINAL ->
      exists start end_,
        _get_date_range "weekly" d = Ok (start, end_)
        /\ PyDate.valid start = true /\ PyDate.valid end_ = true
        /\ PyDate.weekday start = 0
        /\ PyDate.toordinal start = PyDate.toordinal d - PyDate.weekday d
        /\ PyDate.toordinal end_ = PyDate.toordinal start + 6)
  /\ (~ (PyDate.year d = 9999 /\ PyDate.month d = 12) ->
      _get_date_range "monthly" d =
        Ok (PyDate.mkdate (PyDate.year d) (PyDate.month d) 1,
            PyDate.mkdate (PyDate.year d) (PyDate.month d)
              (PyDate.days_in_month (PyDate.year d) (PyDate.month d)))).
Proof.
  intros Hv. split_and!.
  - reflexivity.
  - by apply weekly_range.
  - by apply monthly_range.
Qed.

Lemma date_range_resolver_witness :
  let d := PyDate.mkdate 2024 2 15 in
  PyDate.valid d = true
  /\ PyDate.toordinal d - PyDate.weekday d + 6 <= PyDate.MAXORDINAL
  /\ ~ (PyDate.year d = 9999 /\ PyDate.month d = 12)
  /\ _get_date_range "daily" d = Ok (d, d)
  /\ (exists start end_,
        _get_date_range "weekly" d = Ok (start, end_)
        /\ PyDate.weekday start = 0
        /\ PyDate.toordinal end_ = PyDate.toordinal start + 6)
  /\ _get_date_range "monthly" d
     = Ok (PyDate.mkdate 2024 2 1, PyDate.mkdate 2024 2 29).
Proof.
  intros d.
  assert (PyDate.valid d = true) as H0 by reflexivity.
  assert (PyDate.toordinal d - PyDate.weekday d + 6 <= PyDate.MAXORDINAL) as H1
    by (vm_compute; discriminate).
  assert (~ (PyDate.year d = 9999 /\ PyDate.month d = 12)) as H2
    by (intros [H _]; discriminate H).
  destruct (date_range_resolver d H0) as (Hday & Hweek & Hmonth).
  split; [exact H0|]. split; [exact H1|]. split; [exact H2|]. split; [exact Hday|].
  split.
  - destruct (Hweek H1) as (start & end_ & E & _ & _ & Hmon & _ & Hlen).
    exists start, end_. split; [exact E|]. split; [exact Hmon | exact Hlen].
  - exact (Hmonth H2).
Defined.

(** C4 as stated fails at the upper end of the date range: the week of
    9999-12-31 ends after the last representable date, and for an anchor in
    December 9999 the step from the 28th into the next month leaves the
    range; both raise [OverflowError]. *)
Lemma date_range_overflow :
  PyDate.valid (PyDate.mkdate 9999 12 31) = true
  /\ _get_date_range "weekly" (PyDate.mkdate 9999 12 31) = Raise OverflowError
  /\ PyDate.valid (PyDate.mkdate 9999 12 15) = true
  /\ _get_date_range "monthly" (PyDate.mkdate 9999 12 15) = Raise OverflowError
  /\ ~ (forall d, PyDate.valid d = true ->
          exists r, _get_date_range "weekly" d = Ok r)
  /\ ~ (forall d, PyDate.valid d = true ->
          exists r, _get_date_range "monthly" d = Ok r).
Proof.
  split_and!; try reflexivity.
  - intros H. destruct (H (PyDate.mkdate 9999 12 31) eq_refl) as [r Hr]. discriminate Hr.
  - intros H. destruct (H (PyDate.mkdate 9999 12 15) eq_refl) as [r Hr]. discriminate Hr.
Qed.

(** C5, on the code.  [predict_completion_time] never returns a result:
    its first step, the velocity query of [calculate_learning_velocity], names
    [ConceptProgress.last_attempted_at], an attribute the class does not have,
    so building the query raises.  Every call ends in an exception and leaves
    the session as it was, without a storage call; whenever the start of the
    30-day window can be computed, as it can for every clock reading later
    than January of the year 1, the exception is [AttributeError], from the
    velocity query and so from the prediction.  Neither the result without an
    estimate nor a confidence tier is ever produced. *)
Theorem predict_completion_time_raises `{PyFloat} (s : Session) (sid : string)
    (remaining : Z) :
  (forall r s',
     predict_completion_time sid remaining s = (r, s') ->
     s' = s /\ (r = Raise AttributeError \/ r = Raise OverflowError))
  /\ (forall start,
        datetime_sub_days (utcnow s) 30 = Ok start ->
        calculate_learning_velocity sid 30 s = (Raise AttributeError, s)
        /\ predict_completion_time sid remaining s = (Raise AttributeError, s)).
Proof.
  split.
  - intros r s'. rewrite predict_completion_time_run.
    destruct (datetime_sub_days _ 30) as [t|e] eqn:E; intros [= <- <-].
    + auto.
    + apply datetime_sub_days_error in E as ->. auto.
  - intros start E.
    rewrite calculate_learning_velocity_run, predict_completion_time_run, E. done.
Qed.

Lemma predict_completion_time_raises_witness :
  let s := quiet_session empty_db in
  datetime_sub_days (utcnow s) 30 = Ok 1764633600
  /\ @calculate_learning_velocity exact_floats "student" 30 s = (Raise AttributeError, s)
  /\ @predict_completion_time exact_floats "student" 10 s = (Raise AttributeError, s).
Proof.
  intros s.
  assert (datetime_sub_days (utcnow s) 30 = Ok 1764633600) as H0 by reflexivity.
  split; [exact H0|].
  destruct (@predict_completion_time_raises exact_floats s "student" 10) as [_ Hrun].
  exact (Hrun 1764633600 H0).
Defined.

(** C6, on the code.  The score is the mean of the two penalty curves
    [max(0, 100 - (avg_attempts - 1) * 20)] and [max(0, 100 - avg_hours * 2)].
    At 0 attempts and 0 hours, the arguments that [calculate_mastery_efficiency]
    passes for a student without a mastered concept, the score is 110, above
    the documented range 0..100.  [calculate_mastery_efficiency] itself
    raises [AttributeError] for every student, because its query names
    [ConceptProgress.created_at], which the class does not have; the score is
    reached by a call of [_calculate_efficiency_score]. *)
Theorem efficiency_score_no_mastery :
  (forall a h,
     (_calculate_efficiency_score a h
      == (Qmax 0 (100 - (a - 1) * 20) + Qmax 0 (100 - h * 2)) / 2)%Q)
  /\ or_zero None = 0%Q
  /\ (_calculate_efficiency_score 0 0 == 110)%Q
  /\ (100 < _calculate_efficiency_score 0 0)%Q
  /\ (forall (F : PyFloat) sid s,
        @calculate_mastery_efficiency F sid s = (Raise AttributeError, s)).
Proof.
  split_and!.
  - intros a h. unfold _calculate_efficiency_score. cbv zeta.
    by rewrite !py_max0_spec.
  - reflexivity.
  - reflexivity.
  - reflexivity.
  - intros F sid s. apply calculate_mastery_efficiency_raises.
Qed.

(** C7, on the code.  In the slow bucket the suggested pace is the estimated
    days divided by 60, not the remaining concepts divided by 60.  The
    estimate that [predict_completion_time] passes is the remaining concepts
    divided by the velocity, so for every velocity above 1 the suggested pace
    covers in 60 days only as many concepts as the estimate has days, fewer
    than remain: for 1000 concepts at 2 a day, 500. *)
Theorem slow_recommendation_misses_target (remaining_concepts : Z) (velocity : Q) :
  (1 < velocity)%Q ->
  (90 <= inject_Z remaining_concepts / velocity)%Q ->
  exists target_velocity,
    _get_completion_recommendation (inject_Z remaining_concepts / velocity) velocity
    = IncreasePace target_velocity
    /\ (target_velocity * 60 == inject_Z remaining_concepts / velocity)%Q
    /\ (target_velocity * 60 < inject_Z remaining_concepts)%Q.
Proof.
  intros Hv Hest.
  set (est := (inject_Z remaining_concepts / velocity)%Q) in *.
  exists (est / 60)%Q. split; [by apply slow_recommendation|].
  assert (est / 60 * 60 == est)%Q as Hmul by (field).
  split; [exact Hmul|]. rewrite Hmul.
  assert (0 < velocity)%Q as Hpos by lra.
  assert (inject_Z remaining_concepts == est * velocity)%Q as Hr.
  { unfold est. field. lra. }
  rewrite Hr. nra.
Qed.

Lemma slow_recommendation_misses_target_witness :
  (1 < 2)%Q
  /\ (90 <= inject_Z 1000 / 2)%Q
  /\ exists target_velocity,
       _get_completion_recommendation (inject_Z 1000 / 2) 2 = IncreasePace target_velocity
       /\ (target_velocity * 60 == 500)%Q
       /\ (target_velocity * 60 < 1000)%Q.
Proof.
  assert (1 < 2)%Q as H0 by reflexivity.
  assert (90 <= inject_Z 1000 / 2)%Q as H1 by (vm_compute; discriminate).
  split; [exact H0|]. split; [exact H1|].
  destruct (slow_recommendation_misses_target 1000 2 H0 H1) as (t & E & Hm & Hlt).
  exists t. split; [exact E|]. split; [|exact Hlt].
  rewrite Hm. reflexivity.
Defined.

(** * Further properties *)

(** ** Points of an event *)

Section EventPointsFacts.
Import EventPoints.

Lemma points_map_range et p : points_map !! et = Some p -> 5 <= p <= 50.
Proof.
  unfold points_map. intros H.
  repeat (apply lookup_insert_Some in H as [[_ <-]|[_ H]]; [vm_compute; split; discriminate|]).
  apply lookup_singleton_Some in H as [_ <-]. vm_compute; split; discriminate.
Qed.

Lemma base_points_range et : 0 <= default 0 (points_map !! et) <= 50.
Proof.
  destruct (points_map !! et) as [p|] eqn:E; cbn; [|lia].
  apply points_map_range in E. lia.
Qed.

(** X1.  For every event other than a mastery the points are the entry of
    the table, whatever the metadata says, between 0 and 50 with the default
    settings; an event the table does not list earns 0. *)
Theorem event_points_ignore_metadata (et : string) (md : option (gmap string pyval)) :
  et <> "concept_mastered" ->
  calculate_event_points et md = Ok (default 0 (points_map !! et))
  /\ 0 <= default 0 (points_map !! et) <= 50
  /\ (points_map !! et = None -> calculate_event_points et md = Ok 0).
Proof.
  intros Hne. apply String.eqb_neq in Hne.
  assert (calculate_event_points et md = Ok (default 0 (points_map !! et))) as E.
  { unfold calculate_event_points. destruct md as [m|]; [|done]. by rewrite Hne. }
  split; [done|]. split; [apply base_points_range|]. intros Hnone. by rewrite E, Hnone.
Qed.

Lemma event_points_ignore_metadata_witness :
  "daily_streak" <> "concept_mastered"
  /\ calculate_event_points "daily_streak" (Some {[ "perfect_score" := PyInt 1 ]}) = Ok 5.
Proof.
  assert ("daily_streak" <> "concept_mastered") as H by discriminate.
  split; [exact H|].
  exact (proj1 (event_points_ignore_metadata "daily_streak"
                  (Some {[ "perfect_score" := PyInt 1 ]}) H)).
Defined.

(** X2.  A mastery earns between 25 and 40 points: 25 without metadata or
    with empty metadata, 10 more for a perfect score, 5 more for a completion
    time under 300.  A completion time of 0 is false and earns no speed
    bonus. *)
Theorem mastery_points_bounds (md : option (gmap string pyval)) (p : Z) :
  calculate_event_points "concept_mastered" md = Ok p ->
  25 <= p <= 40
  /\ (md = None \/ md = Some ∅ -> p = 25)
  /\ (forall m, md = Some m -> m !! "completion_time" = Some (PyInt 0) -> p <= 35)
  /\ (forall m, md = Some m -> m !! "perfect_score" = None -> p <= 30).
Proof.
  unfold calculate_event_points.
  change (default 0 (points_map !! "concept_mastered")) with 25.
  destruct md as [m|]; cbn [String.eqb Ascii.eqb Bool.eqb andb].
  2: { intros [= <-]. split; [lia|]. split; [done|]. split; intros; discriminate. }
  destruct (bool_decide (m = ∅)) eqn:Em; cbn [negb].
  { intros [= <-]. split; [lia|]. split; [done|]. split; intros; lia. }
  apply bool_decide_eq_false in Em.
  unfold settings.POINTS_PERFECT_SCORE_BONUS, dict_get.
  intros H. split; [|split; [|split]].
  - destruct (truthy (default PyNone (m !! "perfect_score")));
    destruct (truthy (default PyNone (m !! "completion_time")));
    cbn in H; try (destruct (py_lt _ 300) as [[|]|]; cbn in H); simplify_eq; lia.
  - intros [?|?]; simplify_eq.
  - intros m' [= <-] Hct. rewrite Hct in H. cbn in H.
    destruct (truthy _); simplify_eq; lia.
  - intros m' [= <-] Hps. rewrite Hps in H. cbn in H.
    destruct (truthy _); cbn in H; try (destruct (py_lt _ 300) as [[|]|]; cbn in H); simplify_eq; lia.
Qed.

Lemma mastery_points_bounds_witness :
  let md := Some ({[ "perfect_score" := PyInt 1; "completion_time" := PyInt 120 ]}
                  : gmap string pyval) in
  calculate_event_points "concept_mastered" md = Ok 40 /\ 25 <= 40 <= 40.
Proof.
  intros md.
  assert (calculate_event_points "concept_mastered" md = Ok 40) as H
    by (vm_compute; reflexivity).
  split; [exact H|]. exact (proj1 (mastery_points_bounds md 40 H)).
Defined.
End EventPointsFacts.

(** ** Awards: the stored row *)

Section AwardStoreFacts.
Import PointsEngine.

(** The store a returning award leaves behind. *)
Lemma award_points_ok_store s sid pts reason cid r s' :
  award_points sid pts reason cid s = (Ok r, s') ->
  exists p',
    _check_level_up (credited (prior_points sid s) pts) = Ok (level_up r, p')
    /\ committed s'
       = mkDb (<[sid := p']> (points (txn s)))
              (point_history (txn s) ++ [PointHistory.mk sid pts reason cid (utcnow s)])
              (badges (txn s)) (user_badges (txn s)) (streaks (txn s))
              (concept_progress (txn s))
    /\ txn s' = committed s'
    /\ utcnow s' = utcnow s /\ today s' = today s.
Proof.
  destruct s as [c t fs now td].
  unfold award_points, _get_or_create_points, prior_points, credited.
  unfold_m. intros H.
  repeat break_step; simplify_eq/=;
    (eexists; split; [eassumption|]);
    unfold set_points, set_point_history; cbn [points point_history badges user_badges streaks concept_progress];
    rewrite ?insert_insert_eq; destruct t; auto.
Qed.

Lemma check_level_up_fields p b p' :
  _check_level_up p = Ok (b, p') ->
  Points.student_id p' = Points.student_id p
  /\ Points.total_points p' = Points.total_points p
  /\ Points.lifetime_points p' = Points.lifetime_points p
  /\ Points.current_level p <= Points.current_level p'
  /\ (b = true <-> Points.current_level p < Points.current_level p')
  /\ Points.points_to_next_level p'
     = Points.current_level p' ^ 2 * 100 - Points.total_points p'
  /\ 0 <= Points.total_points p.
Proof.
  unfold _check_level_up.
  destruct (Z.ltb_spec (Points.total_points p) 0); [discriminate|].
  destruct (Z.ltb_spec (Points.current_level p) (level_for (Points.total_points p)));
    intros [= <- <-]; cbn; split_and!; try done; try lia; intuition (lia || discriminate).
Qed.

Lemma history_total_app sid db h :
  history_total sid (set_point_history (fun l => l ++ [h]) db)
  = history_total sid db
    + (if String.eqb (PointHistory.student_id h) sid then PointHistory.points_awarded h else 0).
Proof.
  unfold history_total, set_point_history. cbn [point_history].
  rewrite filter_app, fmap_app, foldr_app.
  assert (forall (l : list Z) a, foldr Z.add a l = foldr Z.add 0 l + a) as Hf.
  { induction l as [|x l IH]; intros a; cbn; [lia|]. rewrite IH. lia. }
  rewrite Hf. f_equal.
  destruct (String.eqb (PointHistory.student_id h) sid) eqn:E.
  - rewrite filter_cons_True by done. cbn. lia.
  - rewrite filter_cons_False by (rewrite E; discriminate). done.
Qed.

(** X3.  After an award the stored level is the larger of the level before
    and the level of the new total: a level never drops, also when the total
    does, and [level_up] is reported exactly when it rose.  The points to the
    next level are counted from the stored level. *)
Theorem award_points_level_never_drops (s : Session) (sid : string) (pts : Z)
    (reason : string) (cid : option string) (r : award) (s' : Session) :
  award_points sid pts reason cid s = (Ok r, s') ->
  exists p',
    points (committed s') !! sid = Some p'
    /\ Points.current_level p'
       = Z.max (Points.current_level (prior_points sid s))
               (level_for (Points.total_points (prior_points sid s) + pts))
    /\ Points.current_level (prior_points sid s) <= Points.current_level p'
    /\ current_level r = Points.current_level p'
    /\ (level_up r = true
        <-> Points.current_level (prior_points sid s) < Points.current_level p')
    /\ Points.points_to_next_level p'
       = Points.current_level p' ^ 2 * 100 - Points.total_points p'.
Proof.
  intros Hrun.
  destruct (award_points_ok _ _ _ _ _ _ _ Hrun) as (p' & Hchk & Hr & Hp' & _).
  pose proof (check_level_up_fields _ _ _ Hchk) as (_ & _ & _ & Hle & Hup & Hnext & _).
  exists p'. split_and!; try done.
  - unfold _check_level_up, credited in Hchk. cbn in Hchk.
    destruct (_ <? 0); [discriminate|].
    destruct (Z.ltb_spec (Points.current_level (prior_points sid s))
                (level_for (Points.total_points (prior_points sid s) + pts)));
      simplify_eq/=; lia.
  - rewrite Hr. reflexivity.
Qed.

Lemma award_points_level_never_drops_witness :
  let s := quiet_session (mkDb {[ "student" := veteran_points ]} [] [] ∅ ∅ []) in
  exists r s' p',
    award_points "student" 10 "bonus" None s = (Ok r, s')
    /\ points (committed s') !! "student" = Some p'
    /\ Points.current_level p' = 3.
Proof.
  intros s.
  destruct (award_points_fault_free s "student" 10 "bonus" None (fault_free_quiet _))
    as (r & s' & E).
  { vm_compute. discriminate. }
  destruct (award_points_level_never_drops s "student" 10 "bonus" None r s' E)
    as (p' & Hp' & Hl & _).
  exists r, s', p'. split; [exact E|]. split; [exact Hp'|]. rewrite Hl. reflexivity.
Defined.

Lemma award_points_keeps_fault_free s sid pts reason cid r s' :
  fault_free s -> award_points sid pts reason cid s = (r, s') -> fault_free s'.
Proof.
  destruct s as [c t fs now td].
  unfold award_points, _get_or_create_points, fault_free.
  unfold_m. intros Hff H.
  repeat break_step; simplify_eq/=; no_fault; auto.
Qed.

(** X4.  After an award of a non-negative amount to a row whose level fits
    its total, the points to the next level are positive and at most the
    width of the level, [100 * (2 * level - 1)]; earning exactly that many
    more reaches the next level. *)
Theorem points_to_next_level_bounds (s : Session) (sid : string) (pts : Z)
    (reason : string) (cid : option string) (r : award) (s' : Session) :
  0 <= pts ->
  is_level (Points.total_points (prior_points sid s))
           (Points.current_level (prior_points sid s)) ->
  award_points sid pts reason cid s = (Ok r, s') ->
  exists p',
    points (committed s') !! sid = Some p'
    /\ 0 < Points.points_to_next_level p' <= 100 * (2 * Points.current_level p' - 1)
    /\ level_for (Points.total_points p' + Points.points_to_next_level p')
       = Points.current_level p' + 1.
Proof.
  intros Hpts Hinv Hrun.
  destruct (award_points_ok _ _ _ _ _ _ _ Hrun) as (p' & Hchk & _ & Hp' & _).
  destruct (check_level_up_invariant _ _ _ _ Hinv Hpts Hchk) as (Htot & Hlvl & Hnext & _).
  exists p'. split; [done|].
  destruct Hlvl as (H1 & H2 & H3). rewrite Hnext. rewrite !Z.pow_2_r in *.
  split; [nia|].
  replace (Points.total_points p' + (Points.current_level p' * Points.current_level p' * 100
                                     - Points.total_points p'))
    with (Points.current_level p' * Points.current_level p' * 100) by lia.
  unfold level_for. rewrite Z.div_mul by lia.
  rewrite Z.sqrt_square by lia. reflexivity.
Qed.

Lemma points_to_next_level_bounds_witness :
  0 <= 100
  /\ is_level 0 1
  /\ exists r s' p',
       award_points "student" 100 "concept_mastered" None (quiet_session empty_db)
         = (Ok r, s')
       /\ points (committed s') !! "student" = Some p'
       /\ 0 < Points.points_to_next_level p' <= 100 * (2 * Points.current_level p' - 1).
Proof.
  assert (0 <= 100) as H0 by lia.
  assert (is_level 0 1) as H1 by (unfold is_level; lia).
  split; [exact H0|]. split; [exact H1|].
  destruct (award_points_fault_free (quiet_session empty_db) "student" 100
              "concept_mastered" None (fault_free_quiet _) H0) as (r & s' & E).
  destruct (points_to_next_level_bounds (quiet_session empty_db) "student" 100
              "concept_mastered" None r s' H0 H1 E) as (p' & Hp' & Hb & _).
  exists r, s', p'. split; [exact E|]. split; [exact Hp' | exact Hb].
Defined.

(** X5.  Awards keep the points row in step with the history: when the
    lifetime points of a student are the sum of the history entries and equal
    the total, they still are after an award, the sum has grown by the award,
    and the reported total is that sum. *)
Theorem award_points_keeps_ledger (s : Session) (sid : string) (pts : Z)
    (reason : string) (cid : option string) (r : award) (s' : Session) :
  ledger_ok sid (txn s) ->
  award_points sid pts reason cid s = (Ok r, s') ->
  ledger_ok sid (committed s')
  /\ history_total sid (committed s') = history_total sid (txn s) + pts
  /\ total_points r = history_total sid (committed s').
Proof.
  intros Hled Hrun. unfold ledger_ok in Hled. cbv zeta in Hled.
  fold (prior_points sid s) in Hled. destruct Hled as [Hlife Htot].
  destruct (award_points_ok_store _ _ _ _ _ _ _ Hrun) as (p' & Hchk & Hc & _).
  pose proof (check_level_up_fields _ _ _ Hchk) as (_ & Ht & Hl & _).
  unfold credited in Ht, Hl. cbn in Ht, Hl.
  assert (history_total sid (committed s') = history_total sid (txn s) + pts) as Hh.
  { rewrite Hc.
    change (mkDb ?a (?h ++ [?e]) ?b ?c ?d ?f)
      with (set_point_history (fun l => l ++ [e]) (mkDb a h b c d f)).
    rewrite history_total_app. cbn [PointHistory.student_id PointHistory.points_awarded].
    rewrite String.eqb_refl. unfold history_total. reflexivity. }
  assert (points (committed s') !! sid = Some p') as Hp'.
  { rewrite Hc. cbn. apply lookup_insert_eq. }
  split; [|split; [done|]].
  - unfold ledger_ok. rewrite Hp'. cbn [default]. cbv zeta. unfold id. lia.
  - enough (total_points r = Points.total_points p') by lia.
    destruct (award_points_ok _ _ _ _ _ _ _ Hrun) as (p'' & Hchk' & Hr' & _).
    rewrite Hr'. cbn. congruence.
Qed.

Lemma award_points_keeps_ledger_witness :
  let s := quiet_session empty_db in
  ledger_ok "student" (txn s)
  /\ exists r s',
       award_points "student" 100 "concept_mastered" None s = (Ok r, s')
       /\ ledger_ok "student" (committed s')
       /\ total_points r = 100.
Proof.
  intros s.
  assert (ledger_ok "student" (txn s)) as H0 by (split; reflexivity).
  split; [exact H0|].
  destruct (award_points_fault_free s "student" 100 "concept_mastered" None
              (fault_free_quiet _)) as (r & s' & E).
  { vm_compute. discriminate. }
  destruct (award_points_keeps_ledger s "student" 100 "concept_mastered" None r s' H0 E)
    as (Hl & Hh & Ht).
  exists r, s'. split; [exact E|]. split; [exact Hl|]. rewrite Ht, Hh. reflexivity.
Defined.

(** X6.  An award touches the points row and the history of its student
    only: the rows and the history sums of the other students, the badge
    catalog, the earned badges, the streaks and the concept progress are as
    before. *)
Theorem award_points_frame (s : Session) (sid : string) (pts : Z)
    (reason : string) (cid : option string) (r : award) (s' : Session) :
  award_points sid pts reason cid s = (Ok r, s') ->
  (forall other, other <> sid ->
     points (committed s') !! other = points (txn s) !! other
     /\ history_total other (committed s') = history_total other (txn s))
  /\ badges (committed s') = badges (txn s)
  /\ user_badges (committed s') = user_badges (txn s)
  /\ streaks (committed s') = streaks (txn s)
  /\ concept_progress (committed s') = concept_progress (txn s).
Proof.
  intros Hrun.
  destruct (award_points_ok_store _ _ _ _ _ _ _ Hrun) as (p' & _ & Hc & _).
  rewrite Hc. split; [|done].
  intros other Hne. split; [by cbn; rewrite lookup_insert_ne|].
  change (mkDb ?a (?h ++ [?e]) ?b ?c ?d ?f)
    with (set_point_history (fun l => l ++ [e]) (mkDb a h b c d f)).
  rewrite history_total_app. cbn [PointHistory.student_id].
  assert (String.eqb sid other = false) as -> by (apply String.eqb_neq; congruence).
  unfold history_total. cbn [point_history]. lia.
Qed.

Lemma award_points_frame_witness :
  let s := quiet_session (mkDb {[ "other" := veteran_points ]} [] [] ∅
                            {[ "student" := three_day_streak ]} []) in
  exists r s',
    award_points "student" 100 "concept_mastered" None s = (Ok r, s')
    /\ points (committed s') !! "other" = Some veteran_points
    /\ streaks (committed s') = streaks (txn s).
Proof.
  intros s.
  destruct (award_points_fault_free s "student" 100 "concept_mastered" None
              (fault_free_quiet _)) as (r & s' & E).
  { vm_compute. discriminate. }
  destruct (award_points_frame s "student" 100 "concept_mastered" None r s' E)
    as (Hothers & _ & _ & Hst & _).
  exists r, s'. split; [exact E|]. split; [|exact Hst].
  destruct (Hothers "other") as [Hp _]; [discriminate|]. rewrite Hp. reflexivity.
Defined.

Lemma level_for_mono a b : a <= b -> level_for a <= level_for b.
Proof.
  intros H. unfold level_for.
  pose proof (Z.div_le_mono a b 100 ltac:(lia) H).
  pose proof (Z.sqrt_le_mono _ _ H0). lia.
Qed.

Lemma check_level_up_exact p b p' :
  _check_level_up p = Ok (b, p') ->
  p' = Points.mk (Points.student_id p) (Points.total_points p)
         (Z.max (Points.current_level p) (level_for (Points.total_points p)))
         (Z.max (Points.current_level p) (level_for (Points.total_points p)) ^ 2 * 100
          - Points.total_points p)
         (Points.lifetime_points p).
Proof.
  unfold _check_level_up.
  destruct (_ <? 0); [discriminate|].
  destruct (Z.ltb_spec (Points.current_level p) (level_for (Points.total_points p)));
    intros [= <- <-].
  - rewrite Z.max_r by lia. reflexivity.
  - rewrite Z.max_l by lia. reflexivity.
Qed.

(** X7.  In a session without failures, an award that keeps the total
    non-negative followed by a non-negative award leaves the same points
    table, the same total and the same level as one award of the sum; only the
    history has one entry more. *)
Theorem award_points_twice (s : Session) (sid : string) (a b : Z)
    (reason1 reason2 reason : string) (cid1 cid2 cid : option string) :
  fault_free s ->
  0 <= Points.total_points (prior_points sid s) + a ->
  0 <= b ->
  exists r1 s1 r2 s2 r s3,
    award_points sid a reason1 cid1 s = (Ok r1, s1)
    /\ award_points sid b reason2 cid2 s1 = (Ok r2, s2)
    /\ award_points sid (a + b) reason cid s = (Ok r, s3)
    /\ points (committed s2) = points (committed s3)
    /\ total_points r2 = total_points r
    /\ current_level r2 = current_level r
    /\ length (point_history (committed s2))
       = S (length (point_history (committed s3))).
Proof.
  intros Hff Ha Hb.
  destruct (award_points_fault_free s sid a reason1 cid1 Hff Ha) as (r1 & s1 & H1).
  pose proof (award_points_keeps_fault_free _ _ _ _ _ _ _ Hff H1) as Hff1.
  destruct (award_points_ok_store _ _ _ _ _ _ _ H1) as (p1 & Hc1 & Hs1 & Ht1 & _).
  pose proof (check_level_up_exact _ _ _ Hc1) as E1.
  assert (prior_points sid s1 = p1) as Hprior1.
  { unfold prior_points. rewrite Ht1, Hs1. cbn. by rewrite lookup_insert_eq. }
  assert (Points.total_points p1 = Points.total_points (prior_points sid s) + a) as Htot1.
  { rewrite E1. reflexivity. }
  destruct (award_points_fault_free s1 sid b reason2 cid2 Hff1) as (r2 & s2 & H2).
  { rewrite Hprior1. lia. }
  destruct (award_points_fault_free s sid (a + b) reason cid Hff) as (r & s3 & H3); [lia|].
  exists r1, s1, r2, s2, r, s3. split; [done|]. split; [done|]. split; [done|].
  destruct (award_points_ok_store _ _ _ _ _ _ _ H2) as (p2 & Hc2 & Hs2 & _).
  destruct (award_points_ok_store _ _ _ _ _ _ _ H3) as (p3 & Hc3 & Hs3 & _).
  destruct (award_points_ok _ _ _ _ _ _ _ H2) as (p2' & Hc2' & Hr2 & _).
  destruct (award_points_ok _ _ _ _ _ _ _ H3) as (p3' & Hc3' & Hr3 & _).
  assert (p2' = p2) as -> by congruence.
  assert (p3' = p3) as -> by congruence.
  pose proof (check_level_up_exact _ _ _ Hc2) as E2.
  pose proof (check_level_up_exact _ _ _ Hc3) as E3.
  rewrite Hprior1 in E2.
  assert (p2 = p3) as Heq.
  { rewrite E2, E3, E1. unfold credited. cbn.
    pose proof (level_for_mono (Points.total_points (prior_points sid s) + a)
                  (Points.total_points (prior_points sid s) + a + b) ltac:(lia)).
    replace (Points.total_points (prior_points sid s) + (a + b))
      with (Points.total_points (prior_points sid s) + a + b) by lia.
    replace (Points.lifetime_points (prior_points sid s) + (a + b))
      with (Points.lifetime_points (prior_points sid s) + a + b) by lia.
    rewrite <- Z.max_assoc.
    rewrite (Z.max_r (level_for (Points.total_points (prior_points sid s) + a))) by lia.
    reflexivity. }
  split_and!.
  - rewrite Hs2, Hs3, Ht1, Hs1, Heq. cbn. by rewrite insert_insert_eq.
  - rewrite Hr2, Hr3, Heq. reflexivity.
  - rewrite Hr2, Hr3, Heq. reflexivity.
  - rewrite Hs2, Hs3, Ht1, Hs1. cbn. rewrite !length_app. cbn. lia.
Qed.

Lemma award_points_twice_witness :
  let s := quiet_session empty_db in
  fault_free s
  /\ 0 <= Points.total_points (prior_points "student" s) + 60
  /\ 0 <= 50
  /\ exists r1 s1 r2 s2 r s3,
       award_points "student" 60 "a" None s = (Ok r1, s1)
       /\ award_points "student" 50 "b" None s1 = (Ok r2, s2)
       /\ award_points "student" (60 + 50) "c" None s = (Ok r, s3)
       /\ points (committed s2) = points (committed s3)
       /\ total_points r2 = total_points r
       /\ current_level r2 = current_level r
       /\ length (point_history (committed s2))
          = S (length (point_history (committed s3))).
Proof.
  intros s.
  assert (fault_free s) as H0 by apply fault_free_quiet.
  assert (0 <= Points.total_points (prior_points "student" s) + 60) as H1
    by (vm_compute; discriminate).
  assert (0 <= 50) as H2 by lia.
  split; [exact H0|]. split; [exact H1|]. split; [exact H2|].
  exact (award_points_twice s "student" 60 50 "a" "b" "c" None None None H0 H1 H2).
Defined.
End AwardStoreFacts.

(** ** Points endpoints and the events without a badge rule *)

Section PointsRoutesFacts.
Import PointsEngine BadgeEngine.

Lemma unauthorized_check user sid : ~ authorized user sid ->
  negb (String.eqb (sub user) sid)
  && negb (existsb (String.eqb "instructor") (roles user)) = true.
Proof.
  intros H. apply andb_true_iff. split; apply negb_true_iff.
  - apply String.eqb_neq. intros E. apply H. by left.
  - apply not_true_is_false. intros E. apply H. right.
    apply existsb_exists in E as (x & Hin & Hx).
    apply String.eqb_eq in Hx as <-. by apply list_elem_of_In.
Qed.

Lemma get_student_points_run s sid user :
  authorized user sid -> fault_free s ->
  exists s1,
    PointsRoutes.get_student_points sid user s = (Ok (prior_points sid s), s1)
    /\ fault_free s1
    /\ points (txn s1) !! sid = Some (prior_points sid s)
    /\ (forall other, other <> sid -> points (txn s1) !! other = points (txn s) !! other)
    /\ (is_Some (points (txn s) !! sid) -> same_store s s1)
    /\ (points (txn s) !! sid = None ->
        txn s1 = set_points (insert sid (Points.default sid)) (txn s)
        /\ committed s1 = txn s1).
Proof.
  intros Hauth Hff.
  unfold PointsRoutes.get_student_points. rewrite (authorized_check _ _ Hauth).
  destruct s as [c t fs now td]. unfold prior_points, same_store, fault_free in *.
  unfold_m.
  repeat break_step; simplify_eq/=; no_fault; try congruence;
    eexists; (split; [reflexivity|]); cbn [points set_points txn committed faults];
    rewrite ?lookup_insert_eq; split_and!; eauto;
    try (intros; by rewrite lookup_insert_ne);
    try (by intros [? [=]]);
    try (intros; congruence).
Qed.

(** X8.  In a session without failures the points endpoint returns, to the
    student or to an instructor, the stored row or the default row.  A row
    that is there is only read: both stores stay as they were.  A row that is
    missing is added with the defaults and committed, so that afterwards the
    durable store is the session's view with that row in it.  The rows of the
    other students are untouched, and asking again returns the same row and
    changes nothing. *)
Theorem get_student_points_reads_or_creates (s : Session) (sid : string) (user : User) :
  authorized user sid -> fault_free s ->
  exists s1 s2,
    PointsRoutes.get_student_points sid user s = (Ok (prior_points sid s), s1)
    /\ PointsRoutes.get_student_points sid user s1 = (Ok (prior_points sid s), s2)
    /\ points (txn s1) !! sid = Some (prior_points sid s)
    /\ (forall other, other <> sid -> points (txn s1) !! other = points (txn s) !! other)
    /\ same_store s1 s2
    /\ (is_Some (points (txn s) !! sid) -> same_store s s1)
    /\ (points (txn s) !! sid = None ->
        txn s1 = set_points (insert sid (Points.default sid)) (txn s)
        /\ committed s1 = txn s1
        /\ points (committed s1) !! sid = Some (Points.default sid)).
Proof.
  intros Hauth Hff.
  destruct (get_student_points_run s sid user Hauth Hff)
    as (s1 & H1 & Hff1 & Hrow & Hothers & Hread & Hnew).
  destruct (get_student_points_run s1 sid user Hauth Hff1) as (s2 & H2 & _ & _ & _ & Hsame & _).
  exists s1, s2. split_and!; try done.
  - rewrite H2. unfold prior_points at 1. by rewrite Hrow.
  - apply Hsame. by rewrite Hrow.
  - intros Hnone. destruct (Hnew Hnone) as [Ht Hc]. split; [done|]. split; [done|].
    rewrite Hc, Hrow. unfold prior_points. by rewrite Hnone.
Qed.

Lemma get_student_points_reads_or_creates_witness :
  let s := quiet_session empty_db in
  authorized student_user "student"
  /\ fault_free s
  /\ points (txn s) !! "student" = None
  /\ exists s1 s2,
       PointsRoutes.get_student_points "student" student_user s
         = (Ok (Points.default "student"), s1)
       /\ PointsRoutes.get_student_points "student" student_user s1
          = (Ok (Points.default "student"), s2)
       /\ same_store s1 s2
       /\ points (committed s1) !! "student" = Some (Points.default "student").
Proof.
  intros s.
  assert (authorized student_user "student") as H0 by (left; reflexivity).
  assert (fault_free s) as H1 by apply fault_free_quiet.
  assert (points (txn s) !! "student" = None) as H2 by reflexivity.
  split; [exact H0|]. split; [exact H1|]. split; [exact H2|].
  destruct (get_student_points_reads_or_creates s "student" student_user H0 H1)
    as (s1 & s2 & E1 & E2 & _ & _ & Hsame & _ & Hnew).
  destruct (Hnew H2) as (_ & _ & Hc).
  exists s1, s2. split; [exact E1|]. split; [exact E2|]. split; [exact Hsame | exact Hc].
Defined.

Lemma existsb_role role (rs : list string) :
  existsb (String.eqb role) rs = true <-> role ∈ rs.
Proof.
  rewrite existsb_exists. split.
  - intros (x & Hin & Hx). apply String.eqb_eq in Hx as <-. by apply list_elem_of_In.
  - intros Hin. exists role. split; [by apply list_elem_of_In|apply String.eqb_refl].
Qed.

Lemma may_award_check user :
  negb (existsb (String.eqb "instructor") (roles user))
  && negb (existsb (String.eqb "system") (roles user)) = false <-> may_award user.
Proof.
  unfold may_award. rewrite andb_false_iff, !negb_false_iff, !existsb_role. done.
Qed.

Lemma check_badge_criteria_other sid b et ed s :
  et <> "concept_mastered" -> et <> "daily_streak" ->
  _check_badge_criteria sid b et ed s = (Ok false, s).
Proof.
  intros H1 H2. unfold _check_badge_criteria.
  apply String.eqb_neq in H1, H2. rewrite H1, H2.
  repeat (destruct (String.eqb _ _)); reflexivity.
Qed.

Lemma award_loop_other sid et ed bs acc s :
  et <> "concept_mastered" -> et <> "daily_streak" ->
  award_loop sid et ed bs acc s = (Ok acc, s).
Proof.
  intros H1 H2. induction bs as [|b bs IH]; [reflexivity|].
  rewrite award_loop_cons, check_badge_criteria_other by done. exact IH.
Qed.

(** X9.  An event that is neither a mastery nor a daily streak earns no
    badge: [check_and_award_badges] returns the empty list and writes nothing,
    or raises the failure of its one storage call. *)
Theorem other_events_award_nothing (s : Session) (sid et : string)
    (ed : gmap string pyval) (r : result (list earned)) (s' : Session) :
  et <> "concept_mastered" -> et <> "daily_streak" ->
  check_and_award_badges sid et ed s = (r, s') ->
  same_store s s'
  /\ (r = Ok [] \/ exists e, r = Raise e /\ head (faults s) = Some (Some e)).
Proof.
  intros H1 H2. rewrite check_and_award_run.
  destruct (db_step s) as [[[]|e] s1] eqn:E.
  - rewrite award_loop_other by done. intros [= <- <-].
    split; [by eapply db_step_store|by left].
  - intros [= <- <-]. split; [by eapply db_step_store|right].
    exists e. split; [done|].
    destruct s as [c t fs now td]. unfold db_step in E. cbn in *.
    repeat break_step; simplify_eq/=; done.
Qed.

Lemma other_events_award_nothing_witness :
  let s := quiet_session (mkDb ∅ [] [consistency_king] ∅ ∅ []) in
  "points_awarded" <> "concept_mastered"
  /\ "points_awarded" <> "daily_streak"
  /\ check_and_award_badges "student" "points_awarded" week_streak s = (Ok [], s)
  /\ same_store s s.
Proof.
  intros s.
  assert ("points_awarded" <> "concept_mastered") as H0 by discriminate.
  assert ("points_awarded" <> "daily_streak") as H1 by discriminate.
  assert (check_and_award_badges "student" "points_awarded" week_streak s = (Ok [], s)) as H2
    by reflexivity.
  split; [exact H0|]. split; [exact H1|]. split; [exact H2|].
  exact (proj1 (other_events_award_nothing s "student" "points_awarded" week_streak
                  (Ok []) s H0 H1 H2)).
Defined.

(** X10.  A caller who is neither the student nor an instructor gets 403
    from the points endpoint, and a caller without the instructor or system
    role gets 403 from the award endpoint; in both cases before any storage
    call, so the session is as it was. *)
Theorem points_endpoints_forbidden (s : Session) (sid : string) (pts : Z)
    (reason : string) (cid : option string) (user : User) :
  (~ authorized user sid ->
     PointsRoutes.get_student_points sid user s = (Raise (HTTPException 403), s))
  /\ (~ may_award user ->
     PointsRoutes.award_points sid pts reason cid user s = (Raise (HTTPException 403), s)).
Proof.
  split; intros H.
  - unfold PointsRoutes.get_student_points.
    rewrite (unauthorized_check _ _ H). reflexivity.
  - unfold PointsRoutes.award_points.
    destruct (negb _ && negb _) eqn:E; [reflexivity|].
    by apply may_award_check in E.
Qed.

Lemma points_endpoints_forbidden_witness :
  let s := quiet_session empty_db in
  ~ authorized other_user "student"
  /\ ~ may_award student_user
  /\ PointsRoutes.get_student_points "student" other_user s
     = (Raise (HTTPException 403), s)
  /\ PointsRoutes.award_points "student" 100 "bonus" None student_user s
     = (Raise (HTTPException 403), s).
Proof.
  intros s.
  assert (~ authorized other_user "student") as H0.
  { intros [H|H]; [discriminate H|]. apply elem_of_nil in H. exact H. }
  assert (~ may_award student_user) as H1.
  { intros [H|H]; apply elem_of_nil in H; exact H. }
  split; [exact H0|]. split; [exact H1|].
  destruct (points_endpoints_forbidden s "student" 100 "bonus" None other_user) as [Hget _].
  destruct (points_endpoints_forbidden s "student" 100 "bonus" None student_user) as [_ Haward].
  split; [exact (Hget H0) | exact (Haward H1)].
Defined.

(** X11.  When the award endpoint returns, the caller was an instructor or
    the system, the response is the engine's result for the same award, its
    list of earned badges is empty and the table of earned badges is as
    before: the event it sends to the badge engine matches no rule. *)
Theorem award_route_reports_no_badges (s : Session) (sid : string) (pts : Z)
    (reason : string) (cid : option string) (user : User)
    (resp : PointsRoutes.award_response) (s' : Session) :
  PointsRoutes.award_points sid pts reason cid user s = (Ok resp, s') ->
  may_award user
  /\ PointsRoutes.earned_badges resp = []
  /\ user_badges (committed s') = user_badges (txn s)
  /\ exists s1, award_points sid pts reason cid s = (Ok (PointsRoutes.result_ resp), s1)
               /\ same_store s1 s'.
Proof.
  unfold PointsRoutes.award_points.
  destruct (negb _ && negb _) eqn:E; [discriminate|].
  apply may_award_check in E. unfold bind at 1.
  destruct (award_points sid pts reason cid s) as [[r|e] s1] eqn:Haward; [|discriminate].
  unfold bind at 1.
  destruct (check_and_award_badges _ _ _ s1) as [[l|e] s2] eqn:Hbadges; [|discriminate].
  intros [= <- <-].
  rewrite check_and_award_run in Hbadges.
  destruct (db_step s1) as [[[]|e] s1'] eqn:Estep; [|discriminate].
  rewrite award_loop_other in Hbadges by discriminate. injection Hbadges as <- <-.
  pose proof (db_step_store _ _ _ Estep) as Hsame.
  split_and!; try done.
  - destruct Hsame as (-> & _).
    destruct (award_points_ok_store _ _ _ _ _ _ _ Haward) as (p' & _ & -> & _). done.
  - by exists s1.
Qed.

Lemma award_route_reports_no_badges_witness :
  let s := quiet_session (mkDb ∅ [] [consistency_king] ∅ ∅ []) in
  exists resp s',
    PointsRoutes.award_points "student" 100 "bonus" None instructor_user s = (Ok resp, s')
    /\ PointsRoutes.earned_badges resp = [].
Proof.
  intros s.
  destruct (PointsRoutes.award_points "student" 100 "bonus" None instructor_user s)
    as [[resp|e] s'] eqn:E.
  - exists resp, s'. split; [reflexivity|].
    exact (proj1 (proj2 (award_route_reports_no_badges s "student" 100 "bonus" None
                           instructor_user resp s' E))).
  - exfalso. vm_compute in E. discriminate E.
Defined.

(** X12.  The award endpoint is not atomic: when the award has returned and
    the storage call of the badge check fails, the endpoint raises that
    failure although the points and the history entry are durable. *)
Theorem award_route_not_atomic (s : Session) (sid : string) (pts : Z)
    (reason : string) (cid : option string) (user : User)
    (r : award) (s1 : Session) (e : exn) :
  may_award user ->
  award_points sid pts reason cid s = (Ok r, s1) ->
  head (faults s1) = Some (Some e) ->
  exists s',
    PointsRoutes.award_points sid pts reason cid user s = (Raise e, s')
    /\ committed s' = committed s1
    /\ history_total sid (committed s') = history_total sid (txn s) + pts.
Proof.
  intros Hmay Haward Hfault.
  unfold PointsRoutes.award_points.
  apply may_award_check in Hmay. rewrite Hmay.
  unfold bind at 1. rewrite Haward. unfold bind at 1.
  rewrite check_and_award_run.
  destruct s1 as [c1 t1 fs1 now1 td1]. cbn in Hfault.
  destruct fs1 as [|[e'|] fs1]; simplify_eq/=.
  unfold db_step. cbn. eexists. split; [reflexivity|]. cbn. split; [done|].
  destruct (award_points_ok_store _ _ _ _ _ _ _ Haward) as (p' & _ & Hc & _).
  cbn in Hc. rewrite Hc.
  change (mkDb ?a (?h ++ [?x]) ?b ?c ?d ?f)
    with (set_point_history (fun l => l ++ [x]) (mkDb a h b c d f)).
  rewrite history_total_app. cbn [PointHistory.student_id PointHistory.points_awarded].
  rewrite String.eqb_refl. unfold history_total. reflexivity.
Qed.

Lemma award_route_not_atomic_witness :
  may_award instructor_user
  /\ exists r s1 s',
       award_points "student" 100 "bonus" None fourth_call_fails = (Ok r, s1)
       /\ head (faults s1) = Some (Some (DBError 1))
       /\ PointsRoutes.award_points "student" 100 "bonus" None instructor_user
            fourth_call_fails = (Raise (DBError 1), s')
       /\ history_total "student" (committed s') = 100.
Proof.
  assert (may_award instructor_user) as H0 by (left; apply list_elem_of_here).
  split; [exact H0|].
  destruct (award_points "student" 100 "bonus" None fourth_call_fails)
    as [[r|e] s1] eqn:E; [|exfalso; vm_compute in E; discriminate E].
  assert (head (faults s1) = Some (Some (DBError 1))) as H1.
  { pose proof E as E'. vm_compute in E'. injection E' as _ Hs. rewrite <- Hs. reflexivity. }
  destruct (award_route_not_atomic fourth_call_fails "student" 100 "bonus" None
              instructor_user r s1 (DBError 1) H0 E H1) as (s' & E2 & _ & Hh).
  exists r, s1, s'. split; [reflexivity|]. split; [exact H1|]. split; [exact E2|].
  rewrite Hh. reflexivity.
Defined.
End PointsRoutesFacts.

(** ** Badges: what can be earned, and when *)

Section BadgeRuleFacts.
Import BadgeEngine Gamification PyDate PyDateFacts.

Lemma check_badge_criteria_true sid b et ed s s' :
  _check_badge_criteria sid b et ed s = (Ok true, s') -> rule_for b et.
Proof.
  unfold _check_badge_criteria, rule_for.
  destruct (String.eqb_spec (Badge.name b) "Quick Learner") as [->|_].
  { destruct (String.eqb_spec et "concept_mastered") as [->|_]; [auto|discriminate]. }
  destruct (String.eqb_spec (Badge.name b) "Consistency King") as [->|_].
  { destruct (String.eqb_spec et "daily_streak") as [->|_]; [auto|discriminate]. }
  destruct (String.eqb_spec (Badge.name b) "Subject Master") as [->|_].
  { destruct (String.eqb_spec et "concept_mastered") as [->|_]; [auto|discriminate]. }
  discriminate.
Qed.

Lemma award_loop_from_catalog sid et ed bs : forall acc s l s',
  award_loop sid et ed bs acc s = (Ok l, s') ->
  forall x, x ∈ l ->
    x ∈ acc \/ exists b, b ∈ bs /\ x = earned_of b /\ rule_for b et.
Proof.
  induction bs as [|b bs IH]; intros acc s l s' H x Hx.
  - cbn in H. unfold ret in H. simplify_eq. by left.
  - rewrite award_loop_cons in H.
    destruct (_check_badge_criteria sid b et ed s) as [[[]|e] s1] eqn:Hc; [| |discriminate].
    + destruct (_award_badge sid b s1) as [[[ub|]|e] s2] eqn:Ha; [| |discriminate].
      * destruct (IH _ _ _ _ H x Hx) as [Hin|(b' & Hb' & ? & ?)].
        -- apply elem_of_app in Hin as [Hin|Hin]; [by left|].
           apply list_elem_of_singleton in Hin as ->. right. exists b.
           split_and!; [left|done|by eapply check_badge_criteria_true].
        -- right. exists b'. split_and!; [by right|done..].
      * destruct (IH _ _ _ _ H x Hx) as [Hin|(b' & Hb' & ? & ?)]; [by left|].
        right. exists b'. split_and!; [by right|done..].
    + destruct (IH _ _ _ _ H x Hx) as [Hin|(b' & Hb' & ? & ?)]; [by left|].
      right. exists b'. split_and!; [by right|done..].
Qed.

Lemma check_and_award_reports sid et ed s l s' :
  check_and_award_badges sid et ed s = (Ok l, s') ->
  forall x, x ∈ l -> awarded (sid, badge_id x) s'.
Proof.
  rewrite check_and_award_run.
  destruct (db_step s) as [[[]|e] s1] eqn:E; [|discriminate].
  intros H x Hx.
  destruct (award_loop_reports _ _ _ _ _ _ _ _ H x Hx) as [Hin|Haw]; [|done].
  by apply elem_of_nil in Hin.
Qed.

(** X13.  Every badge that [check_and_award_badges] reports is an active
    badge of the catalog, named by one of the three rules for the event at
    hand, and is in the table of earned badges afterwards; a badge with any
    other name is never earned. *)
Theorem earned_badges_from_catalog (s : Session) (sid et : string)
    (ed : gmap string pyval) (l : list earned) (s' : Session) :
  check_and_award_badges sid et ed s = (Ok l, s') ->
  forall x, x ∈ l ->
    awarded (sid, badge_id x) s'
    /\ exists b, b ∈ badges (txn s) /\ Badge.is_active b = true
                 /\ x = earned_of b /\ rule_for b et.
Proof.
  intros H x Hx. split; [by eapply check_and_award_reports|].
  rewrite check_and_award_run in H.
  destruct (db_step s) as [[[]|e] s1] eqn:E; [|discriminate].
  apply db_step_store in E as (_ & Ht & _).
  destruct (award_loop_from_catalog _ _ _ _ _ _ _ _ H x Hx) as [Hin|(b & Hb & ? & ?)].
  { by apply elem_of_nil in Hin. }
  apply list_elem_of_filter in Hb as [Hact Hb]. rewrite Ht in Hb.
  exists b. done.
Qed.

Lemma earned_badges_from_catalog_witness :
  let s := quiet_session (mkDb ∅ [] [consistency_king] ∅ ∅ []) in
  exists l s',
    check_and_award_badges "student" "daily_streak" week_streak s = (Ok l, s')
    /\ forall x, x ∈ l ->
         awarded ("student", badge_id x) s'
         /\ exists b, b ∈ badges (txn s) /\ Badge.is_active b = true
                      /\ x = earned_of b /\ rule_for b "daily_streak".
Proof.
  intros s.
  destruct (check_and_award_fault_free "student" "daily_streak" week_streak s
              (fault_free_quiet _) (streak_event_ok 7)) as (l & s' & E & _).
  exists l, s'. split; [exact E|].
  exact (earned_badges_from_catalog s "student" "daily_streak" week_streak l s' E).
Defined.

(** X14.  When the commit of a new badge fails, [_award_badge] does not
    raise: it returns nothing, and the rollback drops the badge together with
    every other change pending in the session. *)
Theorem award_badge_swallows_commit_failure (s : Session) (sid : string)
    (b : Badge.t) (e : exn) (fs : list (option exn)) :
  faults s = None :: Some e :: fs ->
  user_badges (txn s) !! (sid, Badge.id b) = None ->
  _award_badge sid b s
  = (Ok None, mkSession (committed s) (committed s) fs (utcnow s) (today s)).
Proof.
  destruct s as [c t fs0 now td]. cbn. intros -> Hnone.
  unfold _award_badge. unfold_m. rewrite Hnone. reflexivity.
Qed.

Lemma award_badge_swallows_commit_failure_witness :
  let s := second_call_fails in
  faults s = [None; Some (DBError 1)]
  /\ user_badges (txn s) !! ("student", Badge.id consistency_king) = None
  /\ _award_badge "student" consistency_king s
     = (Ok None, mkSession (committed s) (committed s) [] (utcnow s) (today s)).
Proof.
  intros s.
  assert (faults s = [None; Some (DBError 1)]) as H0 by reflexivity.
  assert (user_badges (txn s) !! ("student", Badge.id consistency_king) = None) as H1
    by reflexivity.
  split; [exact H0|]. split; [exact H1|].
  exact (award_badge_swallows_commit_failure s "student" consistency_king (DBError 1) [] H0 H1).
Defined.

Lemma award_loop_all_false sid et ed bs acc s :
  (forall b s, _check_badge_criteria sid b et ed s = (Ok false, s)) ->
  award_loop sid et ed bs acc s = (Ok acc, s).
Proof.
  intros H. induction bs as [|b bs IH]; [reflexivity|].
  rewrite award_loop_cons, H. exact IH.
Qed.

Lemma short_streak_criteria sid b n s :
  n < 7 ->
  _check_badge_criteria sid b "daily_streak" {[ "streak_days" := PyInt n ]} s = (Ok false, s).
Proof.
  intros Hn. unfold _check_badge_criteria.
  repeat (destruct (String.eqb (Badge.name b) _)); try reflexivity.
  cbn. unfold lift, dict_get. rewrite lookup_singleton_eq. cbn.
  destruct (Z.leb_spec 7 n); [lia|done].
Qed.

Lemma streak_criteria_value db now sid b n :
  Badge.name b = "Consistency King" ->
  criteria_value db now sid b "daily_streak" {[ "streak_days" := PyInt n ]}
  = Ok (7 <=? n).
Proof.
  intros Hname. unfold criteria_value. rewrite Hname. cbn.
  unfold dict_get. rewrite lookup_singleton_eq. reflexivity.
Qed.

Lemma check_and_award_keeps key sid et ed s r s' :
  awarded key s -> check_and_award_badges sid et ed s = (r, s') -> awarded key s'.
Proof.
  intros Haw. rewrite check_and_award_run.
  destruct (db_step s) as [[[]|e] s1] eqn:E.
  - apply db_step_store in E. eapply award_loop_keeps. by eapply same_store_awarded.
  - intros [= <- <-]. apply db_step_store in E. by eapply same_store_awarded.
Qed.

(** The tail of [update_streak] on a streak [st]: the streak badge is held
    afterwards exactly when it was held before or the streak has seven
    days. *)
Lemma commit_and_check_badges_badge sid st s b :
  fault_free s ->
  b ∈ badges (txn s) -> Badge.is_active b = true ->
  Badge.name b = "Consistency King" ->
  user_badges (txn s) !! (sid, Badge.id b) = None ->
  exists s', commit_and_check_badges sid st s = (Ok st, s')
    /\ streaks_are (streaks (txn s)) s'
    /\ (is_Some (user_badges (committed s') !! (sid, Badge.id b))
        <-> 7 <= Streak.current_streak st).
Proof.
  intros Hff Hb Hact Hname Hnone.
  destruct (commit_and_check_badges_fault_free sid st s Hff) as (s' & E & _ & Hst).
  exists s'. split; [done|]. split; [done|].
  revert E. unfold commit_and_check_badges, db_refresh, bind.
  destruct (db_commit_fault_free s Hff) as (s1 & -> & Hff1 & Hc1 & Ht1 & _ & _).
  destruct (db_step_fault_free s1 Hff1) as (s2 & -> & Hff2 & (Hc2 & Ht2 & _)).
  set (ed := {[ "streak_days" := PyInt (Streak.current_streak st) ]} : gmap string pyval).
  destruct (check_and_award_badges sid "daily_streak" ed s2) as [[l|e] s3] eqn:E;
    [|discriminate].
  intros [= <-].
  destruct (Z.le_gt_cases 7 (Streak.current_streak st)) as [Hge|Hlt].
  - split; [done|]. intros _.
    destruct (check_and_award_awards sid "daily_streak" ed b s2 Hff2 (streak_event_ok _))
      as (l' & s3' & E' & Hin & _).
    + by rewrite Ht2, Ht1.
    + done.
    + unfold ed. rewrite streak_criteria_value by done.
      f_equal. by apply Z.leb_le.
    + by rewrite Ht2, Ht1.
    + rewrite E in E'. simplify_eq.
      apply list_elem_of_fmap in Hin as (x & Hid & Hx).
      destruct (check_and_award_reports _ _ _ _ _ _ E x Hx) as [_ Hcom].
      by rewrite <- Hid in Hcom.
  - split; [|lia]. intros Hsome. exfalso.
    rewrite check_and_award_run in E.
    destruct (db_step_fault_free s2 Hff2) as (s2' & E2 & _ & (Hc2' & _)).
    rewrite E2 in E. unfold ed in E.
    rewrite award_loop_all_false in E by (intros; by apply short_streak_criteria).
    simplify_eq. rewrite Hc2', Hc2, Hc1, Hnone in Hsome. by destruct Hsome.
Qed.

(** X15.  When a streak continues from yesterday in a session without
    failures, an active "Consistency King" badge that the student does not
    hold yet is held afterwards exactly when the streak has reached seven
    days, that is when it stood at six or more. *)
Theorem streak_badge_at_seven_days (s : Session) (sid : string) (user : User)
    (st : Streak.t) (yesterday : PyDate.date) (b : Badge.t) :
  sub user = sid -> fault_free s -> valid (today s) = true ->
  streaks (txn s) !! sid = Some st ->
  sub_days (today s) 1 = Ok yesterday ->
  Streak.last_activity_date st = Some yesterday ->
  b ∈ badges (txn s) -> Badge.is_active b = true ->
  Badge.name b = "Consistency King" ->
  user_badges (txn s) !! (sid, Badge.id b) = None ->
  exists s',
    update_streak sid user s = (Ok (continued st (today s)), s')
    /\ (is_Some (user_badges (committed s') !! (sid, Badge.id b))
        <-> 6 <= Streak.current_streak st).
Proof.
  intros Hsub Hff Hv Hst Hy Hlast Hb Hact Hname Hnone.
  destruct (sub_days_1 _ _ Hv Hy) as [_ Hord].
  unfold update_streak.
  rewrite Hsub, String.eqb_refl. cbn [negb]. unfold bind at 1.
  destruct (db_execute_fault_free (fun db => streaks db !! sid) s Hff)
    as (s1 & -> & Hff1 & (_ & Ht1 & _ & Htd1)).
  rewrite Hst. unfold bind at 1, get_today. rewrite Htd1, Hlast.
  rewrite (eqb_neq_ordinal yesterday (today s)) by lia.
  unfold bind at 1, lift. rewrite Hy, eqb_refl. cbv zeta.
  unfold bind at 1, db_update.
  set (st' := Streak.mk _ _ _ _ _ _).
  assert (st' = continued st (today s)) as ->.
  { unfold st', continued.
    destruct (Z.ltb_spec (Streak.longest_streak st) (Streak.current_streak st + 1)).
    - rewrite Z.max_r by lia. done.
    - rewrite Z.max_l by lia. done. }
  destruct (commit_and_check_badges_badge sid (continued st (today s))
              (with_txn (set_streak sid (continued st (today s))) s1) b)
    as (s' & E & _ & Hiff); try done.
  - cbn. by rewrite Ht1.
  - cbn. by rewrite Ht1.
  - exists s'. split; [done|]. rewrite Hiff. cbn. lia.
Qed.

Lemma streak_badge_at_seven_days_witness :
  let s := quiet_session (mkDb ∅ [] [consistency_king] ∅
                            {[ "student" := six_day_streak ]} []) in
  sub student_user = "student"
  /\ fault_free s
  /\ PyDate.valid (today s) = true
  /\ streaks (txn s) !! "student" = Some six_day_streak
  /\ PyDate.sub_days (today s) 1 = Ok (PyDate.mkdate 2025 12 31)
  /\ consistency_king ∈ badges (txn s)
  /\ user_badges (txn s) !! ("student", Badge.id consistency_king) = None
  /\ exists s',
       update_streak "student" student_user s
         = (Ok (continued six_day_streak (today s)), s')
       /\ is_Some (user_badges (committed s') !! ("student", Badge.id consistency_king)).
Proof.
  intros s.
  assert (fault_free s) as H1 by apply fault_free_quiet.
  assert (streaks (txn s) !! "student" = Some six_day_streak) as H3 by reflexivity.
  assert (PyDate.sub_days (today s) 1 = Ok (PyDate.mkdate 2025 12 31)) as H4 by reflexivity.
  assert (consistency_king ∈ badges (txn s)) as H6 by apply list_elem_of_here.
  assert (user_badges (txn s) !! ("student", Badge.id consistency_king) = None) as H9
    by reflexivity.
  split; [reflexivity|]. split; [exact H1|]. split; [reflexivity|]. split; [exact H3|].
  split; [exact H4|]. split; [exact H6|]. split; [exact H9|].
  destruct (streak_badge_at_seven_days s "student" student_user six_day_streak
              (PyDate.mkdate 2025 12 31) consistency_king
              eq_refl H1 eq_refl H3 H4 eq_refl H6 eq_refl eq_refl H9) as (s' & E & Hiff).
  exists s'. split; [exact E|]. apply Hiff. vm_compute. discriminate.
Defined.
End BadgeRuleFacts.

(** ** Streaks: one update a day, counts in order *)

Section StreakOrderFacts.
Import BadgeEngine Gamification PyDate PyDateFacts.

Lemma award_badge_today sid b s r s' :
  _award_badge sid b s = (r, s') -> today s' = today s.
Proof.
  destruct s as [c t fs now td]. unfold _award_badge.
  unfold_m. intros H.
  repeat break_step; simplify_eq/=; auto.
Qed.

Lemma award_loop_today sid et ed bs : forall acc s r s',
  award_loop sid et ed bs acc s = (r, s') -> today s' = today s.
Proof.
  induction bs as [|b bs IH]; intros acc s r s'.
  - cbn. intros [= <- <-]. done.
  - rewrite award_loop_cons.
    destruct (_check_badge_criteria sid b et ed s) as [[[|]|e] s1] eqn:E1;
      apply check_badge_criteria_store in E1 as (_ & _ & _ & Htd1).
    + destruct (_award_badge sid b s1) as [[[ub|]|e] s2] eqn:E2;
        apply award_badge_today in E2.
      * intros H. apply IH in H. congruence.
      * intros H. apply IH in H. congruence.
      * intros [= <- <-]. congruence.
    + intros H. apply IH in H. congruence.
    + intros [= <- <-]. done.
Qed.

Lemma check_and_award_today sid et ed s r s' :
  check_and_award_badges sid et ed s = (r, s') -> today s' = today s.
Proof.
  rewrite check_and_award_run.
  destruct (db_step s) as [[[]|e] s1] eqn:E1; apply db_step_store in E1 as (_ & _ & _ & Htd1).
  - intros H. apply award_loop_today in H. congruence.
  - intros [= <- <-]. done.
Qed.

Lemma stored_streak_session sid st s :
  fault_free s ->
  exists s', (run! db_update (set_streak sid st) in commit_and_check_badges sid st) s
             = (Ok st, s')
    /\ fault_free s' /\ today s' = today s
    /\ streaks (committed s') !! sid = Some st
    /\ streaks (txn s') !! sid = Some st.
Proof.
  intros Hff. unfold bind at 1, db_update.
  destruct (commit_and_check_badges_fault_free sid st (with_txn (set_streak sid st) s))
    as (s' & E & Hff' & Ht & Hc); [done|].
  exists s'. split; [done|]. split; [done|]. split.
  - revert E. unfold commit_and_check_badges, db_refresh, bind.
    destruct (db_commit_fault_free (with_txn (set_streak sid st) s) Hff)
      as (s1 & -> & Hff1 & _ & _ & _ & Htd1).
    destruct (db_step_fault_free s1 Hff1) as (s2 & -> & Hff2 & (_ & _ & _ & Htd2)).
    destruct (check_and_award_badges _ _ _ s2) as [[l|e] s3] eqn:E; [|discriminate].
    intros [= <-]. apply check_and_award_today in E. rewrite E, Htd2, Htd1. done.
  - rewrite Ht, Hc. cbn. rewrite lookup_insert_eq. done.
Qed.

Lemma update_streak_run s sid user yesterday :
  sub user = sid -> fault_free s ->
  sub_days (today s) 1 = Ok yesterday ->
  exists s',
    update_streak sid user s = (Ok (updated_streak sid s yesterday), s')
    /\ fault_free s' /\ today s' = today s
    /\ streaks (txn s') !! sid = Some (updated_streak sid s yesterday).
Proof.
  intros Hsub Hff Hy. unfold update_streak, updated_streak.
  rewrite Hsub, String.eqb_refl. cbn [negb]. unfold bind at 1.
  destruct (db_execute_fault_free (fun db => streaks db !! sid) s Hff)
    as (s1 & -> & Hff1 & (Hc1 & Ht1 & _ & Htd1)).
  unfold bind at 1, get_today. rewrite Htd1.
  destruct (streaks (txn s) !! sid) as [st|] eqn:Hst.
  - destruct (match Streak.last_activity_date st with
              | Some last => eqb last (today s) | None => false end) eqn:Hsame.
    + destruct (Streak.last_activity_date st) as [last|]; [|discriminate].
      rewrite Hsame. exists s1. unfold ret. split_and!; try done. by rewrite Ht1.
    + unfold bind at 1, lift. rewrite Hy. cbv zeta.
      match goal with
      | |- context [bind (db_update (set_streak sid ?x)) _] => set (st' := x)
      end.
      destruct (stored_streak_session sid st' s1 Hff1) as (s' & E & Hff' & Htd' & _ & Ht').
      assert (st' = match Streak.last_activity_date st with
                    | Some last =>
                        if eqb last (today s) then st
                        else if eqb last yesterday then continued st (today s)
                        else restarted st (today s)
                    | None => restarted st (today s)
                    end) as <-.
      { subst st'. destruct (Streak.last_activity_date st) as [last|]; [|done].
        rewrite Hsame. destruct (eqb last yesterday); [|done].
        unfold continued.
        destruct (Z.ltb_spec (Streak.longest_streak st) (Streak.current_streak st + 1)).
        - rewrite Z.max_r by lia. done.
        - rewrite Z.max_l by lia. done. }
      exists s'. split_and!; try done. congruence.
  - destruct (stored_streak_session sid (first_streak sid (today s)) s1 Hff1)
      as (s' & E & Hff' & Htd' & _ & Ht').
    exists s'. split_and!; try done. congruence.
Qed.

Lemma updated_streak_today sid s yesterday :
  Streak.last_activity_date (updated_streak sid s yesterday) = Some (today s).
Proof.
  unfold updated_streak.
  destruct (streaks (txn s) !! sid) as [st|]; [|done].
  destruct (Streak.last_activity_date st) as [last|] eqn:E; [|done].
  destruct (eqb last (today s)) eqn:E1.
  - apply eqb_eq in E1 as ->. done.
  - destruct (eqb last yesterday); done.
Qed.

(** X16.  In a session without failures [update_streak] leaves a row last
    active today, and a second update on the same day returns that row and
    changes nothing. *)
Theorem update_streak_once_a_day (s : Session) (sid : string) (user : User)
    (yesterday : PyDate.date) :
  sub user = sid -> fault_free s ->
  sub_days (today s) 1 = Ok yesterday ->
  exists st s1 s2,
    update_streak sid user s = (Ok st, s1)
    /\ update_streak sid user s1 = (Ok st, s2)
    /\ same_store s1 s2
    /\ Streak.last_activity_date st = Some (today s).
Proof.
  intros Hsub Hff Hy.
  destruct (update_streak_run s sid user yesterday Hsub Hff Hy)
    as (s1 & E1 & Hff1 & Htd1 & Ht1).
  pose proof (updated_streak_today sid s yesterday) as Hlast.
  destruct (update_streak_same_day s1 sid user _ Hsub Hff1 Ht1) as (s2 & E2 & Hsame).
  { by rewrite Htd1. }
  eauto 10.
Qed.

Lemma update_streak_once_a_day_witness :
  let s := quiet_session (mkDb ∅ [] [] ∅ {[ "student" := three_day_streak ]} []) in
  sub student_user = "student"
  /\ fault_free s
  /\ PyDate.sub_days (today s) 1 = Ok (PyDate.mkdate 2025 12 31)
  /\ exists st s1 s2,
       update_streak "student" student_user s = (Ok st, s1)
       /\ update_streak "student" student_user s1 = (Ok st, s2)
       /\ same_store s1 s2
       /\ Streak.last_activity_date st = Some (today s).
Proof.
  intros s.
  assert (fault_free s) as H1 by apply fault_free_quiet.
  assert (PyDate.sub_days (today s) 1 = Ok (PyDate.mkdate 2025 12 31)) as H2 by reflexivity.
  split; [reflexivity|]. split; [exact H1|]. split; [exact H2|].
  exact (update_streak_once_a_day s "student" student_user (PyDate.mkdate 2025 12 31)
           eq_refl H1 H2).
Defined.

(** X17.  [update_streak] keeps the streak counts in order.  When the
    stored row, if there is one, has a longest streak of at least one day that
    is at least the current streak and at most the days of activity, so has
    the row after the update, and neither the longest streak nor the days of
    activity have gone down.  (A row created by a read has a longest streak
    of 0, and a new streak started on it would exceed it.) *)
Theorem update_streak_keeps_order (s : Session) (sid : string) (user : User)
    (yesterday : PyDate.date) :
  sub user = sid -> fault_free s ->
  sub_days (today s) 1 = Ok yesterday ->
  (forall st, streaks (txn s) !! sid = Some st -> streak_ok st) ->
  exists st' s',
    update_streak sid user s = (Ok st', s')
    /\ streaks (txn s') !! sid = Some st'
    /\ streak_ok st'
    /\ (forall st, streaks (txn s) !! sid = Some st ->
          Streak.longest_streak st <= Streak.longest_streak st'
          /\ Streak.total_active_days st <= Streak.total_active_days st').
Proof.
  intros Hsub Hff Hy Hok.
  destruct (update_streak_run s sid user yesterday Hsub Hff Hy)
    as (s1 & E1 & Hff1 & Htd1 & Ht1).
  exists (updated_streak sid s yesterday), s1.
  split; [done|]. split; [done|].
  unfold updated_streak.
  destruct (streaks (txn s) !! sid) as [st|] eqn:Hst.
  - specialize (Hok st eq_refl). pose proof Hok as (H1 & H2 & H3).
    assert (streak_ok (continued st (today s))
            /\ Streak.longest_streak st <= Streak.longest_streak (continued st (today s))
            /\ Streak.total_active_days st <= Streak.total_active_days (continued st (today s)))
      as Hcont by (unfold streak_ok, continued; cbn; lia).
    assert (streak_ok (restarted st (today s))
            /\ Streak.longest_streak st <= Streak.longest_streak (restarted st (today s))
            /\ Streak.total_active_days st <= Streak.total_active_days (restarted st (today s)))
      as Hrest by (unfold streak_ok, restarted; cbn; lia).
    destruct (Streak.last_activity_date st) as [last|];
      [destruct (eqb last (today s)); [|destruct (eqb last yesterday)]|];
      (split; [tauto || done|intros ? [= <-]; tauto || lia]).
  - split; [unfold streak_ok, first_streak; cbn; lia|]. intros ? [=].
Qed.

Lemma update_streak_keeps_order_witness :
  let s := quiet_session (mkDb ∅ [] [] ∅ {[ "student" := three_day_streak ]} []) in
  sub student_user = "student"
  /\ fault_free s
  /\ PyDate.sub_days (today s) 1 = Ok (PyDate.mkdate 2025 12 31)
  /\ (forall st, streaks (txn s) !! "student" = Some st -> streak_ok st)
  /\ exists st' s',
       update_streak "student" student_user s = (Ok st', s')
       /\ streak_ok st'.
Proof.
  intros s.
  assert (fault_free s) as H1 by apply fault_free_quiet.
  assert (PyDate.sub_days (today s) 1 = Ok (PyDate.mkdate 2025 12 31)) as H2 by reflexivity.
  assert (forall st, streaks (txn s) !! "student" = Some st -> streak_ok st) as H3.
  { intros st H. vm_compute in H. injection H as <-. unfold streak_ok. cbn. lia. }
  split; [reflexivity|]. split; [exact H1|]. split; [exact H2|]. split; [exact H3|].
  destruct (update_streak_keeps_order s "student" student_user (PyDate.mkdate 2025 12 31)
              eq_refl H1 H2 H3) as (st' & s' & E & _ & Hok & _).
  exists st', s'. split; [exact E | exact Hok].
Defined.
End StreakOrderFacts.

(** ** Analytics: the periods partition the calendar *)

Section DateRangeFacts.
Import PyDate PyDateFacts AnalyticsEngine.

Lemma weekly_range_inv d start end_ :
  valid d = true ->
  _get_date_range "weekly" d = Ok (start, end_) ->
  valid start = true /\ valid end_ = true
  /\ toordinal start = toordinal d - weekday d
  /\ toordinal end_ = toordinal start + 6.
Proof.
  intros Hv. pose proof Hv as Hv'. apply valid_spec in Hv' as [_ Hwf].
  unfold _get_date_range. cbn [String.eqb Ascii.eqb Bool.eqb]. unfold sub_days.
  destruct (add_days d (- weekday d)) as [s|e] eqn:Hs; [|discriminate].
  cbn [result_bind].
  destruct (add_days_Ok _ _ _ Hwf Hs) as [Hvs Hos].
  pose proof Hvs as Hvs'. apply valid_spec in Hvs' as [_ Hwfs].
  destruct (add_days s 6) as [e|e] eqn:He; [|discriminate].
  cbn [result_bind]. intros [= <- <-].
  destruct (add_days_Ok _ _ _ Hwfs He) as [Hve Hoe].
  split_and!; try done; lia.
Qed.

Lemma monthly_range_december_9999 d :
  valid d = true -> year d = 9999 -> month d = 12 ->
  _get_date_range "monthly" d = Raise OverflowError.
Proof.
  destruct d as [y m dd]. cbn [year month]. intros Hv -> ->.
  unfold _get_date_range. cbn [String.eqb Ascii.eqb Bool.eqb]. reflexivity.
Qed.

Lemma other_period_is_monthly period d :
  period <> "daily" -> period <> "weekly" ->
  _get_date_range period d = _get_date_range "monthly" d.
Proof.
  intros H1 H2. unfold _get_date_range.
  apply String.eqb_neq in H1, H2. rewrite H1, H2. reflexivity.
Qed.

Lemma same_month d d' :
  valid d = true -> valid d' = true ->
  toordinal (mkdate (year d) (month d) 1) <= toordinal d'
    <= toordinal (mkdate (year d) (month d) (days_in_month (year d) (month d))) ->
  year d' = year d /\ month d' = month d.
Proof.
  intros Hv Hv' [Hlo Hhi].
  apply valid_spec in Hv as [Hy [Hm Hd]], Hv' as [Hy' Hwf'].
  pose proof (days_in_month_range (year d) (month d) Hm) as Hdim.
  assert (wf_md (mkdate (year d) (month d) 1)) as Hwf1 by (unfold wf_md; cbn; lia).
  assert (wf_md (mkdate (year d) (month d) (days_in_month (year d) (month d)))) as Hwfl
    by (unfold wf_md; cbn; lia).
  assert (lt d' (mkdate (year d) (month d) 1) = false) as H1.
  { apply not_true_is_false. rewrite lt_iff_toordinal by done. lia. }
  assert (lt (mkdate (year d) (month d) (days_in_month (year d) (month d))) d' = false) as H2.
  { apply not_true_is_false. rewrite lt_iff_toordinal by done. lia. }
  unfold lt in H1, H2. cbn [year month day] in H1, H2.
  destruct Hwf' as [Hm' Hd'].
  destruct (Z.ltb_spec (year d') (year d)); [discriminate|].
  destruct (Z.ltb_spec (year d) (year d')); [discriminate|].
  assert (year d' = year d) as Ey by lia. rewrite Ey in *.
  rewrite Z.eqb_refl in H1, H2. cbn [orb andb] in H1, H2.
  destruct (Z.ltb_spec (month d') (month d)); [discriminate|].
  destruct (Z.ltb_spec (month d) (month d')); [discriminate|].
  split; [done|lia].
Qed.

(** X18.  The ranges of a period partition the calendar: whenever
    [_get_date_range] returns for a valid anchor, the range holds valid dates,
    contains the anchor, and every valid date inside it resolves to the same
    range.  A period that is neither "daily" nor "weekly" is resolved as a
    month. *)
Theorem date_range_partition (period : string) (d start end_ : PyDate.date) :
  valid d = true ->
  _get_date_range period d = Ok (start, end_) ->
  valid start = true /\ valid end_ = true
  /\ toordinal start <= toordinal d <= toordinal end_
  /\ forall d', valid d' = true ->
       toordinal start <= toordinal d' <= toordinal end_ ->
       _get_date_range period d' = Ok (start, end_).
Proof.
  intros Hv Hrun.
  pose proof Hv as Hv0. apply valid_spec in Hv0 as [Hy Hwf].
  destruct (String.eqb_spec period "daily") as [->|Hnd].
  { cbn in Hrun. injection Hrun as <- <-. split_and!; try done; try lia.
    intros d' Hv' Hin. apply valid_spec in Hv' as [_ Hwf'].
    rewrite (toordinal_inj d' d) by (done || lia). reflexivity. }
  destruct (String.eqb_spec period "weekly") as [->|Hnw].
  { destruct (weekly_range_inv _ _ _ Hv Hrun) as (Hvs & Hve & Hos & Hoe).
    assert (0 <= weekday d < 7) as Hw by (unfold weekday; Z.div_mod_to_equations; lia).
    split_and!; try done; try lia.
    intros d' Hv' Hin.
    pose proof (valid_ordinal_range _ Hve) as Hre.
    assert (weekday d' = toordinal d' - toordinal start) as Hw'.
    { unfold weekday in *. Z.div_mod_to_equations. lia. }
    destruct (weekly_range d' Hv') as (start' & end' & -> & Hvs' & Hve' & _ & Hos' & Hoe').
    { lia. }
    apply valid_spec in Hvs as [_ ?], Hve as [_ ?], Hvs' as [_ ?], Hve' as [_ ?].
    rewrite (toordinal_inj start' start) by (done || lia).
    rewrite (toordinal_inj end' end_) by (done || lia). reflexivity. }
  rewrite other_period_is_monthly in Hrun by done.
  assert (~ (year d = 9999 /\ month d = 12)) as Hdec.
  { intros [E1 E2]. rewrite monthly_range_december_9999 in Hrun by done. discriminate. }
  rewrite monthly_range in Hrun by done. injection Hrun as <- <-.
  destruct Hwf as [Hm Hd].
  pose proof (days_in_month_range (year d) (month d) Hm) as Hdim.
  split_and!.
  - apply valid_spec. unfold wf_md. cbn. lia.
  - apply valid_spec. unfold wf_md. cbn. lia.
  - unfold toordinal. cbn. lia.
  - unfold toordinal. cbn. lia.
  - intros d' Hv' Hin.
    destruct (same_month d d' Hv Hv' Hin) as [Ey Em].
    rewrite other_period_is_monthly by done.
    rewrite monthly_range by (done || rewrite Ey, Em; done).
    rewrite Ey, Em. reflexivity.
Qed.

Lemma date_range_partition_witness :
  let d := PyDate.mkdate 2024 2 15 in
  PyDate.valid d = true
  /\ _get_date_range "weekly" d = Ok (PyDate.mkdate 2024 2 12, PyDate.mkdate 2024 2 18)
  /\ _get_date_range "weekly" (PyDate.mkdate 2024 2 18)
     = Ok (PyDate.mkdate 2024 2 12, PyDate.mkdate 2024 2 18).
Proof.
  intros d.
  assert (PyDate.valid d = true) as H0 by reflexivity.
  assert (_get_date_range "weekly" d
          = Ok (PyDate.mkdate 2024 2 12, PyDate.mkdate 2024 2 18)) as H1 by reflexivity.
  split; [exact H0|]. split; [exact H1|].
  destruct (date_range_partition "weekly" d _ _ H0 H1) as (_ & _ & _ & Hall).
  apply (Hall (PyDate.mkdate 2024 2 18)); [reflexivity|].
  vm_compute. split; discriminate.
Defined.
End DateRangeFacts.

(** ** Analytics: points and badges of a period *)

Section PeriodFacts.
Import PyDate PyDateFacts PointsEngine BadgeEngine PeriodAggregates.

Lemma default_sql_sum l : default 0 (sql_sum l) = foldr Z.add 0 l.
Proof. destruct l; reflexivity. Qed.

Lemma get_points_earned_run sid d1 d2 upper s :
  fault_free s -> add_days d2 1 = Ok upper ->
  exists s', _get_points_earned sid d1 d2 s
             = (Ok (points_between sid (midnight d1) (midnight upper) (txn s)), s')
    /\ same_store s s' /\ fault_free s'.
Proof.
  intros Hff Hup. unfold _get_points_earned, lift. unfold bind at 1. rewrite Hup.
  unfold bind at 1.
  destruct (db_execute_fault_free
              (fun db => sql_sum (PointHistory.points_awarded
                 <$> filter (fun h => history_in sid (midnight d1) (midnight upper) h = true)
                            (point_history db))) s Hff) as (s' & -> & Hff' & Hsame).
  exists s'. unfold ret. rewrite default_sql_sum. done.
Qed.

Lemma midnight_next d d' : valid d = true -> add_days d 1 = Ok d' ->
  valid d' = true /\ midnight d' = midnight d + 86400.
Proof.
  intros Hv H. apply valid_spec in Hv as [_ Hwf].
  destruct (add_days_Ok _ _ _ Hwf H) as [Hv' Ho]. split; [done|].
  unfold midnight. lia.
Qed.

Lemma points_between_app sid lo hi db h :
  points_between sid lo hi (set_point_history (fun l => l ++ [h]) db)
  = points_between sid lo hi db
    + (if history_in sid lo hi h then PointHistory.points_awarded h else 0).
Proof.
  unfold points_between. cbn [point_history set_point_history].
  rewrite filter_app, fmap_app, foldr_app.
  rewrite filter_cons, filter_nil.
  destruct (decide _) as [E|E].
  - rewrite E. cbn. generalize (PointHistory.points_awarded h). intros z.
    induction (filter _ _) as [|x l IH]; cbn; [lia|]. rewrite IH. lia.
  - apply not_true_is_false in E. rewrite E. cbn. lia.
Qed.

(** X22.  An award shows in the points of its day: when the clock readings
    agree and no storage call fails, the points earned today as the analytics
    count them are, after an award, the points earned today before it plus the
    award. *)
Theorem award_shows_in_daily_points (s : Session) (sid : string) (pts : Z)
    (reason : string) (cid : option string) (r : award) (s1 : Session)
    (tomorrow : PyDate.date) :
  fault_free s -> valid (today s) = true ->
  clock_agrees s ->
  add_days (today s) 1 = Ok tomorrow ->
  award_points sid pts reason cid s = (Ok r, s1) ->
  exists before s2 s3,
    _get_points_earned sid (today s) (today s) s = (Ok before, s2)
    /\ _get_points_earned sid (today s) (today s) s1 = (Ok (before + pts), s3).
Proof.
  intros Hff Hv Hclock Htom Haward. unfold clock_agrees in Hclock.
  destruct (midnight_next _ _ Hv Htom) as [_ Hmid].
  pose proof (award_points_keeps_fault_free _ _ _ _ _ _ _ Hff Haward) as Hff1.
  destruct (award_points_ok_store _ _ _ _ _ _ _ Haward) as (p' & _ & Hc & Ht & Hnow & Htd).
  destruct (get_points_earned_run sid (today s) (today s) tomorrow s Hff Htom)
    as (s2 & E2 & _).
  destruct (get_points_earned_run sid (today s) (today s) tomorrow s1 Hff1 Htom)
    as (s3 & E3 & _).
  exists (points_between sid (midnight (today s)) (midnight tomorrow) (txn s)), s2, s3.
  split; [done|]. rewrite E3. do 2 f_equal.
  rewrite Ht, Hc.
  change (mkDb ?a (?h ++ [?x]) ?b ?c ?d ?f)
    with (set_point_history (fun l => l ++ [x]) (mkDb a h b c d f)).
  rewrite points_between_app.
  unfold history_in, between. cbn [PointHistory.student_id PointHistory.awarded_at
    PointHistory.points_awarded].
  rewrite String.eqb_refl.
  destruct (Z.leb_spec (midnight (today s)) (utcnow s)); [|lia].
  destruct (Z.leb_spec (utcnow s) (midnight tomorrow)); [|lia].
  cbn. unfold points_between. reflexivity.
Qed.

Lemma award_shows_in_daily_points_witness :
  let s := quiet_session empty_db in
  fault_free s
  /\ PyDate.valid (today s) = true
  /\ clock_agrees s
  /\ PyDate.add_days (today s) 1 = Ok (PyDate.mkdate 2026 1 2)
  /\ exists r s1 s2 s3,
       award_points "student" 25 "concept_mastered" None s = (Ok r, s1)
       /\ _get_points_earned "student" (today s) (today s) s = (Ok 0, s2)
       /\ _get_points_earned "student" (today s) (today s) s1 = (Ok 25, s3).
Proof.
  intros s.
  assert (fault_free s) as H0 by apply fault_free_quiet.
  assert (clock_agrees s) as H2 by (vm_compute; split; [discriminate|reflexivity]).
  assert (PyDate.add_days (today s) 1 = Ok (PyDate.mkdate 2026 1 2)) as H3 by reflexivity.
  split; [exact H0|]. split; [reflexivity|]. split; [exact H2|]. split; [exact H3|].
  destruct (award_points_fault_free s "student" 25 "concept_mastered" None H0)
    as (r & s1 & E).
  { vm_compute. discriminate. }
  destruct (award_shows_in_daily_points s "student" 25 "concept_mastered" None r s1
              (PyDate.mkdate 2026 1 2) H0 eq_refl H2 H3 E) as (before & s2 & s3 & E2 & E3).
  assert (before = 0) as Hb.
  { assert (fst (_get_points_earned "student" (today s) (today s) s) = Ok 0) as H
      by reflexivity.
    rewrite E2 in H. injection H as H. exact H. }
  rewrite Hb in E2, E3.
  exists r, s1, s2, s3. split; [exact E|]. split; [exact E2 | exact E3].
Defined.

Lemma points_between_adjacent sid m0 m1 m2 db :
  m0 <= m1 <= m2 ->
  points_between sid m0 m1 db + points_between sid m1 m2 db
  = points_between sid m0 m2 db + points_at sid m1 db.
Proof.
  intros Hm. unfold points_between, points_at.
  induction (point_history db) as [|h l IH]; [reflexivity|].
  rewrite !filter_cons.
  unfold history_in, between in *.
  destruct (String.eqb (PointHistory.student_id h) sid); cbn [andb].
  - destruct (Z.leb_spec m0 (PointHistory.awarded_at h)),
             (Z.leb_spec (PointHistory.awarded_at h) m1),
             (Z.leb_spec m1 (PointHistory.awarded_at h)),
             (Z.leb_spec (PointHistory.awarded_at h) m2),
             (Z.eqb_spec (PointHistory.awarded_at h) m1);
      try lia; cbn [andb];
      repeat case_decide; try done; try congruence; cbn; lia.
  - repeat case_decide; try done.
Qed.

(** X23.  The ranges of two days in a row share the midnight between them,
    because the query takes both ends of a range: the points of the two days
    add up to the points of the two-day range plus the points awarded at the
    very instant of that midnight, which are counted for both days. *)
Theorem daily_points_share_midnight (s : Session) (sid : string)
    (d d1 d2 : PyDate.date) :
  fault_free s -> valid d = true ->
  add_days d 1 = Ok d1 -> add_days d1 1 = Ok d2 ->
  exists a b ab s1 s2 s3,
    _get_points_earned sid d d s = (Ok a, s1)
    /\ _get_points_earned sid d1 d1 s = (Ok b, s2)
    /\ _get_points_earned sid d d1 s = (Ok ab, s3)
    /\ a + b = ab + points_at sid (midnight d1) (txn s).
Proof.
  intros Hff Hv H1 H2.
  destruct (midnight_next _ _ Hv H1) as [Hv1 Hm1].
  destruct (midnight_next _ _ Hv1 H2) as [_ Hm2].
  destruct (get_points_earned_run sid d d d1 s Hff H1) as (s1 & E1 & _).
  destruct (get_points_earned_run sid d1 d1 d2 s Hff H2) as (s2 & E2 & _).
  destruct (get_points_earned_run sid d d1 d2 s Hff H2) as (s3 & E3 & _).
  do 6 eexists. split; [exact E1|]. split; [exact E2|]. split; [exact E3|].
  apply points_between_adjacent. lia.
Qed.

Lemma daily_points_share_midnight_witness :
  let s := quiet_session (mkDb ∅ midnight_history [] ∅ ∅ []) in
  let d := PyDate.mkdate 2026 1 1 in
  let d1 := PyDate.mkdate 2026 1 2 in
  let d2 := PyDate.mkdate 2026 1 3 in
  fault_free s
  /\ PyDate.valid d = true
  /\ PyDate.add_days d 1 = Ok d1
  /\ PyDate.add_days d1 1 = Ok d2
  /\ points_at "student" (midnight d1) (txn s) = 25
  /\ exists a b ab s1 s2 s3,
       _get_points_earned "student" d d s = (Ok a, s1)
       /\ _get_points_earned "student" d1 d1 s = (Ok b, s2)
       /\ _get_points_earned "student" d d1 s = (Ok ab, s3)
       /\ a + b = ab + points_at "student" (midnight d1) (txn s).
Proof.
  intros s d d1 d2.
  assert (fault_free s) as H0 by apply fault_free_quiet.
  assert (PyDate.add_days d 1 = Ok d1) as H2 by reflexivity.
  assert (PyDate.add_days d1 1 = Ok d2) as H3 by reflexivity.
  split; [exact H0|]. split; [reflexivity|]. split; [exact H2|]. split; [exact H3|].
  split; [reflexivity|].
  exact (daily_points_share_midnight s "student" d d1 d2 H0 eq_refl H2 H3).
Defined.

Lemma award_badge_new sid b s ub s' :
  fault_free s ->
  _award_badge sid b s = (Ok (Some ub), s') ->
  ub = UserBadge.mk sid (Badge.id b) (utcnow s)
  /\ user_badges (txn s) !! (sid, Badge.id b) = None
  /\ user_badges (txn s') = <[(sid, Badge.id b) := ub]> (user_badges (txn s))
  /\ fault_free s' /\ utcnow s' = utcnow s /\ today s' = today s.
Proof.
  destruct s as [c t fs now td]. unfold _award_badge, fault_free.
  unfold_m. intros Hff H.
  repeat break_step; simplify_eq/=; no_fault; split_and!; auto.
Qed.

(** X24.  A badge awarded now is counted among the badges of today: when
    the clock readings agree and no storage call fails, the count of the
    analytics for today is one higher after [_award_badge] has awarded a
    badge. *)
Theorem awarded_badge_counts_today (s : Session) (sid : string) (b : Badge.t)
    (ub : UserBadge.t) (s1 : Session) (tomorrow : PyDate.date) :
  fault_free s -> valid (today s) = true ->
  clock_agrees s ->
  add_days (today s) 1 = Ok tomorrow ->
  _award_badge sid b s = (Ok (Some ub), s1) ->
  exists n s2 s3,
    _get_badges_earned sid (today s) (today s) s = (Ok n, s2)
    /\ _get_badges_earned sid (today s) (today s) s1 = (Ok (n + 1), s3).
Proof.
  intros Hff Hv Hclock Htom Haward. unfold clock_agrees in Hclock.
  destruct (midnight_next _ _ Hv Htom) as [_ Hmid].
  destruct (award_badge_new _ _ _ _ _ Hff Haward) as (-> & Hnone & Ht & Hff1 & _ & _).
  unfold _get_badges_earned, lift. unfold bind at 1 3. rewrite Htom.
  unfold bind at 1 2.
  set (q := fun db : Db => Z.of_nat (length (filter
              (fun kv : string * string * UserBadge.t =>
                 badge_in sid (midnight (today s)) (midnight tomorrow) kv.2 = true)
              (map_to_list (user_badges db))))).
  destruct (db_execute_fault_free q s Hff) as (s2 & -> & _).
  destruct (db_execute_fault_free q s1 Hff1) as (s3 & -> & _).
  exists (q (txn s)), s2, s3. split; [done|]. unfold ret. do 2 f_equal.
  unfold q. rewrite Ht.
  rewrite (map_to_list_insert _ _ _ Hnone).
  rewrite filter_cons. cbn [snd].
  destruct (decide _) as [E|E]; [cbn [length]; lia|].
  exfalso. apply E. unfold badge_in, between.
  cbn [UserBadge.student_id UserBadge.earned_at]. rewrite String.eqb_refl.
  apply andb_true_iff. split; [done|]. apply andb_true_iff. split; apply Z.leb_le; lia.
Qed.

Lemma awarded_badge_counts_today_witness :
  let s := quiet_session (mkDb ∅ [] [consistency_king] ∅ ∅ []) in
  fault_free s
  /\ PyDate.valid (today s) = true
  /\ clock_agrees s
  /\ PyDate.add_days (today s) 1 = Ok (PyDate.mkdate 2026 1 2)
  /\ exists ub s1 n s2 s3,
       _award_badge "student" consistency_king s = (Ok (Some ub), s1)
       /\ _get_badges_earned "student" (today s) (today s) s = (Ok n, s2)
       /\ _get_badges_earned "student" (today s) (today s) s1 = (Ok (n + 1), s3).
Proof.
  intros s.
  assert (fault_free s) as H0 by apply fault_free_quiet.
  assert (clock_agrees s) as H2 by (vm_compute; split; [discriminate|reflexivity]).
  assert (PyDate.add_days (today s) 1 = Ok (PyDate.mkdate 2026 1 2)) as H3 by reflexivity.
  split; [exact H0|]. split; [reflexivity|]. split; [exact H2|]. split; [exact H3|].
  destruct (_award_badge "student" consistency_king s) as [[[ub|]|e] s1] eqn:E;
    [|exfalso; vm_compute in E; discriminate E..].
  destruct (awarded_badge_counts_today s "student" consistency_king ub s1
              (PyDate.mkdate 2026 1 2) H0 eq_refl H2 H3 E) as (n & s2 & s3 & E2 & E3).
  exists ub, s1, n, s2, s3. split; [reflexivity|]. split; [exact E2 | exact E3].
Defined.

End PeriodFacts.

(** ** Notifications *)

Section NotificationFacts.
Import PyDate PyDateFacts Gamification NotificationEngine.

Lemma default_types_enabled sid key :
  default true (notification_types (_get_notification_preferences sid) !! key) = true.
Proof.
  destruct (_ !! key) as [b|] eqn:E; [|reflexivity]. cbn in E |- *.
  repeat (apply lookup_insert_Some in E as [[_ <-]|[_ E]]; [reflexivity|]).
  apply lookup_singleton_Some in E as [_ <-]. reflexivity.
Qed.

(** X25.  With the preferences that every student has, a notification of
    any event type is sent exactly when the hour of the UTC clock is from 8 to
    21: every category is enabled, and the quiet hours run from 22 over
    midnight to 8. *)
Theorem default_quiet_hours (s : Session) (sid event_type : string) :
  _should_send_notification event_type (_get_notification_preferences sid) s
  = (Ok ((8 <=? hour_of (utcnow s)) && (hour_of (utcnow s) <? 22)), s)
  /\ 0 <= hour_of (utcnow s) < 24.
Proof.
  split.
  - unfold _should_send_notification. rewrite default_types_enabled.
    cbn [negb quiet_hours_enabled quiet_hours_start quiet_hours_end
         _get_notification_preferences].
    unfold bind, get_utcnow, ret.
    change (8 <? 22) with true. cbv iota.
    destruct (Z.leb_spec 22 (hour_of (utcnow s))), (Z.ltb_spec (hour_of (utcnow s)) 8),
             (Z.leb_spec 8 (hour_of (utcnow s))), (Z.ltb_spec (hour_of (utcnow s)) 22);
      try lia; reflexivity.
  - unfold hour_of. Z.div_mod_to_equations. lia.
Qed.

(** X27.  After [update_streak] has run today in a session without
    failures, no streak warning is due: the warning asks for a last activity
    of yesterday, and the update has set it to today. *)
Theorem no_streak_warning_after_activity (s : Session) (sid : string) (user : User)
    (yesterday : PyDate.date) :
  sub user = sid -> fault_free s -> valid (today s) = true ->
  sub_days (today s) 1 = Ok yesterday ->
  exists st s1 s2,
    update_streak sid user s = (Ok st, s1)
    /\ _should_send_streak_warning sid s1 = (Ok false, s2).
Proof.
  intros Hsub Hff Hv Hy.
  destruct (update_streak_run s sid user yesterday Hsub Hff Hy)
    as (s1 & E1 & Hff1 & Htd1 & Ht1).
  pose proof (updated_streak_today sid s yesterday) as Hlast.
  destruct (sub_days_1 _ _ Hv Hy) as [_ Hord].
  exists (updated_streak sid s yesterday), s1.
  unfold _should_send_streak_warning. unfold bind at 1.
  destruct (db_execute_fault_free (fun db => streaks db !! sid) s1 Hff1)
    as (s2 & -> & _ & (_ & _ & _ & Htd2)).
  rewrite Ht1.
  destruct (Streak.current_streak _ <? 3); [by eexists|].
  unfold bind, get_today, lift, ret. rewrite Htd2, Htd1, Hy, Hlast.
  rewrite (eqb_neq_ordinal (today s) yesterday) by lia. by eexists.
Qed.

Lemma no_streak_warning_after_activity_witness :
  let s := quiet_session (mkDb ∅ [] [] ∅ {[ "student" := three_day_streak ]} []) in
  sub student_user = "student"
  /\ fault_free s
  /\ PyDate.valid (today s) = true
  /\ PyDate.sub_days (today s) 1 = Ok (PyDate.mkdate 2025 12 31)
  /\ exists st s1 s2,
       update_streak "student" student_user s = (Ok st, s1)
       /\ _should_send_streak_warning "student" s1 = (Ok false, s2).
Proof.
  intros s.
  assert (fault_free s) as H1 by apply fault_free_quiet.
  assert (PyDate.sub_days (today s) 1 = Ok (PyDate.mkdate 2025 12 31)) as H3 by reflexivity.
  split; [reflexivity|]. split; [exact H1|]. split; [reflexivity|]. split; [exact H3|].
  exact (no_streak_warning_after_activity s "student" student_user
           (PyDate.mkdate 2025 12 31) eq_refl H1 eq_refl H3).
Defined.
End NotificationFacts.
